(** * AKTimeLine: a sample-accurate playback timeline

    Shallow embedding of [AudioKit/Common/Internals/Utilities/AKTimeLine.c]
    and the properties of its clock-domain converter, control API and render
    scheduler.

    Conventions of the embedding.
    - [Float64] values are embedded as exact rationals kept in lowest terms.
      Binary64 computes [+], [-] and [fmod] without rounding whenever the
      exact result is a binary64 number ([binary64]), as it is for sample
      positions, loop bounds and frame counts on whole samples of magnitude
      up to [2 ^ 53]; an operation whose IEEE result is an infinity or a NaN
      (division by zero, [fmod] by zero) has no rational image and yields the
      fault [NotFinite].  Where an addition rounds, the rationals say more
      than the machine does: a theorem whose conclusion needs an addition to
      be exact for other values carries that as a hypothesis, and module
      [Binary64] gives [TimeStampOffset] on the doubles of the machine.
    - Fixed-width integers are [Z]; integer-to-integer conversions wrap
      (two's complement), floating-to-integer conversions truncate towards
      zero and are undefined out of range (fault [Undefined]).
    - [assert] is live: a failed assertion is the fault [AssertionFailed].
    - The [while] loop of the render scheduler runs on fuel; [OutOfFuel] is
      the only outcome that depends on the fuel given.  It is also the
      outcome of the wait loop of [AKTimelineStart] when no render call has
      set [lastRenderFrames]. *)

From Stdlib Require Import ZArith QArith Qround Qreduction Qabs Qcanon.
From Stdlib Require Import Lia Lqa List Bool.
From Stdlib Require Floats.
Import ListNotations.

Open Scope Z_scope.

(** ** Outcomes of a call *)

Inductive fault : Type :=
| AssertionFailed   (* assert(...) does not hold *)
| NotFinite         (* a double that is an infinity or a NaN *)
| Undefined.        (* undefined behaviour of a conversion or of signed overflow *)

Inductive outcome (A : Type) : Type :=
| Done (a : A)
| Fault (f : fault)
| OutOfFuel.

Arguments Done {A} a.
Arguments Fault {A} f.
Arguments OutOfFuel {A}.

Definition bind {A B : Type} (m : outcome A) (k : A -> outcome B) : outcome B :=
  match m with
  | Done a => k a
  | Fault f => Fault f
  | OutOfFuel => OutOfFuel
  end.

Definition omap {A B : Type} (f : A -> B) (m : outcome A) : outcome B :=
  bind m (fun a => Done (f a)).

Declare Scope outcome_scope.
Delimit Scope outcome_scope with outcome.
Notation "x <- m ;; k" := (bind m (fun x => k))
  (at level 61, m at next level, right associativity) : outcome_scope.
Notation "' pat <- m ;; k" := (bind m (fun x => match x with pat => k end))
  (at level 61, pat pattern, m at next level, right associativity) : outcome_scope.
Open Scope outcome_scope.

(** ** Machine integers *)

Definition wrapUInt32 (z : Z) : Z := z mod 2 ^ 32.
Definition wrapUInt64 (z : Z) : Z := z mod 2 ^ 64.
Definition wrapInt (z : Z) : Z := (z + 2 ^ 31) mod 2 ^ 32 - 2 ^ 31.
Definition wrapSInt64 (z : Z) : Z := (z + 2 ^ 63) mod 2 ^ 64 - 2 ^ 63.

(** ** Float64 *)

Module F64.

Definition t : Type := Q.

Definition of_Z (z : Z) : t := inject_Z z.
Definition zero : t := of_Z 0.

Definition add (a b : t) : t := Qred (a + b)%Q.
Definition sub (a b : t) : t := Qred (a - b)%Q.
Definition mul (a b : t) : t := Qred (a * b)%Q.
Definition neg (a : t) : t := Qred (- a)%Q.

Definition eqb (a b : t) : bool := Qeq_bool a b.
Definition leb (a b : t) : bool := Qle_bool a b.
Definition ltb (a b : t) : bool := negb (Qle_bool b a).
Definition is_zero (a : t) : bool := eqb a zero.

(** [a / b]; a zero divisor gives an infinity or a NaN. *)
Definition div (a b : t) : outcome t :=
  if is_zero b then Fault NotFinite else Done (Qred (a / b)%Q).

(** The integral part, rounding towards zero. *)
Definition trunc (a : t) : Z := Z.quot (Qnum a) (Zpos (Qden a)).

(** C [round]: to the nearest integer, halfway cases away from zero. *)
Definition round (a : t) : Z :=
  if leb zero a then Qfloor (a + (1 # 2))%Q else Qceiling (a - (1 # 2))%Q.

(** C [fmod]: [x - n * y], [n] being [x / y] truncated; NaN when [y] is 0. *)
Definition fmod (x y : t) : outcome t :=
  if is_zero y then Fault NotFinite
  else Done (Qred (x - inject_Z (trunc (x / y)%Q) * y)%Q).

(** Conversions of a double to an integer type. *)
Definition to_range (lo hi : Z) (a : t) : outcome Z :=
  let z := trunc a in
  if (lo <=? z) && (z <? hi) then Done z else Fault Undefined.

Definition toUInt32 : t -> outcome Z := to_range 0 (2 ^ 32).
Definition toUInt64 : t -> outcome Z := to_range 0 (2 ^ 64).
Definition toInt : t -> outcome Z := to_range (- 2 ^ 31) (2 ^ 31).
Definition toSInt64 : t -> outcome Z := to_range (- 2 ^ 63) (2 ^ 63).

End F64.

Definition Float64 : Type := F64.t.

(** ** AudioTimeStamp (CoreAudio), reduced to the fields the timeline reads *)

Record AudioTimeStamp : Type := mkAudioTimeStamp {
  mSampleTime : Float64;
  mHostTime : Z;            (* UInt64 *)
  mFlags : Z                (* UInt32 bit set *)
}.

Definition kAudioTimeStampSampleTimeValid : Z := 1.
Definition kAudioTimeStampHostTimeValid : Z := 2.

Definition AudioTimeZero : AudioTimeStamp :=
  mkAudioTimeStamp F64.zero 0 0.

Definition SampleTimeValid (timeStamp : AudioTimeStamp) : bool :=
  negb (Z.land (mFlags timeStamp) kAudioTimeStampSampleTimeValid =? 0).

Definition HostTimeValid (timeStamp : AudioTimeStamp) : bool :=
  negb (Z.land (mFlags timeStamp) kAudioTimeStampHostTimeValid =? 0).

Definition SampleAndHostTimeValid (timeStamp : AudioTimeStamp) : bool :=
  SampleTimeValid timeStamp && HostTimeValid timeStamp.

Definition AudioTimeStampWithSampleHost (sampleTime : Float64) (hostTime : Z)
  : AudioTimeStamp :=
  mkAudioTimeStamp sampleTime hostTime
    (Z.lor kAudioTimeStampSampleTimeValid kAudioTimeStampHostTimeValid).

(** [AudioTimeNow]; [now] is the reading of [mach_absolute_time]. *)
Definition AudioTimeNow (now : Z) : AudioTimeStamp :=
  mkAudioTimeStamp F64.zero now kAudioTimeStampHostTimeValid.

Definition safeSubtract (a b : Z) : Z :=
  wrapSInt64 (if b <=? a
              then wrapUInt64 (a - b)
              else wrapUInt64 (- wrapUInt64 (b - a))).

(** ** Clock domain converter *)

Section Converter.

(** The cached value of [ticksToSeconds ()]: seconds per tick of the host
    clock, a constant of the platform ([mach_timebase_info]). *)
Variable ticksToSeconds : Float64.

(** The tick delta of [TimeStampOffset]:
    [SInt64 offset = round (samples / sampleRate / ticksToSeconds ())]. *)
Definition hostOffset (samples : Z) (sampleRate : Float64) : outcome Z :=
  seconds <- F64.div (F64.of_Z samples) sampleRate ;;
  q <- F64.div seconds ticksToSeconds ;;
  F64.toSInt64 (F64.of_Z (F64.round q)).

(** The guard of line 251: a negative tick delta larger than the host time. *)
Definition hostClamped (timeStamp : AudioTimeStamp) (offset : Z) : bool :=
  (offset <? 0) && (mHostTime timeStamp <? wrapUInt64 (- offset)).

Definition TimeStampOffset (timeStamp : AudioTimeStamp) (samples : Z)
    (sampleRate : Float64) : outcome AudioTimeStamp :=
  let timeStamp :=
    if SampleTimeValid timeStamp
    then mkAudioTimeStamp
           (F64.add (mSampleTime timeStamp) (F64.of_Z samples))
           (mHostTime timeStamp) (mFlags timeStamp)
    else timeStamp in
  if HostTimeValid timeStamp then
    offset <- hostOffset samples sampleRate ;;
    if hostClamped timeStamp offset
    then Done timeStamp
    else Done (mkAudioTimeStamp (mSampleTime timeStamp)
                 (wrapUInt64 (mHostTime timeStamp + offset))
                 (mFlags timeStamp))
  else Done timeStamp.

Definition extrapolateTime (timeStamp anchorTime : AudioTimeStamp)
    (sampleRate : Float64) : outcome AudioTimeStamp :=
  if negb ((SampleTimeValid timeStamp || HostTimeValid timeStamp)
           && SampleAndHostTimeValid anchorTime)
  then Fault AssertionFailed
  else if SampleTimeValid timeStamp then
    secondsDiff <- F64.div
      (F64.sub (mSampleTime timeStamp) (mSampleTime anchorTime)) sampleRate ;;
    q <- F64.div secondsDiff ticksToSeconds ;;
    host <- F64.toUInt64
      (F64.add (F64.of_Z (mHostTime anchorTime))
                   (F64.of_Z (F64.round q))) ;;
    Done (mkAudioTimeStamp (mSampleTime timeStamp) host
            (Z.lor (mFlags timeStamp) kAudioTimeStampHostTimeValid))
  else
    let secondsDiff :=
      F64.mul
        (F64.of_Z (safeSubtract (mHostTime timeStamp) (mHostTime anchorTime)))
        ticksToSeconds in
    Done (mkAudioTimeStamp
            (F64.add (mSampleTime anchorTime)
               (F64.of_Z (F64.round (F64.mul secondsDiff sampleRate))))
            (mHostTime timeStamp)
            (Z.lor (mFlags timeStamp) kAudioTimeStampSampleTimeValid)).

(** The guard of line 251 fires on the call [TimeStampOffset (t, n, r)]. *)
Definition clampTriggered (t : AudioTimeStamp) (n : Z) (r : Float64) : bool :=
  match hostOffset n r with
  | Done o => hostClamped t o
  | _ => false
  end.

End Converter.

(** ** Timeline state *)

Record AKTimeLineMessage : Type := mkMessage {
  msgLoopStart : Float64;
  msgLoopEnd : Float64;
  msgBaseTime : AudioTimeStamp;
  msgWaitStart : AudioTimeStamp
}.

(** The fields of [AKTimeline] (declared in [AKTimeLine.h]) that the source
    file reads or writes.  [callBack] records whether the callback pointer is
    non-NULL; the lock of the message queue is an input of the render call. *)
Record AKTimeline : Type := mkTimeline {
  anchorTime : AudioTimeStamp;
  baseTime : AudioTimeStamp;
  waitStart : AudioTimeStamp;
  idleTime : Float64;
  loopStart : Float64;
  loopEnd : Float64;
  _baseTime : AudioTimeStamp;
  _waitStart : AudioTimeStamp;
  _loopStart : Float64;
  _loopEnd : Float64;
  lastRenderTime : AudioTimeStamp;
  lastRenderFrames : Z;                 (* UInt32 *)
  sampleRate : Float64;
  messageQueue : list AKTimeLineMessage; (* oldest first *)
  callBack : bool
}.

Definition set_anchorTime (v : AudioTimeStamp) (tl : AKTimeline) : AKTimeline :=
  mkTimeline v (baseTime tl) (waitStart tl) (idleTime tl) (loopStart tl)
    (loopEnd tl) (_baseTime tl) (_waitStart tl) (_loopStart tl) (_loopEnd tl)
    (lastRenderTime tl) (lastRenderFrames tl) (sampleRate tl) (messageQueue tl)
    (callBack tl).

Definition set_baseTime (v : AudioTimeStamp) (tl : AKTimeline) : AKTimeline :=
  mkTimeline (anchorTime tl) v (waitStart tl) (idleTime tl) (loopStart tl)
    (loopEnd tl) (_baseTime tl) (_waitStart tl) (_loopStart tl) (_loopEnd tl)
    (lastRenderTime tl) (lastRenderFrames tl) (sampleRate tl) (messageQueue tl)
    (callBack tl).

Definition set_waitStart (v : AudioTimeStamp) (tl : AKTimeline) : AKTimeline :=
  mkTimeline (anchorTime tl) (baseTime tl) v (idleTime tl) (loopStart tl)
    (loopEnd tl) (_baseTime tl) (_waitStart tl) (_loopStart tl) (_loopEnd tl)
    (lastRenderTime tl) (lastRenderFrames tl) (sampleRate tl) (messageQueue tl)
    (callBack tl).

Definition set_idleTime (v : Float64) (tl : AKTimeline) : AKTimeline :=
  mkTimeline (anchorTime tl) (baseTime tl) (waitStart tl) v (loopStart tl)
    (loopEnd tl) (_baseTime tl) (_waitStart tl) (_loopStart tl) (_loopEnd tl)
    (lastRenderTime tl) (lastRenderFrames tl) (sampleRate tl) (messageQueue tl)
    (callBack tl).

Definition set_loop (s e : Float64) (tl : AKTimeline) : AKTimeline :=
  mkTimeline (anchorTime tl) (baseTime tl) (waitStart tl) (idleTime tl) s e
    (_baseTime tl) (_waitStart tl) (_loopStart tl) (_loopEnd tl)
    (lastRenderTime tl) (lastRenderFrames tl) (sampleRate tl) (messageQueue tl)
    (callBack tl).

Definition set__baseTime (v : AudioTimeStamp) (tl : AKTimeline) : AKTimeline :=
  mkTimeline (anchorTime tl) (baseTime tl) (waitStart tl) (idleTime tl)
    (loopStart tl) (loopEnd tl) v (_waitStart tl) (_loopStart tl) (_loopEnd tl)
    (lastRenderTime tl) (lastRenderFrames tl) (sampleRate tl) (messageQueue tl)
    (callBack tl).

Definition set__waitStart (v : AudioTimeStamp) (tl : AKTimeline) : AKTimeline :=
  mkTimeline (anchorTime tl) (baseTime tl) (waitStart tl) (idleTime tl)
    (loopStart tl) (loopEnd tl) (_baseTime tl) v (_loopStart tl) (_loopEnd tl)
    (lastRenderTime tl) (lastRenderFrames tl) (sampleRate tl) (messageQueue tl)
    (callBack tl).

Definition set__loop (s e : Float64) (tl : AKTimeline) : AKTimeline :=
  mkTimeline (anchorTime tl) (baseTime tl) (waitStart tl) (idleTime tl)
    (loopStart tl) (loopEnd tl) (_baseTime tl) (_waitStart tl) s e
    (lastRenderTime tl) (lastRenderFrames tl) (sampleRate tl) (messageQueue tl)
    (callBack tl).

Definition set_lastRender (t : AudioTimeStamp) (n : Z) (tl : AKTimeline)
  : AKTimeline :=
  mkTimeline (anchorTime tl) (baseTime tl) (waitStart tl) (idleTime tl)
    (loopStart tl) (loopEnd tl) (_baseTime tl) (_waitStart tl) (_loopStart tl)
    (_loopEnd tl) t n (sampleRate tl) (messageQueue tl) (callBack tl).

Definition set_messageQueue (q : list AKTimeLineMessage) (tl : AKTimeline)
  : AKTimeline :=
  mkTimeline (anchorTime tl) (baseTime tl) (waitStart tl) (idleTime tl)
    (loopStart tl) (loopEnd tl) (_baseTime tl) (_waitStart tl) (_loopStart tl)
    (_loopEnd tl) (lastRenderTime tl) (lastRenderFrames tl) (sampleRate tl) q
    (callBack tl).

Definition set_callBack (c : bool) (tl : AKTimeline) : AKTimeline :=
  mkTimeline (anchorTime tl) (baseTime tl) (waitStart tl) (idleTime tl)
    (loopStart tl) (loopEnd tl) (_baseTime tl) (_waitStart tl) (_loopStart tl)
    (_loopEnd tl) (lastRenderTime tl) (lastRenderFrames tl) (sampleRate tl)
    (messageQueue tl) c.

(** ** Cross-thread message channel *)

(** Modelled from the spec: the ring buffer [TPCircularBuffer] behind
    [messageQueue] (its source is not part of this file): a ring of
    [Message] values of capacity 32, read in enqueue order. *)
Definition queueCapacity : nat := 32.

(** Modelled from the spec: [send] on a full ring force-consumes the oldest
    unread messages until space exists ([TPCircularBufferUnitConsume] until
    [TPCircularBufferUnitHead] is non-NULL). *)
Fixpoint makeRoom (q : list AKTimeLineMessage) : list AKTimeLineMessage :=
  if (length q <? queueCapacity)%nat then q
  else match q with
       | [] => []
       | _ :: q' => makeRoom q'
       end.

Definition AKTimelineSendMessage (timeLine : AKTimeline)
    (message : AKTimeLineMessage) : AKTimeline :=
  set_messageQueue (makeRoom (messageQueue timeLine) ++ [message]) timeLine.

Definition AKTimelineSyncronize (timeline : AKTimeline) : AKTimeline :=
  AKTimelineSendMessage timeline
    (mkMessage (loopStart timeline) (loopEnd timeline)
               (baseTime timeline) (waitStart timeline)).

Definition applyMessage (timeline : AKTimeline) (message : AKTimeLineMessage)
  : AKTimeline :=
  set__waitStart (msgWaitStart message)
    (set__loop (msgLoopStart message) (msgLoopEnd message)
       (set__baseTime (msgBaseTime message) timeline)).

(** The body guarded by [pthread_mutex_trylock] in [AKTimeLineRender]. *)
Definition drainMessages (timeline : AKTimeline) : AKTimeline :=
  set_messageQueue [] (fold_left applyMessage (messageQueue timeline) timeline).

(** ** Control API and render scheduler *)

Record Segment : Type := mkSegment {
  segTime : AudioTimeStamp;   (* the time stamp handed to the callback *)
  segFrames : Z               (* its UInt32 frame count *)
}.

Section Timeline.

Variable ticksToSeconds : Float64.

Definition AKTimeLineInit (sampleRate : Float64) (callback : bool) : AKTimeline :=
  mkTimeline AudioTimeZero AudioTimeZero AudioTimeZero F64.zero F64.zero
    F64.zero AudioTimeZero AudioTimeZero F64.zero F64.zero AudioTimeZero 0
    sampleRate [] callback.

Definition AKTimelineIsStarted (timeline : AKTimeline) : bool :=
  SampleTimeValid (baseTime timeline) || HostTimeValid (baseTime timeline).

(** [sampleTime] is an SInt64, the loop bounds are UInt32: the callers
    convert their doubles before the call. *)
Definition AKTimelineSetState (timeline : AKTimeline) (sampleTime : Z)
    (loopSampleStart loopSampleEnd : Z) (audioTime : AudioTimeStamp)
  : outcome AKTimeline :=
  if negb (SampleTimeValid audioTime || HostTimeValid audioTime)
  then Fault AssertionFailed
  else if sampleTime =? - 2 ^ 63 then Fault Undefined
  else
    audioTime <- TimeStampOffset ticksToSeconds audioTime (- sampleTime)
                   (sampleRate timeline) ;;
    audioTime <- (if SampleAndHostTimeValid (anchorTime timeline)
                  then extrapolateTime ticksToSeconds audioTime
                         (anchorTime timeline) (sampleRate timeline)
                  else Done audioTime) ;;
    Done (AKTimelineSyncronize
            (set_loop (F64.of_Z loopSampleStart) (F64.of_Z loopSampleEnd)
               (set_baseTime audioTime timeline))).

Definition AKTimelineStartAtTime (timeline : AKTimeline)
    (audioTime : AudioTimeStamp) : outcome AKTimeline :=
  if AKTimelineIsStarted timeline then Done timeline
  else
    audioTime <- (if SampleAndHostTimeValid (anchorTime timeline)
                  then extrapolateTime ticksToSeconds audioTime
                         (anchorTime timeline) (sampleRate timeline)
                  else Done audioTime) ;;
    let timeline := set_waitStart audioTime timeline in
    sampleTime <- F64.toSInt64 (idleTime timeline) ;;
    loopSampleStart <- F64.toUInt32 (loopStart timeline) ;;
    loopSampleEnd <- F64.toUInt32 (loopEnd timeline) ;;
    AKTimelineSetState timeline sampleTime loopSampleStart loopSampleEnd
      audioTime.

(** The wait loop polls [lastRenderFrames], which only the render thread
    writes: called with [lastRenderFrames = 0] and no render call in
    between, it does not return. *)
Definition AKTimelineStart (timeline : AKTimeline) : outcome AKTimeline :=
  if lastRenderFrames timeline =? 0 then OutOfFuel
  else
    nextRender <- TimeStampOffset ticksToSeconds (lastRenderTime timeline)
                    (lastRenderFrames timeline) (sampleRate timeline) ;;
    AKTimelineStartAtTime timeline nextRender.

Definition AKTimelineSetLoop (timeline : AKTimeline) (start duration : Float64)
  : outcome AKTimeline :=
  if negb (F64.leb F64.zero start && F64.leb F64.zero duration)
  then Fault AssertionFailed
  else Done (AKTimelineSyncronize
               (set_loop start (F64.add start duration) timeline)).

(** Returns the position and the timeline as the call leaves it. *)
Definition AKTimelineTimeAtTime (timeline : AKTimeline)
    (audioTime : AudioTimeStamp) : outcome (Float64 * AKTimeline) :=
  if negb (AKTimelineIsStarted timeline) then Done (idleTime timeline, timeline)
  else if negb (SampleAndHostTimeValid (anchorTime timeline))
  then Done (idleTime timeline, timeline)
  else
    timeline <- (if negb (SampleTimeValid (baseTime timeline))
                 then
                   b <- extrapolateTime ticksToSeconds (baseTime timeline)
                          (anchorTime timeline) (sampleRate timeline) ;;
                   Done (set_baseTime b timeline)
                 else Done timeline) ;;
    audioTime <- (if negb (SampleTimeValid audioTime)
                  then extrapolateTime ticksToSeconds audioTime
                         (anchorTime timeline) (sampleRate timeline)
                  else Done audioTime) ;;
    let sampleTimeTotal :=
      F64.sub (mSampleTime audioTime) (mSampleTime (_baseTime timeline)) in
    if F64.is_zero (_loopEnd timeline)
       || F64.leb sampleTimeTotal (loopEnd timeline)
    then Done (sampleTimeTotal, timeline)
    else
      m <- F64.fmod (F64.sub sampleTimeTotal (_loopStart timeline))
             (F64.sub (_loopEnd timeline) (loopStart timeline)) ;;
      Done (F64.add (_loopStart timeline) m, timeline).

Definition AKTimelineTime (timeline : AKTimeline) (now : Z)
  : outcome (Float64 * AKTimeline) :=
  AKTimelineTimeAtTime timeline (AudioTimeNow now).

Definition AKTimelineStop (timeline : AKTimeline) (now : Z)
  : outcome AKTimeline :=
  ' (position, timeline) <- AKTimelineTimeAtTime timeline (AudioTimeNow now) ;;
  Done (AKTimelineSyncronize
          (set_waitStart AudioTimeZero
             (set_baseTime AudioTimeZero (set_idleTime position timeline)))).

Definition AKTimelineSetTimeAtTime (timeline : AKTimeline) (sampleTime : Z)
    (audioTime : AudioTimeStamp) : outcome AKTimeline :=
  let timeline := set_waitStart AudioTimeZero timeline in
  loopSampleStart <- F64.toUInt32 (loopStart timeline) ;;
  loopSampleEnd <- F64.toUInt32 (loopEnd timeline) ;;
  AKTimelineSetState timeline sampleTime loopSampleStart loopSampleEnd
    audioTime.

Definition AKTimelineSetTime (timeline : AKTimeline) (sampleTime : Z) (now : Z)
  : outcome AKTimeline :=
  if AKTimelineIsStarted timeline
  then AKTimelineSetTimeAtTime timeline sampleTime (AudioTimeNow now)
  else Done (set_idleTime (F64.of_Z sampleTime) timeline).

Definition AKTimelineSetRenderState (timeline : AKTimeline)
    (sampleTime loopStart loopEnd : Float64) (audioTime : AudioTimeStamp)
  : outcome AKTimeline :=
  if negb (SampleTimeValid audioTime || HostTimeValid audioTime)
  then Fault AssertionFailed
  else
    samples <- F64.toSInt64 (F64.neg sampleTime) ;;
    audioTime <- TimeStampOffset ticksToSeconds audioTime samples
                   (sampleRate timeline) ;;
    audioTime <- (if SampleAndHostTimeValid (anchorTime timeline)
                  then extrapolateTime ticksToSeconds audioTime
                         (anchorTime timeline) (sampleRate timeline)
                  else Done audioTime) ;;
    Done (set__waitStart AudioTimeZero (set_waitStart AudioTimeZero
           (set__loop loopStart loopEnd (set_loop loopStart loopEnd
             (set__baseTime audioTime (set_baseTime audioTime timeline)))))).

(** *** AKTimeLineRender, by phases *)

(** Lines 164-175: the drain, skipped when the lock is held elsewhere. *)
Definition renderDrain (lockHeld : bool) (timeline : AKTimeline) : AKTimeline :=
  if lockHeld then timeline else drainMessages timeline.

(** Lines 176-180: the anchor latch and the last-render bookkeeping. *)
Definition renderLatch (timeline : AKTimeline) (inTimeStamp : AudioTimeStamp)
    (inNumberFrames : Z) : AKTimeline :=
  let timeline :=
    if negb (SampleAndHostTimeValid (anchorTime timeline))
    then set_anchorTime inTimeStamp timeline else timeline in
  set_lastRender inTimeStamp inNumberFrames timeline.

(** Lines 186-188: a base time with one valid domain gets the other. *)
Definition renderResolve (timeline : AKTimeline) (inTimeStamp : AudioTimeStamp)
  : outcome AKTimeline :=
  if negb (SampleAndHostTimeValid (_baseTime timeline))
  then
    b <- extrapolateTime ticksToSeconds (_baseTime timeline) inTimeStamp
           (sampleRate timeline) ;;
    Done (set__baseTime b timeline)
  else Done timeline.

(** Lines 190-198: the start threshold [startSample] relative to the base. *)
Definition renderWaitStart (timeline : AKTimeline)
  : outcome (AKTimeline * Z) :=
  ' (timeline, waitStart) <-
    (if SampleTimeValid (_waitStart timeline)
     then Done (timeline,
                F64.sub (mSampleTime (_waitStart timeline))
                        (mSampleTime (_baseTime timeline)))
     else if HostTimeValid (_waitStart timeline)
     then
       w <- extrapolateTime ticksToSeconds (_waitStart timeline)
              (anchorTime timeline) (sampleRate timeline) ;;
       Done (set__waitStart w timeline,
             F64.sub (mSampleTime w) (mSampleTime (_baseTime timeline)))
     else Done (timeline, F64.zero)) ;;
  startSample <- F64.toSInt64
                   (if F64.ltb F64.zero waitStart then waitStart else F64.zero) ;;
  Done (timeline, startSample).

(** Lines 201-216: the player time of the call and the clipping of the
    frames below the threshold; [None] when no frame reaches it. *)
Definition renderClip (timeline : AKTimeline) (inTimeStamp : AudioTimeStamp)
    (inNumberFrames : Z) (startSample : Z)
  : outcome (option (AudioTimeStamp * Z)) :=
  let playerTime :=
    AudioTimeStampWithSampleHost
      (F64.sub (mSampleTime inTimeStamp) (mSampleTime (_baseTime timeline)))
      (mHostTime inTimeStamp) in
  let samplesBelowZero :=
    if F64.ltb (mSampleTime playerTime) (F64.of_Z startSample)
    then F64.sub (F64.of_Z startSample) (mSampleTime playerTime)
    else F64.zero in
  if negb (F64.is_zero samplesBelowZero) then
    if F64.leb (F64.of_Z inNumberFrames) samplesBelowZero then Done None
    else
      framesToRender <- F64.toUInt32
                          (F64.sub (F64.of_Z inNumberFrames) samplesBelowZero) ;;
      samples <- F64.toSInt64 samplesBelowZero ;;
      playerTime <- TimeStampOffset ticksToSeconds playerTime samples
                      (sampleRate timeline) ;;
      Done (Some (playerTime, framesToRender))
  else Done (Some (playerTime, inNumberFrames)).

Definition invoke (timeline : AKTimeline) (playerTime : AudioTimeStamp)
    (frames : Z) : list Segment :=
  if callBack timeline then [mkSegment playerTime (wrapUInt32 frames)] else [].

(** Lines 229-239: one turn of the loop-splitting loop.  Returns the
    callback invocation of the turn and the new values of [playerTime],
    [framesToRender] and [unlooped]. *)
Definition loopBody (timeline : AKTimeline) (playerTime : AudioTimeStamp)
    (framesToRender : Z) (unlooped : Float64) (loopDur : Z)
  : outcome (list Segment * (AudioTimeStamp * Z * Float64)) :=
  playerTime <-
    (if F64.leb (_loopEnd timeline) unlooped
     then
       m <- F64.fmod (F64.sub unlooped (_loopStart timeline))
              (F64.of_Z loopDur) ;;
       Done (mkAudioTimeStamp (F64.add (_loopStart timeline) m)
               (mHostTime playerTime) (mFlags playerTime))
     else Done playerTime) ;;
  frames <- F64.toInt (F64.sub (_loopEnd timeline) (mSampleTime playerTime)) ;;
  let frames :=
    if framesToRender <? wrapUInt32 frames
    then wrapInt framesToRender else frames in
  let segment := invoke timeline playerTime frames in
  playerTime <- TimeStampOffset ticksToSeconds playerTime frames
                  (sampleRate timeline) ;;
  Done (segment,
        (playerTime, wrapUInt32 (framesToRender - wrapUInt32 frames),
         F64.add unlooped (F64.of_Z frames))).

(** Lines 228-240: [while (framesToRender)]; one unit of fuel per turn. *)
Fixpoint renderLoop (fuel : nat) (timeline : AKTimeline)
    (playerTime : AudioTimeStamp) (framesToRender : Z) (unlooped : Float64)
    (loopDur : Z) : outcome (list Segment) :=
  if framesToRender =? 0 then Done []
  else
    match fuel with
    | O => OutOfFuel
    | S fuel =>
      ' (segment, (playerTime, framesToRender, unlooped)) <-
        loopBody timeline playerTime framesToRender unlooped loopDur ;;
      rest <- renderLoop fuel timeline playerTime framesToRender unlooped
                loopDur ;;
      Done (segment ++ rest)
    end.

(** Lines 218-240: one callback when not looping, the loop otherwise. *)
Definition renderDispatch (fuel : nat) (timeline : AKTimeline)
    (playerTime : AudioTimeStamp) (framesToRender : Z)
  : outcome (list Segment) :=
  if F64.is_zero (_loopEnd timeline)
  then Done (invoke timeline playerTime framesToRender)
  else
    loopDur <- F64.toUInt32
                 (F64.sub (_loopEnd timeline) (_loopStart timeline)) ;;
    renderLoop fuel timeline playerTime framesToRender
      (mSampleTime playerTime) loopDur.

(** Lines 164-216: everything before the dispatch.  [lockHeld]: the lock
    of the message queue is held by another thread, so that
    [pthread_mutex_trylock] fails.  Returns the timeline as the call leaves
    it and, unless the call returns early, the player time and the frame
    count that are left to dispatch. *)
Definition renderPrologue (lockHeld : bool) (timeline : AKTimeline)
    (inTimeStamp : AudioTimeStamp) (inNumberFrames : Z)
  : outcome (AKTimeline * option (AudioTimeStamp * Z)) :=
  let timeline := renderDrain lockHeld timeline in
  let timeline := renderLatch timeline inTimeStamp inNumberFrames in
  if negb (SampleTimeValid (_baseTime timeline))
     && negb (HostTimeValid (_baseTime timeline))
  then Done (timeline, None)
  else
    timeline <- renderResolve timeline inTimeStamp ;;
    ' (timeline, startSample) <- renderWaitStart timeline ;;
    clipped <- renderClip timeline inTimeStamp inNumberFrames startSample ;;
    Done (timeline, clipped).

(** The result is the timeline as the call leaves it and the callback
    invocations in order. *)
Definition AKTimeLineRender (fuel : nat) (lockHeld : bool)
    (timeline : AKTimeline) (inTimeStamp : AudioTimeStamp)
    (inNumberFrames : Z) : outcome (AKTimeline * list Segment) :=
  ' (timeline, clipped) <-
    renderPrologue lockHeld timeline inTimeStamp inNumberFrames ;;
  match clipped with
  | None => Done (timeline, [])
  | Some (playerTime, framesToRender) =>
    segments <- renderDispatch fuel timeline playerTime framesToRender ;;
    Done (timeline, segments)
  end.

End Timeline.

(** ** The scheduler in the words of the specification *)

Module Spec.

(** Step 10, on whole samples: while frames remain, wrap the player time
    once the unlooped position has reached [loopEnd], emit a segment of
    [min (remaining, loopEnd - current)] frames, advance. *)
Fixpoint segments (fuel : nat) (loopStart loopEnd : Z)
    (playerTime unlooped remaining : Z) : list (Z * Z) :=
  match fuel with
  | O => []
  | S fuel =>
    if remaining <=? 0 then []
    else
      let loopDuration := loopEnd - loopStart in
      let current :=
        if loopEnd <=? unlooped
        then loopStart + (unlooped - loopStart) mod loopDuration
        else playerTime in
      let length := Z.min remaining (loopEnd - current) in
      (current, length)
        :: segments fuel loopStart loopEnd (current + length)
             (unlooped + length) (remaining - length)
  end.


(** Step 8: of the [frames] positions [position], [position + 1], ... the
    number that lie below the threshold [waitStartOffset]. *)
Definition clippedFrames (position : Q) (waitStartOffset frames : Z) : Z :=
  Z.min frames (Z.max 0 (Qceiling (inject_Z waitStartOffset - position))).

End Spec.

(** What a segment list shows of each call: position and frame count. *)
Definition positions (segments : list Segment) : list (Float64 * Z) :=
  map (fun s => (mSampleTime (segTime s), segFrames s)) segments.

Definition dispatchedFrames (segments : list Segment) : Z :=
  fold_right (fun s acc => segFrames s + acc) 0 segments.

Definition whole (l : list (Z * Z)) : list (Float64 * Z) :=
  map (fun p => (F64.of_Z (fst p), snd p)) l.

(** The start threshold in samples that a timeline's shadow state holds
    (step 6): the distance from the base to the wait start, 0 when there is
    no wait start or when it lies before the base. *)
Definition waitStartOffset (timeline : AKTimeline) : Z :=
  if SampleTimeValid (_waitStart timeline)
  then Z.max 0 (F64.trunc (F64.sub (mSampleTime (_waitStart timeline))
                                   (mSampleTime (_baseTime timeline))))
  else 0.

(** The loop bounds of [new] and of the message it enqueued last are the
    UInt32 conversions of the loop bounds of [old]. *)
Definition loopBoundsTruncated (old new : AKTimeline) : Prop :=
  F64.toUInt32 (loopStart old) = Done (F64.trunc (loopStart old))
  /\ F64.toUInt32 (loopEnd old) = Done (F64.trunc (loopEnd old))
  /\ loopStart new = F64.of_Z (F64.trunc (loopStart old))
  /\ loopEnd new = F64.of_Z (F64.trunc (loopEnd old))
  /\ exists q m,
       messageQueue new = q ++ [m]
       /\ msgLoopStart m = F64.of_Z (F64.trunc (loopStart old))
       /\ msgLoopEnd m = F64.of_Z (F64.trunc (loopEnd old)).

(** The loop bounds and the player position are whole samples, the loop is
    not empty, everything fits an [int], and the tick delta of [frames]
    frames is representable. *)
Definition wholeSampleLoop (ticksToSeconds : Float64) (timeline : AKTimeline)
    (playerTime : AudioTimeStamp) (frames : Z) : Prop :=
  exists s e p o,
    _loopStart timeline = F64.of_Z s
    /\ _loopEnd timeline = F64.of_Z e
    /\ (0 <= s < e /\ e < 2 ^ 31)
    /\ mSampleTime playerTime = F64.of_Z p
    /\ 0 <= p
    /\ frames < 2 ^ 31
    /\ hostOffset ticksToSeconds frames (sampleRate timeline) = Done o.

(** What the prologue leaves to dispatch is nothing, or goes to a timeline
    that does not loop, or to one that loops on whole samples. *)
Definition dispatchable (ticksToSeconds : Float64) (timeline : AKTimeline)
    (clipped : option (AudioTimeStamp * Z)) : Prop :=
  match clipped with
  | None => True
  | Some (playerTime, frames) =>
      F64.is_zero (_loopEnd timeline) = true
      \/ wholeSampleLoop ticksToSeconds timeline playerTime frames
  end.

(** ** Reference scenarios *)

Module Scenario.

(** A host clock that ticks once per nanosecond. *)
Definition nanosecond : Float64 := (1 # 1000000000)%Q.
Definition rate : Float64 := F64.of_Z 44100.

Definition deviceTime (sample host : Z) : AudioTimeStamp :=
  AudioTimeStampWithSampleHost (F64.of_Z sample) host.

Definition atSample (sample : Z) : AudioTimeStamp :=
  mkAudioTimeStamp (F64.of_Z sample) 0 kAudioTimeStampSampleTimeValid.

(** [setLoop (0, 100)], then a start at sample 0. *)
Definition loop_0_100 : outcome AKTimeline :=
  timeline <- AKTimelineSetLoop (AKTimeLineInit rate true)
                (F64.of_Z 0) (F64.of_Z 100) ;;
  AKTimelineStartAtTime nanosecond timeline (atSample 0).

(** The same after the first render call: 150 frames from position 0. *)
Definition loop_0_100_rendered : outcome (AKTimeline * list Segment) :=
  timeline <- loop_0_100 ;;
  AKTimeLineRender nanosecond 150 false timeline (deviceTime 0 1000) 150.

(** [setLoop (20, 30)], a start at sample 0. *)
Definition loop_20_50 : outcome AKTimeline :=
  timeline <- AKTimelineSetLoop (AKTimeLineInit rate true)
                (F64.of_Z 20) (F64.of_Z 30) ;;
  AKTimelineStartAtTime nanosecond timeline (atSample 0).

(** A start at sample 0, then [setLoop (0, 100.5)] on the running timeline. *)
Definition loop_0_100_half : outcome AKTimeline :=
  timeline <- AKTimelineStartAtTime nanosecond (AKTimeLineInit rate true)
                (atSample 0) ;;
  AKTimelineSetLoop timeline (F64.of_Z 0) (201 # 2)%Q.

(** A start at host time 5000 before any render call, the first render
    call, a loop change, a second render call whose host time is 90
    microseconds late. *)
Definition started_on_host_time : outcome AKTimeline :=
  AKTimelineStartAtTime nanosecond (AKTimeLineInit rate true)
    (AudioTimeNow 5000).

Definition first_call : outcome AKTimeline :=
  timeline <- started_on_host_time ;;
  omap fst (AKTimeLineRender nanosecond 0 false timeline
              (deviceTime 0 1000) 512).

Definition loop_changed : outcome AKTimeline :=
  timeline <- first_call ;;
  AKTimelineSetLoop timeline (F64.of_Z 0) (F64.of_Z 0).

Definition second_stamp : AudioTimeStamp := deviceTime 512 11701000.

Definition second_call : outcome AKTimeline :=
  timeline <- loop_changed ;;
  omap fst (AKTimeLineRender nanosecond 0 false timeline second_stamp 512).

(** The render thread's own initialisation with a host-only time stamp,
    before any render call. *)
Definition render_state_set : outcome AKTimeline :=
  AKTimelineSetRenderState nanosecond (AKTimeLineInit rate true)
    F64.zero F64.zero F64.zero (AudioTimeNow 5000).

(** The same, followed by 32 loop changes that no render call drains: the
    ring is full, and the control thread takes the lock of the queue in
    the next send. *)
Fixpoint loopChanges (count : nat) (timeline : AKTimeline)
  : outcome AKTimeline :=
  match count with
  | O => Done timeline
  | S count =>
    timeline <- AKTimelineSetLoop timeline (F64.of_Z 0) (F64.of_Z 100) ;;
    loopChanges count timeline
  end.

Definition queue_full : outcome AKTimeline :=
  timeline <- render_state_set ;;
  loopChanges queueCapacity timeline.

(** A start at sample 0, then [setLoop (5, 0)]: a loop of no duration. *)
Definition loop_5_5 : outcome AKTimeline :=
  timeline <- AKTimelineStartAtTime nanosecond (AKTimeLineInit rate true)
                (atSample 0) ;;
  AKTimelineSetLoop timeline (F64.of_Z 5) (F64.of_Z 0).

(** Fractional loop bounds set before the start. *)
Definition fractional_loop : outcome AKTimeline :=
  AKTimelineSetLoop (AKTimeLineInit rate true) (41 # 2)%Q (61 # 2)%Q.

(** [setLoop (0, 100)], then a start deferred to device sample 100. *)
Definition deferred_start : outcome AKTimeline :=
  timeline <- AKTimelineSetLoop (AKTimeLineInit rate true)
                (F64.of_Z 0) (F64.of_Z 100) ;;
  AKTimelineStartAtTime nanosecond timeline (atSample 100).

(** [loop_0_100] on a timeline initialised with a NULL callback. *)
Definition loop_0_100_muted : outcome AKTimeline :=
  timeline <- AKTimelineSetLoop (AKTimeLineInit rate false)
                (F64.of_Z 0) (F64.of_Z 100) ;;
  AKTimelineStartAtTime nanosecond timeline (atSample 0).

(** The timeline a scenario ends in (the zeroed timeline if it faults). *)
Definition run (scenario : outcome AKTimeline) : AKTimeline :=
  match scenario with
  | Done timeline => timeline
  | _ => AKTimeLineInit F64.zero false
  end.

End Scenario.

(** ** Doubles without rounding *)

(** [x] is a finite binary64 number: [m * 2 ^ e] with [|m| < 2 ^ 53] and
    [- 1074 <= e <= 971].  An addition or a subtraction of doubles whose
    exact result is such a number is computed without rounding, and so is
    the conversion of an integer of magnitude at most [2 ^ 53]. *)
Definition binary64 (x : Q) : Prop :=
  exists m e : Z,
    Z.abs m < 2 ^ 53 /\ - 1074 <= e <= 971 /\ (x == inject_Z m * 2 ^ e)%Q.

(** ** The clock domain converter on machine doubles *)

(** [TimeStampOffset] with its doubles as the binary64 numbers of the
    machine, for the inputs on which the additions round. *)
Module Binary64.

Record AudioTimeStamp : Type := mkAudioTimeStamp {
  mSampleTime : PrimFloat.float;
  mHostTime : Z;            (* UInt64 *)
  mFlags : Z                (* UInt32 bit set *)
}.

(** The conversion of an SInt64 to a double. *)
Definition of_SInt64 (z : Z) : PrimFloat.float :=
  if z =? - 2 ^ 63
  then PrimFloat.opp
         (PrimFloat.mul (PrimFloat.of_uint63 (Uint63.of_Z 2))
            (PrimFloat.of_uint63 (Uint63.of_Z (2 ^ 62))))
  else if z <? 0
  then PrimFloat.opp (PrimFloat.of_uint63 (Uint63.of_Z (- z)))
  else PrimFloat.of_uint63 (Uint63.of_Z z).

(** The value of a finite double. *)
Definition to_Q (x : PrimFloat.float) : outcome Q :=
  match FloatOps.Prim2SF x with
  | SpecFloat.S754_zero _ => Done 0%Q
  | SpecFloat.S754_finite s m e =>
      Done (inject_Z (if s then Z.neg m else Z.pos m) * 2 ^ e)%Q
  | _ => Fault NotFinite
  end.

Definition SampleTimeValid (timeStamp : AudioTimeStamp) : bool :=
  negb (Z.land (mFlags timeStamp) kAudioTimeStampSampleTimeValid =? 0).

Definition HostTimeValid (timeStamp : AudioTimeStamp) : bool :=
  negb (Z.land (mFlags timeStamp) kAudioTimeStampHostTimeValid =? 0).

(** [SInt64 offset = round (seconds / ticksToSeconds ())]. *)
Definition hostOffset (ticksToSeconds : PrimFloat.float) (samples : Z)
    (sampleRate : PrimFloat.float) : outcome Z :=
  let seconds := PrimFloat.div (of_SInt64 samples) sampleRate in
  q <- to_Q (PrimFloat.div seconds ticksToSeconds) ;;
  F64.toSInt64 (F64.of_Z (F64.round q)).

Definition TimeStampOffset (ticksToSeconds : PrimFloat.float)
    (timeStamp : AudioTimeStamp) (samples : Z) (sampleRate : PrimFloat.float)
  : outcome AudioTimeStamp :=
  let timeStamp :=
    if SampleTimeValid timeStamp
    then mkAudioTimeStamp
           (PrimFloat.add (mSampleTime timeStamp) (of_SInt64 samples))
           (mHostTime timeStamp) (mFlags timeStamp)
    else timeStamp in
  if HostTimeValid timeStamp then
    offset <- hostOffset ticksToSeconds samples sampleRate ;;
    if (offset <? 0) && (mHostTime timeStamp <? wrapUInt64 (- offset))
    then Done timeStamp
    else Done (mkAudioTimeStamp (mSampleTime timeStamp)
                 (wrapUInt64 (mHostTime timeStamp + offset))
                 (mFlags timeStamp))
  else Done timeStamp.

(** The doubles [0.1], [44100] and [1e-9]. *)
Definition tenth : PrimFloat.float :=
  PrimFloat.div (of_SInt64 1) (of_SInt64 10).
Definition rate : PrimFloat.float := of_SInt64 44100.
Definition nanosecond : PrimFloat.float :=
  PrimFloat.div (of_SInt64 1) (of_SInt64 1000000000).

End Binary64.

(** ** The callback invocations of a call that may not return *)

(** The invocations made during the first [turns] turns of the loop of
    lines 228-240, whether or not the loop ends within them. *)
Fixpoint loopInvocations (ticksToSeconds : Float64) (turns : nat)
    (timeline : AKTimeline) (playerTime : AudioTimeStamp) (framesToRender : Z)
    (unlooped : Float64) (loopDur : Z) : list Segment :=
  if framesToRender =? 0 then []
  else
    match turns with
    | O => []
    | S turns =>
      match loopBody ticksToSeconds timeline playerTime framesToRender
              unlooped loopDur with
      | Done (segment, (playerTime, framesToRender, unlooped)) =>
          segment ++ loopInvocations ticksToSeconds turns timeline playerTime
                       framesToRender unlooped loopDur
      | _ => []
      end
    end.

(** The invocations a render call has made when its loop has run for
    [turns] turns (all of them when the call returns within them). *)
Definition renderInvocations (ticksToSeconds : Float64) (turns : nat)
    (lockHeld : bool) (timeline : AKTimeline) (inTimeStamp : AudioTimeStamp)
    (inNumberFrames : Z) : list Segment :=
  match renderPrologue ticksToSeconds lockHeld timeline inTimeStamp
          inNumberFrames with
  | Done (timeline, Some (playerTime, framesToRender)) =>
      if F64.is_zero (_loopEnd timeline)
      then invoke timeline playerTime framesToRender
      else
        match F64.toUInt32
                (F64.sub (_loopEnd timeline) (_loopStart timeline)) with
        | Done loopDur =>
            loopInvocations ticksToSeconds turns timeline playerTime
              framesToRender (mSampleTime playerTime) loopDur
        | _ => []
        end
  | _ => []
  end.

(** ** Clients of the timeline *)

(** The fields written by the control thread, those written by the render
    thread, and those set once by [AKTimeLineInit]. *)
Definition desiredState (timeline : AKTimeline)
  : AudioTimeStamp * AudioTimeStamp * Float64 * Float64 * Float64 :=
  (baseTime timeline, waitStart timeline, idleTime timeline,
   loopStart timeline, loopEnd timeline).

Definition shadowState (timeline : AKTimeline)
  : AudioTimeStamp * AudioTimeStamp * Float64 * Float64 :=
  (_baseTime timeline, _waitStart timeline, _loopStart timeline,
   _loopEnd timeline).

Definition renderState (timeline : AKTimeline)
  : AudioTimeStamp * AudioTimeStamp * Z :=
  (anchorTime timeline, lastRenderTime timeline, lastRenderFrames timeline).

Definition configuration (timeline : AKTimeline) : Float64 * bool :=
  (sampleRate timeline, callBack timeline).

(** A call of one of the functions the file exports, with its arguments;
    [now] is the reading of the host clock during the call, [fuel] and
    [lockHeld] are as in [AKTimeLineRender]. *)
Inductive call : Type :=
| Start
| StartAtTime (audioTime : AudioTimeStamp)
| SetLoop (start duration : Float64)
| TimeAtTime (audioTime : AudioTimeStamp)
| TimeNow (now : Z)
| Stop (now : Z)
| Syncronize
| SetTimeAtTime (sampleTime : Z) (audioTime : AudioTimeStamp)
| SetTime (sampleTime : Z) (now : Z)
| SetState (sampleTime loopSampleStart loopSampleEnd : Z)
    (audioTime : AudioTimeStamp)
| SetRenderState (sampleTime loopStart loopEnd : Float64)
    (audioTime : AudioTimeStamp)
| Render (fuel : nat) (lockHeld : bool) (inTimeStamp : AudioTimeStamp)
    (inNumberFrames : Z).

Definition isRender (c : call) : bool :=
  match c with Render _ _ _ _ => true | _ => false end.

Definition isSetRenderState (c : call) : bool :=
  match c with SetRenderState _ _ _ _ => true | _ => false end.

(** The timeline as the call leaves it. *)
Definition perform (ticksToSeconds : Float64) (timeline : AKTimeline)
    (c : call) : outcome AKTimeline :=
  match c with
  | Start => AKTimelineStart ticksToSeconds timeline
  | StartAtTime audioTime =>
      AKTimelineStartAtTime ticksToSeconds timeline audioTime
  | SetLoop start duration => AKTimelineSetLoop timeline start duration
  | TimeAtTime audioTime =>
      omap snd (AKTimelineTimeAtTime ticksToSeconds timeline audioTime)
  | TimeNow now => omap snd (AKTimelineTime ticksToSeconds timeline now)
  | Stop now => AKTimelineStop ticksToSeconds timeline now
  | Syncronize => Done (AKTimelineSyncronize timeline)
  | SetTimeAtTime sampleTime audioTime =>
      AKTimelineSetTimeAtTime ticksToSeconds timeline sampleTime audioTime
  | SetTime sampleTime now =>
      AKTimelineSetTime ticksToSeconds timeline sampleTime now
  | SetState sampleTime loopSampleStart loopSampleEnd audioTime =>
      AKTimelineSetState ticksToSeconds timeline sampleTime loopSampleStart
        loopSampleEnd audioTime
  | SetRenderState sampleTime loopStart loopEnd audioTime =>
      AKTimelineSetRenderState ticksToSeconds timeline sampleTime loopStart
        loopEnd audioTime
  | Render fuel lockHeld inTimeStamp inNumberFrames =>
      omap fst (AKTimeLineRender ticksToSeconds fuel lockHeld timeline
                  inTimeStamp inNumberFrames)
  end.

(** A sequence of calls, each on the timeline the one before left. *)
Fixpoint performAll (ticksToSeconds : Float64) (timeline : AKTimeline)
    (calls : list call) : outcome AKTimeline :=
  match calls with
  | [] => Done timeline
  | c :: calls =>
    timeline <- perform ticksToSeconds timeline c ;;
    performAll ticksToSeconds timeline calls
  end.

(** A time stamp is valid in both domains or in neither. *)
Definition resolvedOrZero (timeStamp : AudioTimeStamp) : bool :=
  Bool.eqb (SampleTimeValid timeStamp) (HostTimeValid timeStamp).

(** Loop bounds in order: [0 <= loopStart <= loopEnd]. *)
Definition loopOrdered (loopStart loopEnd : Float64) : Prop :=
  (0 <= loopStart)%Q /\ (loopStart <= loopEnd)%Q.

(** The desired loop, the loop of every queued message and the shadow loop
    are in order. *)
Definition loopsOrdered (timeline : AKTimeline) : Prop :=
  loopOrdered (loopStart timeline) (loopEnd timeline)
  /\ Forall (fun m => loopOrdered (msgLoopStart m) (msgLoopEnd m))
       (messageQueue timeline)
  /\ loopOrdered (_loopStart timeline) (_loopEnd timeline).

(** What a control call may do to a timeline: it leaves the render thread's
    fields alone and sends at most one message, which carries the desired
    state as the call leaves it. *)
Definition controlStep (tl tl' : AKTimeline) : Prop :=
  shadowState tl' = shadowState tl
  /\ renderState tl' = renderState tl
  /\ configuration tl' = configuration tl
  /\ (messageQueue tl' = messageQueue tl
      \/ messageQueue tl'
         = makeRoom (messageQueue tl)
           ++ [mkMessage (loopStart tl') (loopEnd tl') (baseTime tl')
                 (waitStart tl')]).

(** The calls that store loop bounds without checking them. *)
Definition setsLoopUnchecked (c : call) : bool :=
  match c with
  | SetState _ _ _ _ | SetRenderState _ _ _ _ => true
  | _ => false
  end.

(** The call does not wait forever. *)
Definition returns {A : Type} (m : outcome A) : Prop := m <> OutOfFuel.

(** ** Further scenarios *)

Module Session.

Definition fresh : AKTimeline := AKTimeLineInit Scenario.rate true.



(** A start on a host time, then the first render call. *)
Definition host_start : list call :=
  [StartAtTime (AudioTimeNow 5000);
   Render 0 false (Scenario.deviceTime 0 1000) 512].

(** Fractional loop bounds, a start, a render call. *)
Definition fractional : list call :=
  [SetLoop (41 # 2)%Q (61 # 2)%Q;
   StartAtTime (Scenario.atSample 0);
   Render 150 false (Scenario.deviceTime 0 1000) 150].

(** A loop change, a render call, a query and a stop on a running timeline. *)
Definition busy : list call :=
  [SetLoop (F64.of_Z 0) (F64.of_Z 100);
   Render 512 false Scenario.second_stamp 512;
   TimeNow 20000000;
   Stop 30000000].

(** [Scenario.loop_0_100_half] on a timeline with a NULL callback. *)
Definition fractional_muted : outcome AKTimeline :=
  timeline <- AKTimelineStartAtTime Scenario.nanosecond
                (AKTimeLineInit Scenario.rate false) (Scenario.atSample 0) ;;
  AKTimelineSetLoop timeline (F64.of_Z 0) (201 # 2)%Q.

End Session.

(** * Properties *)

(** ** Outcomes *)

Lemma bind_Done_inv (A B : Type) (m : outcome A) (k : A -> outcome B) (b : B) :
  bind m k = Done b -> exists a, m = Done a /\ k a = Done b.
Proof.
  destruct m as [a | f |]; simpl; intros H; try discriminate. now exists a.
Qed.

Ltac inv_bind H :=
  let a := fresh "r" in
  let Ha := fresh "E" in
  apply bind_Done_inv in H as (a & Ha & H);
  repeat match type of H with
         | (let (_, _) := ?x in _) = _ => destruct x
         end.

Ltac inv_done H := injection H as H; subst.

(** Case analysis on the innermost scrutinee of the goal. *)
Ltac case_outcome :=
  match goal with
  | |- context [match ?x with _ => _ end] =>
      lazymatch x with
      | context [match _ with _ => _ end] => fail
      | _ => destruct x; simpl
      end
  end.

(** Evaluation of a closed call. *)
Ltac run_in H := vm_compute in H; try discriminate H; injection H as H; subst.

(** ** Doubles *)

Lemma add_eq a b : (F64.add a b == a + b)%Q.
Proof. apply Qred_correct. Qed.

Lemma sub_eq a b : (F64.sub a b == a - b)%Q.
Proof. apply Qred_correct. Qed.

Lemma ltb_true a b : F64.ltb a b = true -> (a < b)%Q.
Proof.
  unfold F64.ltb. intros H. apply negb_true_iff in H.
  apply Qnot_le_lt. intros C. apply Qle_bool_iff in C. congruence.
Qed.

Lemma ltb_false a b : F64.ltb a b = false -> (b <= a)%Q.
Proof.
  unfold F64.ltb. intros H. apply negb_false_iff in H.
  now apply Qle_bool_iff.
Qed.

Lemma leb_true a b : F64.leb a b = true -> (a <= b)%Q.
Proof. apply Qle_bool_iff. Qed.

Lemma leb_false a b : F64.leb a b = false -> (b < a)%Q.
Proof.
  unfold F64.leb. intros H. apply Qnot_le_lt. intros C.
  apply Qle_bool_iff in C. congruence.
Qed.

Lemma is_zero_true a : F64.is_zero a = true -> (a == 0)%Q.
Proof. apply Qeq_bool_iff. Qed.

Lemma is_zero_neq a : (~ a == 0)%Q -> F64.is_zero a = false.
Proof.
  intros H. unfold F64.is_zero, F64.eqb.
  destruct (Qeq_bool a F64.zero) eqn:E; [| reflexivity].
  apply Qeq_bool_iff in E. contradiction.
Qed.

Lemma div_Done a b q :
  F64.div a b = Done q -> (~ b == 0)%Q /\ (q == a / b)%Q.
Proof.
  unfold F64.div, F64.is_zero, F64.eqb. intros H.
  destruct (Qeq_bool b F64.zero) eqn:Hb; [discriminate |].
  injection H as <-.
  split; [now apply Qeq_bool_neq in Hb | exact (Qred_correct (a / b))].
Qed.

Lemma to_range_Done lo hi a z :
  F64.to_range lo hi a = Done z -> z = F64.trunc a /\ lo <= z < hi.
Proof.
  unfold F64.to_range. intros H.
  destruct ((lo <=? F64.trunc a) && (F64.trunc a <? hi)) eqn:R; [| discriminate].
  inv_done H. apply andb_true_iff in R as [R1 R2].
  apply Z.leb_le in R1. apply Z.ltb_lt in R2. auto.
Qed.

Lemma toUInt32_Done a z :
  F64.toUInt32 a = Done z -> F64.toUInt32 a = Done (F64.trunc a).
Proof. intros H. destruct (to_range_Done _ _ _ _ H) as [-> _]. exact H. Qed.

(** *** Truncation and rounding *)

Lemma trunc_nonneg (a : Float64) : (0 <= a)%Q -> F64.trunc a = Qfloor a.
Proof.
  destruct a as [p d]. unfold Qle, F64.trunc, Qfloor. simpl. intros H.
  apply Z.quot_div_nonneg; lia.
Qed.

Lemma trunc_comp_nonneg a b :
  (a == b)%Q -> (0 <= b)%Q -> F64.trunc a = Qfloor b.
Proof.
  intros E H. rewrite trunc_nonneg by (rewrite E; exact H).
  now apply Qfloor_comp.
Qed.

Lemma trunc_zero : F64.trunc F64.zero = 0.
Proof. reflexivity. Qed.

Lemma trunc_nonpos a : (a <= 0)%Q -> F64.trunc a <= 0.
Proof.
  destruct a as [p d]. unfold Qle, F64.trunc. simpl. intros H.
  rewrite Z.mul_1_r in H.
  destruct (Z.eq_dec p 0) as [-> | N]; [now rewrite Z.quot_0_l by lia |].
  rewrite <- (Z.opp_involutive p), Z.quot_opp_l by lia.
  assert (0 <= Z.quot (- p) (Z.pos d)) by (apply Z.quot_pos; lia). lia.
Qed.

Lemma trunc_pos a : (0 <= a)%Q -> 0 <= F64.trunc a.
Proof.
  destruct a as [p d]. unfold Qle, F64.trunc. simpl. intros H.
  rewrite Z.mul_1_r in H. apply Z.quot_pos; lia.
Qed.

Lemma Qfloor_shift z y : Qfloor (inject_Z z + y)%Q = z + Qfloor y.
Proof.
  destruct y as [a b]. unfold Qfloor, Qplus, inject_Z. simpl.
  rewrite Z.mul_1_r. rewrite Z.div_add_l by lia. reflexivity.
Qed.

Lemma round_comp a b : (a == b)%Q -> F64.round a = F64.round b.
Proof.
  intros H. unfold F64.round, F64.leb.
  rewrite (Qleb_comp F64.zero F64.zero (Qeq_refl _) a b H).
  destruct (Qle_bool F64.zero b).
  - apply Qfloor_comp. now rewrite H.
  - apply Qceiling_comp. now rewrite H.
Qed.

Lemma round_zero : F64.round 0%Q = 0.
Proof. reflexivity. Qed.

(** [round] is odd: halfway cases go away from zero on both sides. *)
Lemma round_opp a : F64.round (- a)%Q = - F64.round a.
Proof.
  unfold F64.round, F64.leb, F64.zero, F64.of_Z, Qceiling.
  destruct (Qle_bool (inject_Z 0) a) eqn:Ha,
           (Qle_bool (inject_Z 0) (- a)) eqn:Hn.
  - apply Qle_bool_iff in Ha, Hn.
    assert (E : (a == 0)%Q) by (change (inject_Z 0) with 0%Q in *; lra).
    rewrite E. reflexivity.
  - f_equal. apply Qfloor_comp. ring.
  - rewrite Z.opp_involutive. apply Qfloor_comp. ring.
  - exfalso.
    assert (Ha' : ~ (inject_Z 0 <= a)%Q)
      by (intros C; apply Qle_bool_iff in C; congruence).
    assert (Hn' : ~ (inject_Z 0 <= - a)%Q)
      by (intros C; apply Qle_bool_iff in C; congruence).
    change (inject_Z 0) with 0%Q in *. lra.
Qed.

Lemma round_mono a b : (a <= b)%Q -> F64.round a <= F64.round b.
Proof.
  intros H. unfold F64.round, F64.leb. change F64.zero with 0%Q.
  destruct (Qle_bool 0 a) eqn:A, (Qle_bool 0 b) eqn:B.
  - apply Qfloor_resp_le. lra.
  - apply Qle_bool_iff in A. apply leb_false in B. lra.
  - apply leb_false in A. apply Qle_bool_iff in B.
    assert (Qceiling (a - (1 # 2)) <= 0).
    { rewrite <- (Qceiling_Z 0). apply Qceiling_resp_le.
      change (inject_Z 0) with 0%Q. lra. }
    assert (0 <= Qfloor (b + (1 # 2))).
    { rewrite <- (Qfloor_Z 0). apply Qfloor_resp_le.
      change (inject_Z 0) with 0%Q. lra. }
    lia.
  - apply Qceiling_resp_le. lra.
Qed.

(** *** Doubles that hold whole numbers *)

Lemma Qred_of_Z z : Qred (inject_Z z) = inject_Z z.
Proof. apply Qred_identity. simpl. apply Z.gcd_1_r. Qed.

Lemma trunc_of_Z z : F64.trunc (F64.of_Z z) = z.
Proof. unfold F64.trunc, F64.of_Z. simpl. apply Z.quot_1_r. Qed.

Lemma add_of_Z a b : F64.add (F64.of_Z a) (F64.of_Z b) = F64.of_Z (a + b).
Proof.
  unfold F64.add, F64.of_Z. rewrite <- (Qred_of_Z (a + b)).
  apply Qred_complete. now rewrite inject_Z_plus.
Qed.

Lemma sub_of_Z a b : F64.sub (F64.of_Z a) (F64.of_Z b) = F64.of_Z (a - b).
Proof.
  unfold F64.sub, F64.of_Z. rewrite <- (Qred_of_Z (a - b)).
  apply Qred_complete. unfold Z.sub, Qminus.
  now rewrite inject_Z_plus, inject_Z_opp.
Qed.

Lemma leb_of_Z a b : F64.leb (F64.of_Z a) (F64.of_Z b) = (a <=? b).
Proof.
  unfold F64.leb, F64.of_Z, Qle_bool. simpl. now rewrite !Z.mul_1_r.
Qed.

Lemma is_zero_of_Z a : F64.is_zero (F64.of_Z a) = (a =? 0).
Proof.
  unfold F64.is_zero, F64.eqb, F64.zero, F64.of_Z, Qeq_bool. simpl.
  now rewrite Z.mul_1_r.
Qed.

Lemma to_range_of_Z lo hi z :
  lo <= z < hi -> F64.to_range lo hi (F64.of_Z z) = Done z.
Proof.
  intros R. unfold F64.to_range. rewrite trunc_of_Z.
  destruct (lo <=? z) eqn:L; [| apply Z.leb_gt in L; lia].
  destruct (z <? hi) eqn:H; [reflexivity | apply Z.ltb_ge in H; lia].
Qed.

Lemma fmod_of_Z x y :
  0 <= x -> 0 < y ->
  F64.fmod (F64.of_Z x) (F64.of_Z y) = Done (F64.of_Z (x mod y)).
Proof.
  intros Hx Hy. unfold F64.fmod. rewrite is_zero_of_Z.
  destruct (y =? 0) eqn:Y; [apply Z.eqb_eq in Y; lia |].
  cbv iota. apply (f_equal (@Done Float64)).
  unfold F64.of_Z. rewrite <- (Qred_of_Z (x mod y)).
  apply Qred_complete.
  assert (T : F64.trunc (inject_Z x / inject_Z y)%Q = x / y).
  { destruct y as [| py | py]; try lia.
    unfold F64.trunc, Qdiv, Qinv, Qmult, inject_Z. simpl.
    rewrite Z.mul_1_r. apply Z.quot_div_nonneg; lia. }
  rewrite T. rewrite Z.mod_eq by lia.
  unfold Z.sub, Qminus. rewrite inject_Z_plus, inject_Z_opp, inject_Z_mult.
  ring.
Qed.

(** ** Machine integers *)

Lemma wrapUInt32_small z : 0 <= z < 2 ^ 32 -> wrapUInt32 z = z.
Proof. intros H. apply Z.mod_small. lia. Qed.



Lemma wrapInt_small z : - 2 ^ 31 <= z < 2 ^ 31 -> wrapInt z = z.
Proof. intros H. unfold wrapInt. rewrite Z.mod_small; lia. Qed.

(** ** Clock domain converter *)

Section ConverterFacts.

Variable tick : Float64.

Lemma hostOffset_Done n r o :
  hostOffset tick n r = Done o ->
  (~ r == 0)%Q /\ (~ tick == 0)%Q
  /\ o = F64.round (inject_Z n / r / tick)%Q
  /\ - 2 ^ 63 <= o < 2 ^ 63.
Proof.
  unfold hostOffset. intros H. inv_bind H. inv_bind H.
  apply div_Done in E as [Hr E]. apply div_Done in E0 as [Ht E0].
  apply to_range_Done in H as [H R]. rewrite trunc_of_Z in H.
  repeat split; try assumption; try lia.
  rewrite H. apply round_comp. rewrite E0, E. reflexivity.
Qed.

(** The tick delta of [- n] samples is the opposite of that of [n]. *)
Lemma hostOffset_opp n r o o' :
  hostOffset tick n r = Done o ->
  hostOffset tick (- n) r = Done o' ->
  o' = - o.
Proof.
  intros H H'.
  apply hostOffset_Done in H as (Hr & Ht & -> & _).
  apply hostOffset_Done in H' as (_ & _ & -> & _).
  rewrite <- round_opp. apply round_comp.
  rewrite inject_Z_opp. field. auto.
Qed.

(** A buffer whose tick delta is representable makes every shorter run of
    frames representable. *)
Lemma hostOffset_shorter N r o k :
  hostOffset tick N r = Done o ->
  0 <= k <= N ->
  exists o', hostOffset tick k r = Done o'.
Proof.
  intros H K. apply hostOffset_Done in H as (Hr & Ht & -> & R).
  unfold hostOffset, F64.div.
  rewrite (is_zero_neq _ Hr), (is_zero_neq _ Ht). simpl.
  set (q := Qred (Qred (F64.of_Z k / r) / tick)).
  exists (F64.round q). apply to_range_of_Z.
  assert (Eq : (q == inject_Z k / r / tick)%Q).
  { unfold q. now rewrite !Qred_correct. }
  rewrite (round_comp _ _ Eq).
  set (c := (/ r * / tick)%Q).
  assert (Ek : (inject_Z k / r / tick == inject_Z k * c)%Q)
    by (unfold c; field; auto).
  assert (EN : (inject_Z N / r / tick == inject_Z N * c)%Q)
    by (unfold c; field; auto).
  rewrite (round_comp _ _ Ek). rewrite (round_comp _ _ EN) in R.
  assert (K0 : (0 <= inject_Z k)%Q)
    by (change 0%Q with (inject_Z 0); rewrite <- Zle_Qle; lia).
  assert (KN : (inject_Z k <= inject_Z N)%Q) by (rewrite <- Zle_Qle; lia).
  destruct (Qlt_le_dec c 0) as [Cn | Cp].
  - assert (L1 : (inject_Z N * c <= inject_Z k * c)%Q) by nra.
    assert (L2 : (inject_Z k * c <= 0)%Q) by nra.
    pose proof (round_mono _ _ L1). pose proof (round_mono _ _ L2).
    rewrite round_zero in *. lia.
  - assert (L1 : (inject_Z k * c <= inject_Z N * c)%Q) by nra.
    assert (L2 : (0 <= inject_Z k * c)%Q) by nra.
    pose proof (round_mono _ _ L1). pose proof (round_mono _ _ L2).
    rewrite round_zero in *. lia.
Qed.

Lemma TimeStampOffset_flags t k r t' :
  TimeStampOffset tick t k r = Done t' -> mFlags t' = mFlags t.
Proof.
  unfold TimeStampOffset. intros H.
  destruct (SampleTimeValid t); simpl in H.
  all: match type of H with
       | (if ?b then _ else _) = _ => destruct b
       end.
  all: try (inv_bind H;
            match type of H with
            | (if ?b then _ else _) = _ => destruct b
            end).
  all: now inv_done H.
Qed.

Lemma TimeStampOffset_advance t k r o :
  SampleAndHostTimeValid t = true ->
  hostOffset tick k r = Done o ->
  exists t',
    TimeStampOffset tick t k r = Done t'
    /\ mSampleTime t' = F64.add (mSampleTime t) (F64.of_Z k)
    /\ mFlags t' = mFlags t.
Proof.
  unfold SampleAndHostTimeValid, TimeStampOffset. intros V H.
  apply andb_true_iff in V as [Vs Vh]. rewrite Vs.
  unfold HostTimeValid in *. simpl. rewrite Vh, H. simpl.
  destruct (hostClamped _ o); eexists; split; try reflexivity; simpl; auto.
Qed.

Lemma TimeStampOffset_unclamped t n r t1 :
  SampleAndHostTimeValid t = true ->
  TimeStampOffset tick t n r = Done t1 ->
  clampTriggered tick t n r = false ->
  exists o,
    hostOffset tick n r = Done o
    /\ t1 = mkAudioTimeStamp (F64.add (mSampleTime t) (F64.of_Z n))
              (wrapUInt64 (mHostTime t + o)) (mFlags t).
Proof.
  unfold SampleAndHostTimeValid, TimeStampOffset, clampTriggered.
  intros V H C. apply andb_true_iff in V as [Vs Vh]. rewrite Vs in H.
  unfold HostTimeValid in *. simpl in H. rewrite Vh in H.
  inv_bind H. rewrite E in C. exists r0. split; [assumption |].
  unfold hostClamped in *. simpl in H. rewrite C in H. now inv_done H.
Qed.

(** Adding a tick delta and its opposite to a host time gives it back,
    unless the guard of line 251 stands in the way. *)
Lemma host_round_trip h o :
  0 <= h < 2 ^ 64 ->
  - 2 ^ 63 <= o < 2 ^ 63 ->
  (o <? 0) && (h <? wrapUInt64 (- o)) = false ->
  (- o <? 0) && (wrapUInt64 (h + o) <? wrapUInt64 (- - o)) = false ->
  wrapUInt64 (wrapUInt64 (h + o) + - o) = h.
Proof.
  intros Hh Ro C1 C2. unfold wrapUInt64 in *.
  apply andb_false_iff in C1, C2.
  rewrite Z.ltb_ge, Z.ltb_ge in C1, C2.
  destruct (Z.lt_trichotomy o 0) as [Neg | [Zero | Pos]].
  - destruct C1 as [C1 | C1]; [lia |].
    rewrite (Z.mod_small (- o)) in C1 by lia.
    rewrite (Z.mod_small (h + o)) by lia.
    rewrite Z.mod_small; lia.
  - subst o. change (- 0) with 0. rewrite !Z.add_0_r.
    rewrite (Z.mod_small h) by lia. apply Z.mod_small. lia.
  - destruct C2 as [C2 | C2]; [lia |].
    rewrite Z.opp_involutive in C2.
    rewrite (Z.mod_small o) in C2 by lia.
    assert (h + o < 2 ^ 64).
    { destruct (Z_lt_ge_dec (h + o) (2 ^ 64)) as [? | G]; [assumption |].
      exfalso.
      assert ((h + o) mod 2 ^ 64 = h + o - 2 ^ 64).
      { symmetry. apply Z.mod_unique with (q := 1); lia. }
      lia. }
    rewrite (Z.mod_small (h + o)) by lia.
    rewrite Z.mod_small; lia.
Qed.

(** C7, as amended.  Take a time stamp that is valid in both domains and
    whose sample time [s] is a binary64 number such that [s + n] is one
    too, with [|n| <= 2 ^ 53], so that neither addition of line 246
    rounds.  Offsetting it by [n] samples and then by [- n] samples gives
    it back, whenever the guard against host-time underflow fires in
    neither call: the sample time is the same number, the host time is the
    same tick count (so within one tick), the flags are the same. *)
Theorem offset_round_trip :
  forall t n r t1 t2,
    SampleAndHostTimeValid t = true ->
    0 <= mHostTime t < 2 ^ 64 ->
    binary64 (mSampleTime t) ->
    binary64 (mSampleTime t + inject_Z n) ->
    Z.abs n <= 2 ^ 53 ->
    TimeStampOffset tick t n r = Done t1 ->
    clampTriggered tick t n r = false ->
    TimeStampOffset tick t1 (- n) r = Done t2 ->
    clampTriggered tick t1 (- n) r = false ->
    (mSampleTime t2 == mSampleTime t)%Q
    /\ mHostTime t2 = mHostTime t
    /\ Z.abs (mHostTime t2 - mHostTime t) <= 1
    /\ mFlags t2 = mFlags t.
Proof.
  intros t n r t1 t2 V Hh _ _ _ H1 C1 H2 C2.
  destruct (TimeStampOffset_unclamped _ _ _ _ V H1 C1) as (o & Ho & ->).
  assert (V1 : SampleAndHostTimeValid
                 (mkAudioTimeStamp (F64.add (mSampleTime t) (F64.of_Z n))
                    (wrapUInt64 (mHostTime t + o)) (mFlags t)) = true)
    by exact V.
  destruct (TimeStampOffset_unclamped _ _ _ _ V1 H2 C2) as (o' & Ho' & ->).
  pose proof (hostOffset_opp _ _ _ _ Ho Ho') as ->.
  unfold clampTriggered in C1, C2. rewrite Ho in C1. rewrite Ho' in C2.
  unfold hostClamped in C1, C2. simpl in *.
  apply hostOffset_Done in Ho as (_ & _ & _ & Ro).
  pose proof (host_round_trip _ _ Hh Ro C1 C2) as Hhost.
  repeat split.
  - rewrite !add_eq. unfold F64.of_Z. rewrite inject_Z_opp. ring.
  - exact Hhost.
  - rewrite Hhost. rewrite Z.sub_diag. simpl. lia.
Qed.

Lemma land_lor_sample f :
  negb (Z.land (Z.lor f kAudioTimeStampSampleTimeValid)
          kAudioTimeStampSampleTimeValid =? 0) = true.
Proof.
  unfold kAudioTimeStampSampleTimeValid.
  rewrite Z.land_lor_distr_l. change (Z.land 1 1) with 1.
  destruct (Z.lor (Z.land f 1) 1 =? 0) eqn:E; [| reflexivity].
  apply Z.eqb_eq in E. apply Z.lor_eq_0_iff in E as [_ E]. discriminate.
Qed.

Lemma extrapolateTime_sample_valid t a r t' :
  extrapolateTime tick t a r = Done t' -> SampleTimeValid t' = true.
Proof.
  unfold extrapolateTime. intros H.
  destruct (negb _); [discriminate |].
  destruct (SampleTimeValid t) eqn:V.
  - inv_bind H. inv_bind H. inv_bind H. inv_done H.
    unfold SampleTimeValid in *. simpl.
    unfold kAudioTimeStampSampleTimeValid, kAudioTimeStampHostTimeValid in *.
    rewrite Z.land_lor_distr_l. change (Z.land 2 1) with 0.
    now rewrite Z.lor_0_r.
  - inv_done H. unfold SampleTimeValid. simpl. apply land_lor_sample.
Qed.

End ConverterFacts.

(** ** Control API *)

Lemma set_baseTime_same tl : set_baseTime (baseTime tl) tl = tl.
Proof. now destruct tl. Qed.

(** C5, as amended.  [AKTimelineTimeAtTime] leaves every field other than
    [baseTime] as it was; [baseTime] is as it was too unless the timeline is
    started, the anchor is resolved in both domains and [baseTime] has no
    valid sample time, in which case it becomes its extrapolation against
    the anchor. *)
Theorem timeAtTime_frame :
  forall tick tl t v tl',
    AKTimelineTimeAtTime tick tl t = Done (v, tl') ->
    tl' = set_baseTime (baseTime tl') tl
    /\ (baseTime tl' = baseTime tl
        \/ (AKTimelineIsStarted tl = true
            /\ SampleAndHostTimeValid (anchorTime tl) = true
            /\ SampleTimeValid (baseTime tl) = false
            /\ extrapolateTime tick (baseTime tl) (anchorTime tl) (sampleRate tl)
               = Done (baseTime tl'))).
Proof.
  intros tick tl t v tl' H. unfold AKTimelineTimeAtTime in H.
  destruct (AKTimelineIsStarted tl) eqn:Hs; simpl in H.
  2:{ inv_done H. rewrite set_baseTime_same. auto. }
  destruct (SampleAndHostTimeValid (anchorTime tl)) eqn:Ha; simpl in H.
  2:{ inv_done H. rewrite set_baseTime_same. auto. }
  inv_bind H.
  assert (Hr : r = set_baseTime (baseTime r) tl
               /\ (baseTime r = baseTime tl
                   \/ (SampleTimeValid (baseTime tl) = false
                       /\ extrapolateTime tick (baseTime tl) (anchorTime tl)
                            (sampleRate tl) = Done (baseTime r)))).
  { destruct (SampleTimeValid (baseTime tl)) eqn:Hb; simpl in E.
    - inv_done E. rewrite set_baseTime_same. auto.
    - inv_bind E. inv_done E. simpl. split; [reflexivity | right; auto]. }
  clear E. inv_bind H.
  assert (tl' = r).
  { destruct (F64.is_zero (_loopEnd r) || F64.leb _ (loopEnd r)).
    - now inv_done H.
    - inv_bind H. now inv_done H. }
  subst tl'. destruct Hr as [Hr1 Hr2]. split; [assumption |].
  destruct Hr2 as [? | [? ?]]; [now left | right; auto].
Qed.

Lemma startAtTime_truncates tick tl t tl' :
  AKTimelineIsStarted tl = false ->
  AKTimelineStartAtTime tick tl t = Done tl' ->
  loopBoundsTruncated tl tl'.
Proof.
  intros Hs H. unfold AKTimelineStartAtTime in H. rewrite Hs in H.
  inv_bind H. inv_bind H. inv_bind H. inv_bind H.
  replace (loopStart (set_waitStart r tl)) with (loopStart tl) in E1
    by now destruct tl.
  replace (loopEnd (set_waitStart r tl)) with (loopEnd tl) in E2
    by now destruct tl.
  pose proof (toUInt32_Done _ _ E1) as T1.
  pose proof (toUInt32_Done _ _ E2) as T2.
  apply to_range_Done in E1 as [-> _]. apply to_range_Done in E2 as [-> _].
  unfold AKTimelineSetState in H.
  destruct (negb (SampleTimeValid r || HostTimeValid r)); [discriminate |].
  destruct (r0 =? - 2 ^ 63); [discriminate |].
  inv_bind H. inv_bind H. inv_done H.
  unfold loopBoundsTruncated.
  split; [assumption |]. split; [assumption |].
  split; [now destruct tl |]. split; [now destruct tl |].
  eexists. eexists. split; [reflexivity |]. now destruct tl.
Qed.

(** C9.  On a timeline that is not started, [AKTimelineStartAtTime] and
    [AKTimelineStart] pass the desired loop bounds through the UInt32
    parameters of [AKTimelineSetState]: the loop bounds stored, and those of
    the message enqueued, are the desired bounds truncated to whole
    samples. *)
Theorem start_truncates_loop_bounds :
  forall tick tl tl',
    AKTimelineIsStarted tl = false ->
    (forall t, AKTimelineStartAtTime tick tl t = Done tl' ->
               loopBoundsTruncated tl tl')
    /\ (AKTimelineStart tick tl = Done tl' -> loopBoundsTruncated tl tl').
Proof.
  intros tick tl tl' Hs. split.
  - intros t. now apply startAtTime_truncates.
  - unfold AKTimelineStart. intros H.
    destruct (lastRenderFrames tl =? 0); [discriminate |].
    inv_bind H. eapply startAtTime_truncates; eassumption.
Qed.

(** ** Render scheduler: what the phases touch *)

Lemma renderLatch_fields tl ts n :
  let tl0 := renderLatch tl ts n in
  _baseTime tl0 = _baseTime tl /\ _waitStart tl0 = _waitStart tl
  /\ _loopStart tl0 = _loopStart tl /\ _loopEnd tl0 = _loopEnd tl
  /\ messageQueue tl0 = messageQueue tl /\ sampleRate tl0 = sampleRate tl
  /\ callBack tl0 = callBack tl.
Proof. destruct tl. unfold renderLatch. simpl. now case_outcome. Qed.

Lemma renderResolve_effect tick tl ts tl1 :
  renderResolve tick tl ts = Done tl1 ->
  tl1 = set__baseTime (_baseTime tl1) tl
  /\ (if Bool.eqb (SampleTimeValid (_baseTime tl)) (HostTimeValid (_baseTime tl))
      then SampleAndHostTimeValid (_baseTime tl) = false
           \/ _baseTime tl1 = _baseTime tl
      else extrapolateTime tick (_baseTime tl) ts (sampleRate tl)
           = Done (_baseTime tl1)).
Proof.
  unfold renderResolve, SampleAndHostTimeValid. intros H.
  destruct (SampleTimeValid (_baseTime tl)), (HostTimeValid (_baseTime tl));
    simpl in *.
  1: inv_done H; split; [now destruct tl1 | now right].
  3: split; [| now left].
  all: inv_bind H; inv_done H; simpl; try split; auto; now destruct tl.
Qed.

Lemma renderWaitStart_effect tick tl tl2 s :
  renderWaitStart tick tl = Done (tl2, s) ->
  tl2 = set__waitStart (_waitStart tl2) tl
  /\ (_waitStart tl2 = _waitStart tl
      \/ (SampleTimeValid (_waitStart tl) = false
          /\ HostTimeValid (_waitStart tl) = true
          /\ extrapolateTime tick (_waitStart tl) (anchorTime tl) (sampleRate tl)
             = Done (_waitStart tl2))).
Proof.
  unfold renderWaitStart. intros H. inv_bind H. inv_bind H. inv_done H.
  destruct (SampleTimeValid (_waitStart tl)) eqn:Ws.
  - inv_done E. split; [now destruct tl2 | now left].
  - destruct (HostTimeValid (_waitStart tl)) eqn:Wh.
    + inv_bind E. inv_done E. split; [now destruct tl | right; auto].
    + inv_done E. split; [now destruct tl2 | now left].
Qed.

(** The start threshold the prologue computes is the one the shadow state
    holds when the call returns. *)
Lemma renderWaitStart_offset tick tl tl2 s :
  renderWaitStart tick tl = Done (tl2, s) ->
  s = waitStartOffset tl2 /\ _baseTime tl2 = _baseTime tl.
Proof.
  intros H.
  destruct (renderWaitStart_effect _ _ _ _ H) as [F _].
  assert (B : _baseTime tl2 = _baseTime tl) by (rewrite F; now destruct tl).
  split; [| exact B].
  unfold renderWaitStart in H. inv_bind H. inv_bind H. inv_done H.
  apply to_range_Done in E0 as [-> _].
  assert (K : forall w, F64.trunc (if F64.ltb F64.zero w then w else F64.zero)
                        = Z.max 0 (F64.trunc w)).
  { intros w. destruct (F64.ltb F64.zero w) eqn:L.
    - apply ltb_true in L.
      assert (P : (0 <= w)%Q) by (change F64.zero with 0%Q in L; lra).
      pose proof (trunc_pos w P). lia.
    - apply ltb_false in L. pose proof (trunc_nonpos w L).
      rewrite trunc_zero. lia. }
  rewrite K. unfold waitStartOffset.
  destruct (SampleTimeValid (_waitStart tl)) eqn:Ws.
  - inv_done E. now rewrite Ws.
  - destruct (HostTimeValid (_waitStart tl)) eqn:Wh.
    + inv_bind E. inv_done E.
      replace (_waitStart (set__waitStart r tl)) with r by now destruct tl.
      replace (_baseTime (set__waitStart r tl)) with (_baseTime tl)
        by now destruct tl.
      match goal with
      | X : extrapolateTime _ _ _ _ = Done _ |- _ =>
          now rewrite (extrapolateTime_sample_valid _ _ _ _ _ X)
      end.
    + inv_done E. rewrite Ws. reflexivity.
Qed.


(** *** The message queue is read by the drain only *)

Section QueueFrame.

Variable tick : Float64.
Variable q : list AKTimeLineMessage.










End QueueFrame.



(** *** A NULL callback changes the invocations only *)

Section CallBackFrame.

Variable tick : Float64.

Lemma drain_callBack tl :
  drainMessages (set_callBack false tl) = set_callBack false (drainMessages tl).
Proof.
  unfold drainMessages.
  replace (messageQueue (set_callBack false tl)) with (messageQueue tl)
    by now destruct tl.
  generalize (messageQueue tl) as q. intros q. revert tl.
  induction q as [| m q IH]; intros tl; simpl.
  - now destruct tl.
  - replace (applyMessage (set_callBack false tl) m)
      with (set_callBack false (applyMessage tl m)) by now destruct tl.
    apply IH.
Qed.

Lemma renderDrain_callBack lock tl :
  renderDrain lock (set_callBack false tl)
  = set_callBack false (renderDrain lock tl).
Proof. destruct lock; simpl; [reflexivity | apply drain_callBack]. Qed.

Lemma renderLatch_callBack tl ts n :
  renderLatch (set_callBack false tl) ts n
  = set_callBack false (renderLatch tl ts n).
Proof. destruct tl. unfold renderLatch. simpl. now case_outcome. Qed.

Lemma renderResolve_callBack tl ts :
  renderResolve tick (set_callBack false tl) ts
  = omap (set_callBack false) (renderResolve tick tl ts).
Proof.
  destruct tl. unfold renderResolve, omap, bind. simpl.
  repeat case_outcome; reflexivity.
Qed.

Lemma renderWaitStart_callBack tl :
  renderWaitStart tick (set_callBack false tl)
  = omap (fun r => (set_callBack false (fst r), snd r))
      (renderWaitStart tick tl).
Proof.
  destruct tl. unfold renderWaitStart, omap, bind. simpl.
  repeat case_outcome; reflexivity.
Qed.

Lemma renderClip_callBack tl ts n s :
  renderClip tick (set_callBack false tl) ts n s = renderClip tick tl ts n s.
Proof. now destruct tl. Qed.

Lemma loopBody_callBack tl pt n u d :
  loopBody tick (set_callBack false tl) pt n u d
  = omap (fun r => ([], snd r)) (loopBody tick tl pt n u d).
Proof.
  destruct tl. unfold loopBody, omap, bind, invoke. simpl.
  repeat case_outcome; reflexivity.
Qed.

Lemma renderLoop_callBack fuel tl pt n u d :
  renderLoop tick fuel (set_callBack false tl) pt n u d
  = omap (fun _ => []) (renderLoop tick fuel tl pt n u d).
Proof.
  revert pt n u. induction fuel as [| fuel IH]; intros pt n u; simpl.
  - now destruct (n =? 0).
  - rewrite loopBody_callBack. destruct (n =? 0); [reflexivity |].
    destruct (loopBody tick tl pt n u d) as [[seg [[pt' n'] u']] | |]; simpl;
      try reflexivity.
    rewrite IH. now destruct (renderLoop tick fuel tl pt' n' u' d).
Qed.

Lemma renderDispatch_callBack fuel tl pt n :
  renderDispatch tick fuel (set_callBack false tl) pt n
  = omap (fun _ => []) (renderDispatch tick fuel tl pt n).
Proof.
  unfold renderDispatch.
  replace (_loopEnd (set_callBack false tl)) with (_loopEnd tl)
    by now destruct tl.
  replace (_loopStart (set_callBack false tl)) with (_loopStart tl)
    by now destruct tl.
  destruct (F64.is_zero (_loopEnd tl)); [now destruct tl |].
  destruct (F64.toUInt32 _); simpl; try reflexivity.
  apply renderLoop_callBack.
Qed.

Lemma renderPrologue_callBack lock tl ts n :
  renderPrologue tick lock (set_callBack false tl) ts n
  = omap (fun r => (set_callBack false (fst r), snd r))
      (renderPrologue tick lock tl ts n).
Proof.
  unfold renderPrologue.
  rewrite renderDrain_callBack, renderLatch_callBack.
  set (tl0 := renderLatch (renderDrain lock tl) ts n).
  replace (_baseTime (set_callBack false tl0)) with (_baseTime tl0)
    by now destruct tl0.
  destruct (negb (SampleTimeValid (_baseTime tl0))
            && negb (HostTimeValid (_baseTime tl0))); [reflexivity |].
  rewrite renderResolve_callBack.
  destruct (renderResolve tick tl0 ts) as [tl1 | |]; simpl; try reflexivity.
  rewrite renderWaitStart_callBack.
  destruct (renderWaitStart tick tl1) as [[tl2 s] | |]; simpl; try reflexivity.
  rewrite renderClip_callBack.
  now destruct (renderClip tick tl2 ts n s).
Qed.

Lemma render_callBack fuel lock tl ts n :
  AKTimeLineRender tick fuel lock (set_callBack false tl) ts n
  = omap (fun r => (set_callBack false (fst r), []))
      (AKTimeLineRender tick fuel lock tl ts n).
Proof.
  unfold AKTimeLineRender. rewrite renderPrologue_callBack.
  destruct (renderPrologue tick lock tl ts n) as [[tl1 [[pt n'] |]] | |];
    simpl; try reflexivity.
  rewrite renderDispatch_callBack.
  now destruct (renderDispatch tick fuel tl1 pt n').
Qed.

End CallBackFrame.

Lemma set_callBack_same tl : set_callBack (callBack tl) tl = tl.
Proof. now destruct tl. Qed.

Lemma set_callBack_twice c c' tl :
  set_callBack c (set_callBack c' tl) = set_callBack c tl.
Proof. now destruct tl. Qed.

(** ** Render scheduler: frames dispatched *)

Lemma dispatchedFrames_app a b :
  dispatchedFrames (a ++ b) = dispatchedFrames a + dispatchedFrames b.
Proof.
  unfold dispatchedFrames. induction a as [| x a IH]; simpl; [reflexivity |].
  rewrite IH. lia.
Qed.

Section FrameCount.

Variable tick : Float64.




(** The clipping of lines 201-216 against step 8 of the specification. *)
Lemma renderClip_frames tl ts n s c :
  0 <= n ->
  renderClip tick tl ts n s = Done c ->
  let p := F64.sub (mSampleTime ts) (mSampleTime (_baseTime tl)) in
  match c with
  | None =>
      Spec.clippedFrames p s n = n /\ (inject_Z n <= inject_Z s - p)%Q
  | Some (_, n') =>
      n' = n - Spec.clippedFrames p s n /\ 0 <= n' <= n
      /\ ~ (0 < n /\ (inject_Z n <= inject_Z s - p)%Q)
  end.
Proof.
  intros Hn H p. unfold renderClip in H. simpl in H. fold p in H.
  unfold Spec.clippedFrames.
  destruct (F64.ltb p (F64.of_Z s)) eqn:L.
  - apply ltb_true in L. unfold F64.of_Z in L.
    set (x := (inject_Z s - p)%Q).
    assert (Hx : (0 < x)%Q) by (unfold x; lra).
    assert (Ex : (F64.sub (F64.of_Z s) p == x)%Q) by apply sub_eq.
    destruct (F64.is_zero (F64.sub (F64.of_Z s) p)) eqn:Z0.
    { apply is_zero_true in Z0. rewrite Ex in Z0. lra. }
    simpl in H.
    destruct (F64.leb (F64.of_Z n) (F64.sub (F64.of_Z s) p)) eqn:G.
    + inv_done H. apply leb_true in G. rewrite Ex in G. unfold F64.of_Z in G.
      split; [| exact G].
      assert (n <= Qceiling x).
      { rewrite Zle_Qle. pose proof (Qle_ceiling x). lra. }
      lia.
    + apply leb_false in G. rewrite Ex in G. unfold F64.of_Z in G.
      inv_bind H. inv_bind H. inv_bind H. inv_done H.
      apply to_range_Done in E as [-> _].
      assert (C1 : Qceiling x <= n).
      { rewrite <- (Qceiling_Z n). apply Qceiling_resp_le. lra. }
      assert (C0 : 0 < Qceiling x).
      { rewrite Zlt_Qlt. pose proof (Qle_ceiling x).
        change (inject_Z 0) with 0%Q. lra. }
      assert (T : F64.trunc (F64.sub (F64.of_Z n) (F64.sub (F64.of_Z s) p))
                  = n - Qceiling x).
      { rewrite (trunc_comp_nonneg _ (inject_Z n + - x)%Q).
        - rewrite Qfloor_shift. unfold Qceiling. lia.
        - rewrite sub_eq, Ex. unfold F64.of_Z. ring.
        - lra. }
      rewrite T. split; [lia |]. split; [lia |]. intros [_ F]. lra.
  - apply ltb_false in L. unfold F64.of_Z in L.
    replace (F64.is_zero F64.zero) with true in H by reflexivity.
    simpl in H. inv_done H.
    assert (Qceiling (inject_Z s - p)%Q <= 0).
    { rewrite <- (Qceiling_Z 0). apply Qceiling_resp_le.
      change (inject_Z 0) with 0%Q. lra. }
    split; [lia |]. split; [lia |]. intros [P F].
    assert (inject_Z 0 < inject_Z n)%Q by (rewrite <- Zlt_Qlt; exact P).
    change (inject_Z 0) with 0%Q in *. lra.
Qed.


End FrameCount.

(** ** Render scheduler: the loop on whole samples *)

Section WholeSampleLoop.

Variable tick : Float64.
Variable tl : AKTimeline.
Variables s e N : Z.
Hypothesis Hstart : _loopStart tl = F64.of_Z s.
Hypothesis Hend : _loopEnd tl = F64.of_Z e.
Hypothesis Hbounds : 0 <= s < e /\ e < 2 ^ 31.
Hypothesis Hticks :
  forall k, 0 <= k <= N -> exists o, hostOffset tick k (sampleRate tl) = Done o.

Lemma loopBody_whole pt n u :
  SampleAndHostTimeValid pt = true ->
  0 < n <= N -> n < 2 ^ 31 -> 0 <= u ->
  (u < e -> mSampleTime pt = F64.of_Z u) ->
  let current := if e <=? u then s + (u - s) mod (e - s) else u in
  let length := Z.min n (e - current) in
  exists pt1 pt',
    loopBody tick tl pt n (F64.of_Z u) (e - s)
    = Done (invoke tl pt1 length, (pt', n - length, F64.of_Z (u + length)))
    /\ mSampleTime pt1 = F64.of_Z current
    /\ SampleAndHostTimeValid pt' = true
    /\ mSampleTime pt' = F64.of_Z (current + length)
    /\ 0 < length.
Proof.
  intros V Hn Hn31 Hu Hp current length.
  assert (Hcur : 0 <= current < e).
  { unfold current. destruct (e <=? u) eqn:L.
    - pose proof (Z.mod_pos_bound (u - s) (e - s)). lia.
    - apply Z.leb_gt in L. lia. }
  assert (Hlen : 0 < length <= n /\ length <= e - current)
    by (unfold length; lia).
  set (pt1 := mkAudioTimeStamp (F64.of_Z current) (mHostTime pt) (mFlags pt)).
  assert (E1 : (if F64.leb (_loopEnd tl) (F64.of_Z u)
                then
                  m <- F64.fmod (F64.sub (F64.of_Z u) (_loopStart tl))
                         (F64.of_Z (e - s)) ;;
                  Done (mkAudioTimeStamp (F64.add (_loopStart tl) m)
                          (mHostTime pt) (mFlags pt))
                else Done pt) = Done pt1).
  { rewrite Hend, Hstart, leb_of_Z. unfold pt1, current.
    destruct (e <=? u) eqn:L.
    - apply Z.leb_le in L. rewrite sub_of_Z, fmod_of_Z by lia. simpl.
      now rewrite add_of_Z.
    - apply Z.leb_gt in L. rewrite <- (Hp L). now destruct pt. }
  assert (V1 : SampleAndHostTimeValid pt1 = true) by exact V.
  destruct (Hticks length) as [o Ho]; [lia |].
  destruct (TimeStampOffset_advance tick pt1 length (sampleRate tl) o V1 Ho)
    as (pt' & T & Ts & Tf).
  exists pt1, pt'. split; [| split; [reflexivity | split; [| split]]].
  - unfold loopBody. rewrite E1. simpl.
    rewrite Hend, sub_of_Z. unfold F64.toInt.
    rewrite to_range_of_Z by lia. simpl.
    rewrite (wrapUInt32_small (e - current)) by lia.
    assert (F : (if n <? e - current then wrapInt n else e - current) = length).
    { unfold length. destruct (n <? e - current) eqn:L.
      - apply Z.ltb_lt in L. rewrite wrapInt_small by lia. lia.
      - apply Z.ltb_ge in L. lia. }
    rewrite F, T. simpl.
    rewrite (wrapUInt32_small length), (wrapUInt32_small (n - length)) by lia.
    now rewrite add_of_Z.
  - unfold SampleAndHostTimeValid, SampleTimeValid, HostTimeValid in *.
    now rewrite Tf.
  - rewrite Ts. unfold pt1. simpl. apply add_of_Z.
  - lia.
Qed.

Lemma renderLoop_whole fuel :
  forall pt n u p,
    SampleAndHostTimeValid pt = true ->
    0 <= n <= N -> n < 2 ^ 31 -> 0 <= u ->
    (u < e -> p = u /\ mSampleTime pt = F64.of_Z u) ->
    (Z.to_nat n <= fuel)%nat ->
    exists segs,
      renderLoop tick fuel tl pt n (F64.of_Z u) (e - s) = Done segs
      /\ (callBack tl = true ->
          positions segs = whole (Spec.segments fuel s e p u n)).
Proof.
  induction fuel as [| fuel IH]; intros pt n u p V Hn Hn31 Hu Hp Hf.
  - assert (n = 0) as -> by lia. exists []. split; reflexivity.
  - cbn [renderLoop Spec.segments].
    destruct (Z.eq_dec n 0) as [-> | Nz].
    + exists []. split; reflexivity.
    + replace (n =? 0) with false by (symmetry; apply Z.eqb_neq; exact Nz).
      replace (n <=? 0) with false by (symmetry; apply Z.leb_gt; lia).
      assert (Hp' : u < e -> mSampleTime pt = F64.of_Z u)
        by (intros L; apply Hp; exact L).
      destruct (loopBody_whole pt n u V ltac:(lia) Hn31 Hu Hp')
        as (pt1 & pt' & B & S1 & V' & S' & Lpos).
      set (current := if e <=? u then s + (u - s) mod (e - s) else u) in *.
      set (length := Z.min n (e - current)) in *.
      assert (Cspec : (if e <=? u then s + (u - s) mod (e - s) else p)
                      = current).
      { unfold current. destruct (e <=? u) eqn:L; [reflexivity |].
        apply Z.leb_gt in L. now destruct (Hp L). }
      rewrite Cspec. fold length.
      rewrite B. cbn [bind].
      destruct (IH pt' (n - length) (u + length) (current + length) V')
        as (rest & R & P).
      * unfold length. lia.
      * unfold length. lia.
      * lia.
      * intros L. split.
        -- unfold current.
           destruct (e <=? u) eqn:L'; [apply Z.leb_le in L'; lia | reflexivity].
        -- rewrite S'. unfold current.
           destruct (e <=? u) eqn:L'; [apply Z.leb_le in L'; lia | reflexivity].
      * unfold length in *. lia.
      * rewrite R. cbn [bind]. eexists. split; [reflexivity |].
        intros Hcall. specialize (P Hcall).
        unfold invoke. rewrite Hcall.
        rewrite (wrapUInt32_small length) by (unfold length; lia).
        unfold positions, whole in *. simpl. rewrite S1. f_equal. exact P.
Qed.

End WholeSampleLoop.

Section LoopScheduler.

Variable tick : Float64.

Lemma renderClip_valid tl ts n s pt n' :
  renderClip tick tl ts n s = Done (Some (pt, n')) ->
  SampleAndHostTimeValid pt = true.
Proof.
  unfold renderClip. intros H.
  destruct (negb (F64.is_zero _)).
  - destruct (F64.leb _ _); [discriminate |].
    inv_bind H. inv_bind H. inv_bind H. inv_done H.
    apply TimeStampOffset_flags in E1.
    unfold SampleAndHostTimeValid, SampleTimeValid, HostTimeValid.
    rewrite E1. reflexivity.
  - now inv_done H.
Qed.

Lemma renderPrologue_valid lock tl ts n tl' pt n' :
  renderPrologue tick lock tl ts n = Done (tl', Some (pt, n')) ->
  SampleAndHostTimeValid pt = true.
Proof.
  unfold renderPrologue. intros H.
  destruct (negb _ && negb _); [discriminate |].
  inv_bind H. inv_bind H. inv_bind H. inv_done H.
  eapply renderClip_valid; eassumption.
Qed.

Lemma renderPrologue_left lock tl ts n tl' pt n' :
  0 <= n ->
  renderPrologue tick lock tl ts n = Done (tl', Some (pt, n')) ->
  0 <= n' <= n.
Proof.
  unfold renderPrologue. intros Hn H.
  destruct (negb _ && negb _); [discriminate |].
  inv_bind H. inv_bind H. inv_bind H. inv_done H.
  match goal with
  | X : renderClip _ _ _ _ _ = Done _ |- _ =>
      pose proof (renderClip_frames _ _ _ _ _ _ Hn X) as F
  end.
  cbv beta iota zeta in F. destruct F as (_ & F & _). exact F.
Qed.

(** The call returns, on fuel [n], when the prologue returns and what it
    leaves is dispatchable. *)
Lemma render_returns lock tl ts n tl' c :
  0 <= n < 2 ^ 32 ->
  renderPrologue tick lock tl ts n = Done (tl', c) ->
  dispatchable tick tl' c ->
  exists segs,
    AKTimeLineRender tick (Z.to_nat n) lock tl ts n = Done (tl', segs).
Proof.
  intros Hn P D. unfold AKTimeLineRender. rewrite P. cbn [bind].
  destruct c as [[pt n'] |]; [| now eexists].
  pose proof (renderPrologue_left _ _ _ _ _ _ _ (proj1 Hn) P) as R.
  destruct D as [Z0 | (s & e & p & o & Hs & He & Hb & Hp & Hp0 & Hn' & Ho)].
  - unfold renderDispatch. rewrite Z0. cbn [bind]. now eexists.
  - pose proof (renderPrologue_valid _ _ _ _ _ _ _ P) as Vp.
    unfold renderDispatch. rewrite He, Hs, is_zero_of_Z.
    replace (e =? 0) with false by (symmetry; apply Z.eqb_neq; lia).
    rewrite sub_of_Z. unfold F64.toUInt32. rewrite to_range_of_Z by lia.
    cbn [bind]. rewrite Hp.
    destruct (renderLoop_whole tick tl' s e n' Hs He Hb
                (fun k K => hostOffset_shorter tick _ _ _ k Ho K)
                (Z.to_nat n) pt n' p p Vp)
      as (segs & L & _); try lia.
    + intros _. split; [reflexivity | exact Hp].
    + exists segs. now rewrite L.
Qed.



End LoopScheduler.

(** ** Render scheduler: contention and the NULL callback *)


(** X28.  With a NULL callback, [AKTimeLineRender] has the outcome it has
    with a callback in place, and leaves the timeline in the same state,
    the callback pointer apart: drain, anchor latch, bookkeeping,
    resolution, clipping and the walk through the loop segments are the
    same; it invokes nothing; and it returns, on fuel [n], when what its
    prologue leaves is dispatchable. *)
Theorem render_null_callback :
  forall tick fuel lock tl ts n,
    callBack tl = false ->
    AKTimeLineRender tick fuel lock tl ts n
    = omap (fun r => (set_callBack false (fst r), []))
        (AKTimeLineRender tick fuel lock (set_callBack true tl) ts n)
    /\ (forall tl' segs,
          AKTimeLineRender tick fuel lock tl ts n = Done (tl', segs) ->
          segs = [])
    /\ (forall tl' c,
          0 <= n < 2 ^ 32 ->
          renderPrologue tick lock tl ts n = Done (tl', c) ->
          dispatchable tick tl' c ->
          AKTimeLineRender tick (Z.to_nat n) lock tl ts n = Done (tl', [])).
Proof.
  intros tick fuel lock tl ts n Hc.
  assert (E : forall f,
             AKTimeLineRender tick f lock tl ts n
             = omap (fun r => (set_callBack false (fst r), []))
                 (AKTimeLineRender tick f lock (set_callBack true tl) ts n)).
  { intros f. rewrite <- render_callBack, set_callBack_twice, <- Hc.
    now rewrite set_callBack_same. }
  assert (N : forall f tl' segs,
             AKTimeLineRender tick f lock tl ts n = Done (tl', segs) ->
             segs = []).
  { intros f tl' segs H. rewrite E in H.
    destruct (AKTimeLineRender tick f lock (set_callBack true tl) ts n);
      simpl in H; congruence. }
  split; [apply E | split; [apply N |]].
  intros tl' c Hn P D.
  destruct (render_returns tick lock tl ts n tl' c Hn P D) as [segs R].
  now rewrite (N _ _ _ R) in R.
Qed.

(** ** Render scheduler: fuel *)

Lemma renderLoop_turn tick fuel tl pt n u d :
  renderLoop tick (S fuel) tl pt n u d
  = if n =? 0 then Done []
    else
      r <- loopBody tick tl pt n u d ;;
      rest <- renderLoop tick fuel tl (fst (fst (snd r))) (snd (fst (snd r)))
                (snd (snd r)) d ;;
      Done (fst r ++ rest).
Proof.
  simpl. destruct (n =? 0); [reflexivity |].
  now destruct (loopBody tick tl pt n u d) as [[seg [[pt' n'] u']] | |].
Qed.

(** More fuel does not change an outcome other than [OutOfFuel]. *)
Lemma renderLoop_more_fuel tick tl d fuel :
  forall pt n u,
    renderLoop tick fuel tl pt n u d <> OutOfFuel ->
    renderLoop tick (S fuel) tl pt n u d = renderLoop tick fuel tl pt n u d.
Proof.
  induction fuel as [| fuel IH]; intros pt n u H.
  - simpl in *. destruct (n =? 0); [reflexivity | contradiction].
  - rewrite (renderLoop_turn tick (S fuel)).
    rewrite (renderLoop_turn tick fuel) in H |- *.
    destruct (n =? 0); [reflexivity |].
    destruct (loopBody tick tl pt n u d) as [[seg [[pt' n'] u']] | |];
      simpl in *; try reflexivity.
    rewrite IH; [reflexivity |].
    intros C. rewrite C in H. simpl in H. contradiction.
Qed.

Lemma render_more_fuel tick fuel lock tl ts n :
  AKTimeLineRender tick fuel lock tl ts n <> OutOfFuel ->
  AKTimeLineRender tick (S fuel) lock tl ts n
  = AKTimeLineRender tick fuel lock tl ts n.
Proof.
  unfold AKTimeLineRender, renderDispatch. intros H.
  destruct (renderPrologue tick lock tl ts n) as [[tl' [[pt n'] |]] | |];
    cbn [bind] in *; try reflexivity.
  destruct (F64.is_zero (_loopEnd tl')); [reflexivity |].
  destruct (F64.toUInt32 _) as [d | |]; cbn [bind] in *; try reflexivity.
  rewrite renderLoop_more_fuel; [reflexivity |].
  intros C. rewrite C in H. cbn [bind] in H. contradiction.
Qed.

(** ** Render scheduler: loops that make no progress *)

Lemma renderLoop_no_progress tick tl pt n u d seg :
  (n =? 0) = false ->
  loopBody tick tl pt n u d = Done (seg, (pt, n, u)) ->
  forall fuel, renderLoop tick fuel tl pt n u d = OutOfFuel.
Proof.
  intros Hn Hb fuel. induction fuel as [| fuel IH]; simpl; rewrite Hn.
  - reflexivity.
  - rewrite Hb. simpl. now rewrite IH.
Qed.

Lemma renderLoop_diverges_after tick tl pt n u d seg pt' n' u' :
  (n =? 0) = false ->
  loopBody tick tl pt n u d = Done (seg, (pt', n', u')) ->
  (forall fuel, renderLoop tick fuel tl pt' n' u' d = OutOfFuel) ->
  forall fuel, renderLoop tick fuel tl pt n u d = OutOfFuel.
Proof.
  intros Hn Hb Hd [| fuel]; simpl; rewrite Hn.
  - reflexivity.
  - rewrite Hb. simpl. now rewrite Hd.
Qed.

(** C4, on the code.  After a start at sample 0 and [setLoop (0, 100.5)], a
    render call of 150 frames at position 0 does not return, whatever the
    fuel: the first turn dispatches 100 frames, and from then on
    [(int) (100.5 - 100)] is 0, so that every turn dispatches no frame and
    leaves 50 to render. *)
Theorem render_fractional_loop_diverges :
  forall fuel,
    AKTimeLineRender Scenario.nanosecond fuel false
      (Scenario.run Scenario.loop_0_100_half) (Scenario.deviceTime 0 1000) 150
    = OutOfFuel.
Proof.
  intros fuel. unfold AKTimeLineRender.
  destruct (renderPrologue Scenario.nanosecond false
              (Scenario.run Scenario.loop_0_100_half)
              (Scenario.deviceTime 0 1000) 150) as [[tl' c'] | |] eqn:P;
    run_in P.
  cbn [bind]. unfold renderDispatch.
  match goal with |- context [F64.is_zero ?a] =>
    replace (F64.is_zero a) with false by (vm_compute; reflexivity) end.
  match goal with |- context [F64.toUInt32 ?a] =>
    destruct (F64.toUInt32 a) as [d | |] eqn:D end; run_in D.
  cbn [bind].
  erewrite renderLoop_diverges_after;
    [reflexivity | reflexivity | vm_compute; reflexivity |].
  eapply renderLoop_no_progress; [reflexivity | vm_compute; reflexivity].
Qed.

(** A loop of no duration is accepted by [AKTimelineSetLoop] as well; the
    render call that reaches its end computes [fmod (0, 0)], a NaN, and
    converts it to [int]. *)
Lemma render_empty_loop_not_finite :
  forall fuel,
    AKTimeLineRender Scenario.nanosecond (S (S fuel)) false
      (Scenario.run Scenario.loop_5_5) (Scenario.deviceTime 0 1000) 10
    = Fault NotFinite.
Proof.
  intros fuel. unfold AKTimeLineRender.
  destruct (renderPrologue Scenario.nanosecond false
              (Scenario.run Scenario.loop_5_5)
              (Scenario.deviceTime 0 1000) 10) as [[tl' c'] | |] eqn:P;
    run_in P.
  cbn [bind]. unfold renderDispatch.
  match goal with |- context [F64.is_zero ?a] =>
    replace (F64.is_zero a) with false by (vm_compute; reflexivity) end.
  match goal with |- context [F64.toUInt32 ?a] =>
    destruct (F64.toUInt32 a) as [d | |] eqn:D end; run_in D.
  cbn [bind renderLoop].
  replace (10 =? 0) with false by reflexivity.
  match goal with |- context [loopBody ?a ?b ?c ?d ?e ?f] =>
    destruct (loopBody a b c d e f) as [[seg [[pt' n'] u']] | |] eqn:B end;
    run_in B.
  cbn [bind renderLoop].
  replace (5 =? 0) with false by reflexivity.
  match goal with |- context [loopBody ?a ?b ?c ?d ?e ?f] =>
    replace (loopBody a b c d e f)
      with (@Fault (list Segment * (AudioTimeStamp * Z * Float64)) NotFinite)
      by (vm_compute; reflexivity) end.
  reflexivity.
Qed.

(** Without a loop the call returns whatever the fuel. *)
Lemma render_linear_returns tick fuel lock tl ts n tl' c :
  renderPrologue tick lock tl ts n = Done (tl', c) ->
  F64.is_zero (_loopEnd tl') = true ->
  exists segs, AKTimeLineRender tick fuel lock tl ts n = Done (tl', segs).
Proof.
  intros P Z0. unfold AKTimeLineRender. rewrite P. cbn [bind].
  destruct c as [[pt n'] |]; [| now eexists].
  unfold renderDispatch. rewrite Z0. cbn [bind]. now eexists.
Qed.

(** The scenarios run without a fault. *)
Lemma scenarios_run :
  Scenario.loop_0_100 = Done (Scenario.run Scenario.loop_0_100)
  /\ Scenario.loop_0_100_half = Done (Scenario.run Scenario.loop_0_100_half)
  /\ Scenario.first_call = Done (Scenario.run Scenario.first_call)
  /\ Scenario.loop_changed = Done (Scenario.run Scenario.loop_changed)
  /\ Scenario.second_call = Done (Scenario.run Scenario.second_call)
  /\ Scenario.queue_full = Done (Scenario.run Scenario.queue_full)
  /\ Scenario.loop_5_5 = Done (Scenario.run Scenario.loop_5_5)
  /\ Scenario.loop_20_50 = Done (Scenario.run Scenario.loop_20_50)
  /\ Scenario.fractional_loop = Done (Scenario.run Scenario.fractional_loop)
  /\ Scenario.deferred_start = Done (Scenario.run Scenario.deferred_start)
  /\ Scenario.loop_0_100_muted = Done (Scenario.run Scenario.loop_0_100_muted)
  /\ omap fst Scenario.loop_0_100_rendered
     = Done (Scenario.run (omap fst Scenario.loop_0_100_rendered)).
Proof.
  cbv zeta.
  repeat match goal with |- _ /\ _ => split end; vm_compute; reflexivity.
Qed.

(** The second scenario of the specification: with the loop [20, 50) and
    10 frames from position 45, the segments are (45, 5) and (20, 5). *)
Lemma loop_20_50_segments :
  omap (fun r => positions (snd r))
    (AKTimeLineRender Scenario.nanosecond 10 false
       (Scenario.run Scenario.loop_20_50)
       (Scenario.deviceTime 45 10000000) 10)
  = Done [(F64.of_Z 45, 5); (F64.of_Z 20, 5)].
Proof. vm_compute. reflexivity. Qed.

(** ** Render scheduler: the invocations of a call that does not return *)

Lemma loopInvocations_no_progress tick tl pt n u d seg :
  (n =? 0) = false ->
  loopBody tick tl pt n u d = Done (seg, (pt, n, u)) ->
  forall turns,
    loopInvocations tick turns tl pt n u d = concat (repeat seg turns).
Proof.
  intros Hn Hb turns. induction turns as [| turns IH]; simpl; rewrite Hn.
  - reflexivity.
  - rewrite Hb. now rewrite IH.
Qed.

(** When the loop ends the invocations are those of the call. *)
Lemma renderLoop_invocations tick tl d fuel :
  forall pt n u segs,
    renderLoop tick fuel tl pt n u d = Done segs ->
    loopInvocations tick fuel tl pt n u d = segs.
Proof.
  induction fuel as [| fuel IH]; intros pt n u segs H; simpl in *.
  - destruct (n =? 0); [now inv_done H | discriminate].
  - destruct (n =? 0); [now inv_done H |].
    destruct (loopBody tick tl pt n u d) as [[seg [[pt' n'] u']] | |];
      simpl in H; try discriminate.
    inv_bind H. inv_done H. now rewrite (IH _ _ _ _ E).
Qed.

Lemma render_invocations tick fuel lock tl ts n tl' segs :
  AKTimeLineRender tick fuel lock tl ts n = Done (tl', segs) ->
  renderInvocations tick fuel lock tl ts n = segs.
Proof.
  unfold AKTimeLineRender, renderInvocations, renderDispatch. intros H.
  destruct (renderPrologue tick lock tl ts n) as [[tl0 [[pt n'] |]] | |];
    cbn [bind] in H; try discriminate.
  - destruct (F64.is_zero (_loopEnd tl0)).
    + now inv_done H.
    + destruct (F64.toUInt32 _) as [d | |]; cbn [bind] in H; try discriminate.
      inv_bind H. inv_done H. now apply renderLoop_invocations.
  - now inv_done H.
Qed.

Lemma positions_app a b : positions (a ++ b) = positions a ++ positions b.
Proof. apply map_app. Qed.

Lemma positions_idle_turns pt turns :
  positions (concat (repeat [mkSegment pt 0] turns))
  = repeat (mSampleTime pt, 0) turns.
Proof.
  induction turns as [| turns IH]; [reflexivity |].
  cbn [repeat concat]. rewrite positions_app, IH. reflexivity.
Qed.

Lemma dispatchedFrames_idle_turns pt turns :
  dispatchedFrames (concat (repeat [mkSegment pt 0] turns)) = 0.
Proof.
  induction turns as [| turns IH]; [reflexivity |].
  cbn [repeat concat]. rewrite dispatchedFrames_app, IH. reflexivity.
Qed.

(** The render call of 150 frames at position 0 on the loop [0, 100.5):
    the first turn hands the callback 100 frames at position 0, every
    later turn no frame at position 100. *)
Lemma fractional_loop_invocations :
  forall turns,
    exists pt,
      mSampleTime pt = F64.of_Z 100
      /\ renderInvocations Scenario.nanosecond (S turns) false
           (Scenario.run Scenario.loop_0_100_half)
           (Scenario.deviceTime 0 1000) 150
         = mkSegment (Scenario.deviceTime 0 1000) 100
           :: concat (repeat [mkSegment pt 0] turns).
Proof.
  intros turns. unfold renderInvocations.
  destruct (renderPrologue Scenario.nanosecond false
              (Scenario.run Scenario.loop_0_100_half)
              (Scenario.deviceTime 0 1000) 150) as [[tl' c'] | |] eqn:P;
    run_in P.
  match goal with |- context [F64.is_zero ?a] =>
    replace (F64.is_zero a) with false by (vm_compute; reflexivity) end.
  match goal with |- context [F64.toUInt32 ?a] =>
    destruct (F64.toUInt32 a) as [d | |] eqn:D end; run_in D.
  cbn [loopInvocations].
  replace (150 =? 0) with false by reflexivity.
  match goal with |- context [loopBody ?a ?b ?c ?d ?e ?f] =>
    destruct (loopBody a b c d e f) as [[seg [[pt' n'] u']] | |] eqn:B end;
    run_in B.
  eexists. split; [| cbn [app]; f_equal;
                     apply loopInvocations_no_progress;
                     [reflexivity | vm_compute; reflexivity]].
  reflexivity.
Qed.

Lemma fractional_loop_never_returns callback timeline :
  (timeline <- AKTimelineStartAtTime Scenario.nanosecond
                 (AKTimeLineInit Scenario.rate callback)
                 (Scenario.atSample 0) ;;
   AKTimelineSetLoop timeline (F64.of_Z 0) (201 # 2)%Q) = Done timeline ->
  forall fuel,
    AKTimeLineRender Scenario.nanosecond fuel false timeline
      (Scenario.deviceTime 0 1000) 150 = OutOfFuel.
Proof.
  intros H fuel. unfold AKTimeLineRender.
  destruct callback; run_in H.
  all: match goal with |- context [renderPrologue ?a ?b ?c ?d ?e] =>
         destruct (renderPrologue a b c d e) as [[tl' c'] | |] eqn:P end;
       run_in P.
  all: cbn [bind]; unfold renderDispatch.
  all: match goal with |- context [F64.is_zero ?a] =>
         replace (F64.is_zero a) with false by (vm_compute; reflexivity) end.
  all: match goal with |- context [F64.toUInt32 ?a] =>
         destruct (F64.toUInt32 a) as [d | |] eqn:D end; run_in D.
  all: cbn [bind].
  all: erewrite renderLoop_diverges_after;
         [reflexivity | reflexivity | vm_compute; reflexivity |].
  all: eapply renderLoop_no_progress; [reflexivity | vm_compute; reflexivity].
Qed.

(** C1, on the code.  After a start at sample 0 and [setLoop (0, 100.5)],
    which [AKTimelineSetLoop] accepts, the timeline loops, and a render call
    of 150 frames at position 0 hands the callback 100 frames at position 0
    and then, on every further turn, no frame at position 100: the unlooped
    position 100 has not reached [loopEnd], so the player time does not
    wrap, and [(int) (100.5 - 100)] is 0.  The call does not return,
    whatever the fuel. *)
Theorem render_fractional_loop_segments :
  let tl := Scenario.run Scenario.loop_0_100_half in
  let ts := Scenario.deviceTime 0 1000 in
  Scenario.loop_0_100_half = Done tl
  /\ (_loopStart (renderDrain false tl), _loopEnd (renderDrain false tl))
     = (F64.of_Z 0, (201 # 2)%Q)
  /\ (forall turns,
        positions (renderInvocations Scenario.nanosecond (S turns) false tl
                     ts 150)
        = (F64.of_Z 0, 100) :: repeat (F64.of_Z 100, 0) turns)
  /\ (forall fuel,
        AKTimeLineRender Scenario.nanosecond fuel false tl ts 150 = OutOfFuel).
Proof.
  cbv zeta.
  split; [vm_compute; reflexivity |]. split; [vm_compute; reflexivity |].
  split.
  - intros turns. destruct (fractional_loop_invocations turns) as (pt & E & ->).
    change (positions (?a :: ?l)) with
      ((mSampleTime (segTime a), segFrames a) :: positions l).
    now rewrite positions_idle_turns, E.
  - apply (fractional_loop_never_returns true). vm_compute. reflexivity.
Qed.

(** C2, on the code.  In the same call the timeline is started and
    resolved and no frame lies before the wait start, so that [n] less the
    clipped frames is 150; the frames handed to the callback add up to 100
    however many turns the loop takes, and the call does not return. *)
Theorem render_fractional_loop_frames :
  let tl := Scenario.run Scenario.loop_0_100_half in
  let ts := Scenario.deviceTime 0 1000 in
  (exists tl' c,
      renderPrologue Scenario.nanosecond false tl ts 150 = Done (tl', c)
      /\ SampleAndHostTimeValid (_baseTime tl') = true
      /\ 150 - Spec.clippedFrames
                 (F64.sub (mSampleTime ts) (mSampleTime (_baseTime tl')))
                 (waitStartOffset tl') 150 = 150)
  /\ (forall turns,
        dispatchedFrames
          (renderInvocations Scenario.nanosecond (S turns) false tl ts 150)
        = 100)
  /\ (forall fuel,
        AKTimeLineRender Scenario.nanosecond fuel false tl ts 150 = OutOfFuel).
Proof.
  cbv zeta. split; [| split].
  - eexists. eexists. split; [vm_compute; reflexivity |].
    split; vm_compute; reflexivity.
  - intros turns. destruct (fractional_loop_invocations turns) as (pt & E & ->).
    change (dispatchedFrames (?a :: ?l)) with (segFrames a + dispatchedFrames l).
    now rewrite dispatchedFrames_idle_turns.
  - apply (fractional_loop_never_returns true). vm_compute. reflexivity.
Qed.

(** C10, on the code.  The same call on a timeline whose callback is
    NULL: the prologue latches the anchor, records the time stamp and the
    frame count and resolves the base time, and nothing is invoked, but the
    call does not return, whatever the fuel: the loop of lines 228-240
    makes no progress with or without a callback. *)
Theorem render_null_callback_fractional_loop :
  let tl := Scenario.run Session.fractional_muted in
  let ts := Scenario.deviceTime 0 1000 in
  Session.fractional_muted = Done tl
  /\ callBack tl = false
  /\ (exists tl' pt,
        renderPrologue Scenario.nanosecond false tl ts 150
        = Done (tl', Some (pt, 150))
        /\ anchorTime tl' = ts
        /\ (lastRenderTime tl', lastRenderFrames tl') = (ts, 150)
        /\ SampleAndHostTimeValid (_baseTime tl') = true)
  /\ (forall turns,
        renderInvocations Scenario.nanosecond turns false tl ts 150 = [])
  /\ (forall fuel,
        AKTimeLineRender Scenario.nanosecond fuel false tl ts 150 = OutOfFuel).
Proof.
  cbv zeta.
  split; [vm_compute; reflexivity |]. split; [vm_compute; reflexivity |].
  split; [| split].
  - eexists. eexists. split; [vm_compute; reflexivity |].
    repeat match goal with |- _ /\ _ => split end; vm_compute; reflexivity.
  - intros turns. unfold renderInvocations.
    destruct (renderPrologue Scenario.nanosecond false
                (Scenario.run Session.fractional_muted)
                (Scenario.deviceTime 0 1000) 150) as [[tl' c'] | |] eqn:P;
      run_in P.
    match goal with |- context [F64.is_zero ?a] =>
      replace (F64.is_zero a) with false by (vm_compute; reflexivity) end.
    match goal with |- context [F64.toUInt32 ?a] =>
      destruct (F64.toUInt32 a) as [d | |] eqn:D end; run_in D.
    destruct turns as [| turns]; [reflexivity |].
    cbn [loopInvocations].
    replace (150 =? 0) with false by reflexivity.
    match goal with |- context [loopBody ?a ?b ?c ?d ?e ?f] =>
      destruct (loopBody a b c d e f) as [[seg [[pt' n'] u']] | |] eqn:B end;
      run_in B.
    cbn [app].
    rewrite (loopInvocations_no_progress _ _ _ _ _ _ []);
      [| reflexivity | vm_compute; reflexivity].
    clear. induction turns as [| turns IH]; [reflexivity | exact IH].
  - apply (fractional_loop_never_returns false). vm_compute. reflexivity.
Qed.

(** C3, on the code.  With the loop [0, 100) and the base at sample 0,
    [AKTimelineTimeAtTime] at elapsed position 100 returns 100, where the
    wrapped position is 0; one sample later it returns 1; and a render call
    at elapsed position 100 hands the callback position 0. *)
Theorem timeAtTime_at_loop_end :
  let tl := Scenario.run (omap fst Scenario.loop_0_100_rendered) in
  omap fst (AKTimelineTimeAtTime Scenario.nanosecond tl (Scenario.atSample 100))
  = Done (F64.of_Z 100)
  /\ omap fst (AKTimelineTimeAtTime Scenario.nanosecond tl
                 (Scenario.atSample 101))
     = Done (F64.of_Z 1)
  /\ omap (fun r => positions (snd r))
       (AKTimeLineRender Scenario.nanosecond 1 false tl
          (Scenario.deviceTime 100 2268574) 1)
     = Done [(F64.of_Z 0, 1)].
Proof.
  cbv zeta.
  repeat match goal with |- _ /\ _ => split end; vm_compute; reflexivity.
Qed.

(** C6, on the code.  A timeline started on a host time before the first
    render call keeps a desired base time that is valid in the host domain
    only; every later message carries it to the shadow state, and the
    render call resolves it against the device time stamp of that call, not
    against the anchor: here to sample -4, where the anchor gives sample
    0. *)
Theorem render_resolves_against_device_time :
  let tl := Scenario.run Scenario.loop_changed in
  let tl' := Scenario.run Scenario.second_call in
  let shadow := _baseTime (drainMessages tl) in
  SampleTimeValid shadow = false
  /\ HostTimeValid shadow = true
  /\ SampleAndHostTimeValid (anchorTime tl) = true
  /\ anchorTime tl' = anchorTime tl
  /\ extrapolateTime Scenario.nanosecond shadow Scenario.second_stamp
       Scenario.rate = Done (_baseTime tl')
  /\ mSampleTime (_baseTime tl') = F64.of_Z (- 4)
  /\ omap mSampleTime
       (extrapolateTime Scenario.nanosecond shadow (anchorTime tl)
          Scenario.rate) = Done (F64.of_Z 0).
Proof.
  cbv zeta.
  repeat match goal with |- _ /\ _ => split end; vm_compute; reflexivity.
Qed.

(** C5 as stated does not hold: after a start on a host time and one render
    call, the query fills in the sample time of [baseTime]. *)
Lemma timeAtTime_not_pure :
  ~ (forall tick tl t v tl',
       AKTimelineTimeAtTime tick tl t = Done (v, tl') -> tl' = tl).
Proof.
  intros H.
  destruct (AKTimelineTimeAtTime Scenario.nanosecond
              (Scenario.run Scenario.first_call) (AudioTimeNow 6000))
    as [[v tl'] | |] eqn:E.
  - pose proof (H _ _ _ _ _ E) as F. run_in E.
    apply (f_equal (fun x => mFlags (baseTime x))) in F.
    vm_compute in F. discriminate F.
  - vm_compute in E. discriminate E.
  - vm_compute in E. discriminate E.
Qed.


(** C7 as stated does not hold: on the doubles of the machine, offsetting
    the time stamp at sample time 0.1 (host time 5000000, both domains
    valid, 44100 Hz, one tick per nanosecond) by 1 sample and then by -1
    sample restores the host time, with no clamp in either call, but not
    the sample time: [(0.1 + 1) + -1] is the double above 0.1. *)
Lemma offset_round_trip_rounds :
  let t := Binary64.mkAudioTimeStamp Binary64.tenth 5000000 3 in
  exists t1 t2,
    Binary64.TimeStampOffset Binary64.nanosecond t 1 Binary64.rate = Done t1
    /\ Binary64.TimeStampOffset Binary64.nanosecond t1 (- 1) Binary64.rate
       = Done t2
    /\ Binary64.mHostTime t1 = 5000000 + 22676
    /\ Binary64.mHostTime t2 = Binary64.mHostTime t
    /\ Binary64.mFlags t2 = Binary64.mFlags t
    /\ PrimFloat.eqb (Binary64.mSampleTime t2) (Binary64.mSampleTime t) = false
    /\ PrimFloat.ltb (Binary64.mSampleTime t) (Binary64.mSampleTime t2) = true.
Proof.
  cbv zeta. eexists. eexists.
  split; [vm_compute; reflexivity |]. split; [vm_compute; reflexivity |].
  repeat match goal with |- _ /\ _ => split end; vm_compute; reflexivity.
Qed.

(** ** The theorems at work on the reference scenarios *)



Lemma timeAtTime_frame_witness :
  exists v tl',
    AKTimelineTimeAtTime Scenario.nanosecond
      (Scenario.run Scenario.first_call) (AudioTimeNow 6000) = Done (v, tl')
    /\ tl' = set_baseTime (baseTime tl') (Scenario.run Scenario.first_call)
    /\ mFlags (baseTime (Scenario.run Scenario.first_call)) = 2
    /\ mFlags (baseTime tl') = 3.
Proof.
  eassert (E : AKTimelineTimeAtTime Scenario.nanosecond
                 (Scenario.run Scenario.first_call) (AudioTimeNow 6000)
               = Done (_, _)) by (vm_compute; reflexivity).
  destruct (timeAtTime_frame _ _ _ _ _ E) as [F _].
  eexists. eexists. split; [exact E |]. split; [exact F |].
  split; vm_compute; reflexivity.
Defined.

Lemma offset_round_trip_witness :
  exists t1 t2,
    TimeStampOffset Scenario.nanosecond
      (AudioTimeStampWithSampleHost (201 # 2)%Q 5000000) 512 Scenario.rate
    = Done t1
    /\ TimeStampOffset Scenario.nanosecond t1 (- 512) Scenario.rate = Done t2
    /\ mSampleTime t1 = (1225 # 2)%Q
    /\ mHostTime t1 = 5000000 + 11609977
    /\ (mSampleTime t2 == 201 # 2)%Q
    /\ mHostTime t2 = 5000000.
Proof.
  eassert (H1 : TimeStampOffset Scenario.nanosecond
                  (AudioTimeStampWithSampleHost (201 # 2)%Q 5000000) 512
                  Scenario.rate = Done _) by (vm_compute; reflexivity).
  match type of H1 with
  | _ = Done ?t1 =>
      eassert (H2 : TimeStampOffset Scenario.nanosecond t1 (- 512)
                      Scenario.rate = Done _) by (vm_compute; reflexivity)
  end.
  assert (R : 0 <= mHostTime
                     (AudioTimeStampWithSampleHost (201 # 2)%Q 5000000)
              < 2 ^ 64) by (cbn; lia).
  assert (V : SampleAndHostTimeValid
                (AudioTimeStampWithSampleHost (201 # 2)%Q 5000000) = true)
    by reflexivity.
  assert (B1 : binary64 (201 # 2)%Q).
  { exists 201, (- 1). split; [lia |]. split; [lia | reflexivity]. }
  assert (B2 : binary64 ((201 # 2) + inject_Z 512)%Q).
  { exists 1225, (- 1). split; [lia |]. split; [lia | reflexivity]. }
  destruct (offset_round_trip Scenario.nanosecond _ 512 Scenario.rate _ _
              V R B1 B2 ltac:(lia) H1 ltac:(vm_compute; reflexivity)
              H2 ltac:(vm_compute; reflexivity)) as (S & H & _ & _).
  eexists. eexists. split; [exact H1 |]. split; [exact H2 |].
  split; [vm_compute; reflexivity |]. split; [vm_compute; reflexivity |].
  split; [exact S | exact H].
Defined.


Lemma start_truncates_loop_bounds_witness :
  exists tl',
    AKTimelineStartAtTime Scenario.nanosecond
      (Scenario.run Scenario.fractional_loop) (Scenario.atSample 0) = Done tl'
    /\ loopBoundsTruncated (Scenario.run Scenario.fractional_loop) tl'
    /\ loopStart (Scenario.run Scenario.fractional_loop) = (41 # 2)%Q
    /\ loopEnd (Scenario.run Scenario.fractional_loop) = F64.of_Z 51
    /\ loopStart tl' = F64.of_Z 20
    /\ loopEnd tl' = F64.of_Z 51.
Proof.
  eassert (E : AKTimelineStartAtTime Scenario.nanosecond
                 (Scenario.run Scenario.fractional_loop) (Scenario.atSample 0)
               = Done _) by (vm_compute; reflexivity).
  assert (S : AKTimelineIsStarted (Scenario.run Scenario.fractional_loop)
              = false) by (vm_compute; reflexivity).
  pose proof (proj1 (start_truncates_loop_bounds Scenario.nanosecond _ _ S)
                _ E) as T.
  eexists. split; [exact E |]. split; [exact T |].
  repeat match goal with |- _ /\ _ => split end; vm_compute; reflexivity.
Defined.

Lemma render_null_callback_witness :
  callBack (Scenario.run Scenario.loop_0_100_muted) = false
  /\ (exists tl',
        AKTimeLineRender Scenario.nanosecond 150 false
          (Scenario.run Scenario.loop_0_100_muted)
          (Scenario.deviceTime 0 1000) 150 = Done (tl', []))
  /\ omap (fun r => positions (snd r))
       (AKTimeLineRender Scenario.nanosecond 150 false
          (set_callBack true (Scenario.run Scenario.loop_0_100_muted))
          (Scenario.deviceTime 0 1000) 150)
     = Done [(F64.of_Z 0, 100); (F64.of_Z 0, 50)]
  /\ AKTimeLineRender Scenario.nanosecond 150 false
       (Scenario.run Scenario.loop_0_100_muted)
       (Scenario.deviceTime 0 1000) 150
     = omap (fun r => (set_callBack false (fst r), []))
         (AKTimeLineRender Scenario.nanosecond 150 false
            (set_callBack true (Scenario.run Scenario.loop_0_100_muted))
            (Scenario.deviceTime 0 1000) 150).
Proof.
  assert (C : callBack (Scenario.run Scenario.loop_0_100_muted) = false)
    by (vm_compute; reflexivity).
  split; [exact C |].
  split; [eexists; vm_compute; reflexivity |].
  split; [vm_compute; reflexivity |].
  exact (proj1 (render_null_callback Scenario.nanosecond 150%nat false _
                  (Scenario.deviceTime 0 1000) 150 C)).
Defined.

(** * Further properties *)

(** ** Host-time differences *)

Lemma wrapSInt64_wrapUInt64 z : wrapSInt64 (wrapUInt64 z) = wrapSInt64 z.
Proof.
  unfold wrapSInt64, wrapUInt64. now rewrite Zplus_mod_idemp_l.
Qed.

Lemma safeSubtract_wrap a b : safeSubtract a b = wrapSInt64 (a - b).
Proof.
  unfold safeSubtract. destruct (b <=? a).
  - apply wrapSInt64_wrapUInt64.
  - rewrite wrapSInt64_wrapUInt64. unfold wrapSInt64, wrapUInt64.
    f_equal.
    rewrite <- (Zplus_mod_idemp_l (- ((b - a) mod 2 ^ 64))).
    rewrite <- (Zplus_mod_idemp_l (a - b)).
    f_equal. f_equal.
    replace (a - b) with (- (b - a)) by lia.
    set (M := 2 ^ 64). set (x := b - a).
    assert (HM : M <> 0) by (unfold M; lia).
    rewrite (Z.div_mod x M HM) at 2.
    replace (- (M * (x / M) + x mod M)) with (- (x mod M) + (- (x / M)) * M)
      by lia.
    now rewrite Z.mod_add.
Qed.

Lemma wrapSInt64_small z : - 2 ^ 63 <= z < 2 ^ 63 -> wrapSInt64 z = z.
Proof. intros Hz. unfold wrapSInt64. rewrite Z.mod_small; lia. Qed.

(** X1.  [safeSubtract a b] is the signed difference [a - b] of two host
    times whenever that difference fits an SInt64, whichever of the two is
    the larger; swapping the arguments negates the result (except at the
    one value [- 2 ^ 63], which has no opposite). *)
Theorem safeSubtract_difference :
  forall a b,
    - 2 ^ 63 <= a - b < 2 ^ 63 ->
    safeSubtract a b = a - b
    /\ (- 2 ^ 63 < a - b -> safeSubtract b a = - safeSubtract a b).
Proof.
  intros a b Hd. rewrite !safeSubtract_wrap.
  split; [now apply wrapSInt64_small |].
  intros Hlt. rewrite !wrapSInt64_small by lia. lia.
Qed.

(** ** The message channel *)

Lemma makeRoom_suffix q : exists dropped, q = dropped ++ makeRoom q.
Proof.
  induction q as [| m q [d IH]]; simpl.
  - now exists [].
  - destruct (S (length q) <? queueCapacity)%nat.
    + now exists [].
    + exists (m :: d). simpl. now f_equal.
Qed.

(** X2.  [AKTimelineSendMessage] appends the message as the newest of
    the queue.  What it drops to make room is a run of the oldest messages:
    the messages kept are the newest ones, in their order, and the message
    sent is never among the dropped.  Nothing but the queue changes. *)
Theorem sendMessage_appends :
  forall tl m,
    let tl' := AKTimelineSendMessage tl m in
    (exists dropped kept,
        messageQueue tl = dropped ++ kept
        /\ messageQueue tl' = kept ++ [m])
    /\ last (messageQueue tl') m = m
    /\ set_messageQueue (messageQueue tl) tl' = tl.
Proof.
  intros tl m tl'. subst tl'. unfold AKTimelineSendMessage.
  replace (messageQueue (set_messageQueue _ tl))
    with (makeRoom (messageQueue tl) ++ [m]) by now destruct tl.
  split; [| split].
  - destruct (makeRoom_suffix (messageQueue tl)) as [dropped E].
    exists dropped, (makeRoom (messageQueue tl)). split; [exact E | reflexivity].
  - apply last_last.
  - now destruct tl.
Qed.

Lemma drain_last tl q m :
  messageQueue tl = q ++ [m] ->
  let tl' := drainMessages tl in
  _baseTime tl' = msgBaseTime m /\ _loopStart tl' = msgLoopStart m
  /\ _loopEnd tl' = msgLoopEnd m /\ _waitStart tl' = msgWaitStart m
  /\ messageQueue tl' = [].
Proof.
  intros E tl'. subst tl'. unfold drainMessages. rewrite E.
  rewrite fold_left_app. simpl.
  generalize (fold_left applyMessage q tl). intros t. now destruct t.
Qed.

Lemma fold_applyMessage_desired q : forall tl,
  let tl' := fold_left applyMessage q tl in
  baseTime tl' = baseTime tl /\ waitStart tl' = waitStart tl
  /\ loopStart tl' = loopStart tl /\ loopEnd tl' = loopEnd tl
  /\ idleTime tl' = idleTime tl /\ anchorTime tl' = anchorTime tl
  /\ sampleRate tl' = sampleRate tl /\ callBack tl' = callBack tl
  /\ lastRenderTime tl' = lastRenderTime tl
  /\ lastRenderFrames tl' = lastRenderFrames tl.
Proof.
  cbv zeta. induction q as [| m q IH]; intros tl.
  - repeat split.
  - change (fold_left applyMessage (m :: q) tl)
      with (fold_left applyMessage q (applyMessage tl m)).
    destruct (IH (applyMessage tl m))
      as (A & B & C & D & E & F & G & H & I & J).
    rewrite A, B, C, D, E, F, G, H, I, J. now destruct tl.
Qed.

Lemma drain_desired tl :
  let tl' := drainMessages tl in
  baseTime tl' = baseTime tl /\ waitStart tl' = waitStart tl
  /\ loopStart tl' = loopStart tl /\ loopEnd tl' = loopEnd tl
  /\ idleTime tl' = idleTime tl /\ anchorTime tl' = anchorTime tl
  /\ sampleRate tl' = sampleRate tl /\ callBack tl' = callBack tl
  /\ lastRenderTime tl' = lastRenderTime tl
  /\ lastRenderFrames tl' = lastRenderFrames tl.
Proof.
  cbv zeta. unfold drainMessages.
  destruct (fold_applyMessage_desired (messageQueue tl) tl)
    as (A & B & C & D & E & F & G & H & I & J).
  rewrite <- A, <- B, <- C, <- D, <- E, <- F, <- G, <- H, <- I, <- J.
  now destruct (fold_left applyMessage (messageQueue tl) tl).
Qed.

Lemma drain_after_synchronize :
  forall tl,
    let tl' := renderDrain false (AKTimelineSyncronize tl) in
    _baseTime tl' = baseTime tl /\ _waitStart tl' = waitStart tl
    /\ _loopStart tl' = loopStart tl /\ _loopEnd tl' = loopEnd tl
    /\ baseTime tl' = baseTime tl /\ waitStart tl' = waitStart tl
    /\ loopStart tl' = loopStart tl /\ loopEnd tl' = loopEnd tl
    /\ messageQueue tl' = [].
Proof.
  intros tl tl'. subst tl'. unfold renderDrain.
  set (m := mkMessage (loopStart tl) (loopEnd tl) (baseTime tl) (waitStart tl)).
  assert (Q : messageQueue (AKTimelineSyncronize tl)
              = makeRoom (messageQueue tl) ++ [m]) by now destruct tl.
  destruct (drain_last _ _ _ Q) as (A & B & C & D & E).
  destruct (drain_desired (AKTimelineSyncronize tl))
    as (F & G & H & I & _).
  rewrite A, B, C, D, E, F, G, H, I.
  unfold m. simpl. repeat split; now destruct tl.
Qed.

(** X3.  Whatever the queue holds, once [AKTimelineSyncronize] has sent the
    desired state, the drain of an uncontended render call leaves the shadow
    state equal to the desired state (the last message wins), the desired
    state as it was and the queue empty; a second drain changes nothing. *)
Theorem synchronize_then_drain :
  forall tl,
    let tl' := renderDrain false (AKTimelineSyncronize tl) in
    shadowState tl' = (baseTime tl, waitStart tl, loopStart tl, loopEnd tl)
    /\ desiredState tl' = desiredState tl
    /\ messageQueue tl' = []
    /\ renderDrain false tl' = tl'.
Proof.
  intros tl tl'.
  destruct (drain_after_synchronize tl) as (A & B & C & D & E & F & G & H & Q).
  fold tl' in A, B, C, D, E, F, G, H, Q.
  split; [unfold shadowState; now rewrite A, B, C, D |].
  split.
  - unfold desiredState. rewrite E, F, G, H. do 2 f_equal.
    unfold tl', renderDrain.
    destruct (drain_desired (AKTimelineSyncronize tl))
      as (_ & _ & _ & _ & I & _).
    rewrite I. now destruct tl.
  - split; [exact Q |].
    unfold renderDrain at 1. unfold drainMessages. rewrite Q. simpl.
    rewrite <- Q. now destruct tl'.
Qed.

(** ** Who writes what *)

Lemma controlStep_refl tl : controlStep tl tl.
Proof. unfold controlStep. auto. Qed.

Lemma controlStep_sync tl tl0 :
  shadowState tl0 = shadowState tl ->
  renderState tl0 = renderState tl ->
  configuration tl0 = configuration tl ->
  messageQueue tl0 = messageQueue tl ->
  controlStep tl (AKTimelineSyncronize tl0).
Proof.
  intros S R C Q. unfold controlStep.
  replace (shadowState (AKTimelineSyncronize tl0)) with (shadowState tl0)
    by now destruct tl0.
  replace (renderState (AKTimelineSyncronize tl0)) with (renderState tl0)
    by now destruct tl0.
  replace (configuration (AKTimelineSyncronize tl0)) with (configuration tl0)
    by now destruct tl0.
  repeat (split; [assumption |]). right. rewrite <- Q. now destruct tl0.
Qed.

Lemma setState_step tick tl k ls le t tl' :
  AKTimelineSetState tick tl k ls le t = Done tl' ->
  exists b,
    tl' = AKTimelineSyncronize
            (set_loop (F64.of_Z ls) (F64.of_Z le) (set_baseTime b tl)).
Proof.
  unfold AKTimelineSetState. intros H.
  destruct (negb (SampleTimeValid t || HostTimeValid t)); [discriminate |].
  destruct (k =? - 2 ^ 63); [discriminate |].
  inv_bind H. inv_bind H. inv_done H. now eexists.
Qed.

Lemma setState_controlStep tick tl tl0 k ls le t tl' :
  shadowState tl0 = shadowState tl ->
  renderState tl0 = renderState tl ->
  configuration tl0 = configuration tl ->
  messageQueue tl0 = messageQueue tl ->
  AKTimelineSetState tick tl0 k ls le t = Done tl' ->
  controlStep tl tl'.
Proof.
  intros S R C Q H. apply setState_step in H as [b ->].
  apply controlStep_sync; rewrite <- ?S, <- ?R, <- ?C, <- ?Q; now destruct tl0.
Qed.

Lemma startAtTime_controlStep tick tl t tl' :
  AKTimelineStartAtTime tick tl t = Done tl' -> controlStep tl tl'.
Proof.
  unfold AKTimelineStartAtTime. intros H.
  destruct (AKTimelineIsStarted tl).
  - inv_done H. apply controlStep_refl.
  - inv_bind H. inv_bind H. inv_bind H. inv_bind H.
    eapply setState_controlStep; [.. | exact H]; now destruct tl.
Qed.

Lemma timeAtTime_shape tick tl t v tl' :
  AKTimelineTimeAtTime tick tl t = Done (v, tl') ->
  tl' = set_baseTime (baseTime tl') tl.
Proof.
  unfold AKTimelineTimeAtTime. intros H.
  destruct (AKTimelineIsStarted tl); simpl in H.
  2:{ inv_done H. now destruct tl'. }
  destruct (SampleAndHostTimeValid (anchorTime tl)); simpl in H.
  2:{ inv_done H. now destruct tl'. }
  inv_bind H.
  assert (Hr : r = set_baseTime (baseTime r) tl).
  { destruct (SampleTimeValid (baseTime tl)); simpl in E.
    - inv_done E. now destruct r.
    - inv_bind E. inv_done E. now destruct tl. }
  clear E. inv_bind H.
  assert (tl' = r).
  { destruct (F64.is_zero (_loopEnd r) || F64.leb _ (loopEnd r)).
    - now inv_done H.
    - inv_bind H. now inv_done H. }
  now subst tl'.
Qed.

Lemma timeAtTime_controlStep tick tl t v tl' :
  AKTimelineTimeAtTime tick tl t = Done (v, tl') -> controlStep tl tl'.
Proof.
  intros H. apply timeAtTime_shape in H. rewrite H.
  unfold controlStep. repeat split; try now destruct tl. left. now destruct tl.
Qed.

Lemma setTimeAtTime_controlStep tick tl k t tl' :
  AKTimelineSetTimeAtTime tick tl k t = Done tl' -> controlStep tl tl'.
Proof.
  unfold AKTimelineSetTimeAtTime. intros H. inv_bind H. inv_bind H.
  eapply setState_controlStep; [.. | exact H]; now destruct tl.
Qed.

Lemma stop_shape tick tl now tl' :
  AKTimelineStop tick tl now = Done tl' ->
  exists v b,
    AKTimelineTimeAtTime tick tl (AudioTimeNow now)
    = Done (v, set_baseTime b tl)
    /\ tl' = AKTimelineSyncronize
               (set_waitStart AudioTimeZero
                  (set_baseTime AudioTimeZero (set_idleTime v tl))).
Proof.
  unfold AKTimelineStop. intros H. inv_bind H. inv_done H.
  pose proof (timeAtTime_shape _ _ _ _ _ E) as S.
  exists f, (baseTime a). rewrite <- S. split; [exact E |].
  rewrite S. now destruct tl.
Qed.

Lemma perform_controlStep tick tl c tl' :
  isRender c = false -> isSetRenderState c = false ->
  perform tick tl c = Done tl' -> controlStep tl tl'.
Proof.
  intros NR NS H. destruct c; try discriminate; simpl in H.
  - unfold AKTimelineStart in H.
    destruct (lastRenderFrames tl =? 0); [discriminate |].
    inv_bind H. eapply startAtTime_controlStep; eassumption.
  - eapply startAtTime_controlStep; eassumption.
  - unfold AKTimelineSetLoop in H.
    destruct (negb _); [discriminate |]. inv_done H.
    apply controlStep_sync; now destruct tl.
  - unfold omap in H. inv_bind H. inv_done H. destruct r.
    eapply timeAtTime_controlStep; eassumption.
  - unfold omap in H. inv_bind H. inv_done H. destruct r.
    eapply timeAtTime_controlStep; eassumption.
  - apply stop_shape in H as (v & b & _ & ->).
    apply controlStep_sync; now destruct tl.
  - inv_done H. apply controlStep_sync; reflexivity.
  - eapply setTimeAtTime_controlStep; eassumption.
  - unfold AKTimelineSetTime in H. destruct (AKTimelineIsStarted tl).
    + eapply setTimeAtTime_controlStep; eassumption.
    + inv_done H. unfold controlStep.
      repeat split; try now destruct tl. left. now destruct tl.
  - eapply setState_controlStep; [.. | exact H]; reflexivity.
Qed.

(** The render call: what is left of the timeline after the prologue. *)
Lemma renderPrologue_shape tick lock tl ts n tl' c :
  renderPrologue tick lock tl ts n = Done (tl', c) ->
  tl' = set__waitStart (_waitStart tl')
          (set__baseTime (_baseTime tl')
             (renderLatch (renderDrain lock tl) ts n)).
Proof.
  unfold renderPrologue. intros H.
  destruct (negb _ && negb _).
  - inv_done H. now destruct (renderLatch (renderDrain lock tl) ts n).
  - inv_bind H. inv_bind H. inv_bind H. inv_done H.
    destruct (renderResolve_effect _ _ _ _ E) as [R _].
    destruct (renderWaitStart_effect _ _ _ _ E0) as [W _].
    rewrite W, R. now destruct (renderLatch (renderDrain lock tl) ts n).
Qed.

Lemma render_shape tick fuel lock tl ts n tl' segs :
  AKTimeLineRender tick fuel lock tl ts n = Done (tl', segs) ->
  tl' = set__waitStart (_waitStart tl')
          (set__baseTime (_baseTime tl')
             (renderLatch (renderDrain lock tl) ts n)).
Proof.
  unfold AKTimeLineRender. intros H. inv_bind H.
  assert (tl' = a).
  { destruct o as [[p f] |]; [inv_bind H |]; now inv_done H. }
  subst a. eapply renderPrologue_shape; eassumption.
Qed.

Lemma renderDrain_desired lock tl :
  desiredState (renderDrain lock tl) = desiredState tl
  /\ renderState (renderDrain lock tl) = renderState tl
  /\ configuration (renderDrain lock tl) = configuration tl.
Proof.
  unfold renderDrain. destruct lock; [auto |].
  destruct (drain_desired tl) as (A & B & C & D & E & F & G & H & I & J).
  unfold desiredState, renderState, configuration.
  now rewrite A, B, C, D, E, F, G, H, I, J.
Qed.

Lemma renderLatch_desired tl ts n :
  desiredState (renderLatch tl ts n) = desiredState tl
  /\ configuration (renderLatch tl ts n) = configuration tl
  /\ lastRenderTime (renderLatch tl ts n) = ts
  /\ lastRenderFrames (renderLatch tl ts n) = n
  /\ anchorTime (renderLatch tl ts n)
     = if SampleAndHostTimeValid (anchorTime tl) then anchorTime tl else ts.
Proof.
  unfold renderLatch. destruct (SampleAndHostTimeValid (anchorTime tl));
    simpl; now destruct tl.
Qed.

Lemma render_fields :
  forall tick fuel lock tl ts n tl' segs,
    AKTimeLineRender tick fuel lock tl ts n = Done (tl', segs) ->
    desiredState tl' = desiredState tl
    /\ configuration tl' = configuration tl
    /\ lastRenderTime tl' = ts /\ lastRenderFrames tl' = n
    /\ anchorTime tl'
       = (if SampleAndHostTimeValid (anchorTime tl) then anchorTime tl else ts)
    /\ (messageQueue tl' = if lock then messageQueue tl else []).
Proof.
  intros tick fuel lock tl ts n tl' segs H.
  pose proof (render_shape _ _ _ _ _ _ _ _ H) as S.
  destruct (renderDrain_desired lock tl) as (D1 & D2 & D3).
  destruct (renderLatch_desired (renderDrain lock tl) ts n)
    as (L1 & L2 & L3 & L4 & L5).
  set (tl0 := renderLatch (renderDrain lock tl) ts n) in *.
  assert (A : anchorTime (renderDrain lock tl) = anchorTime tl)
    by (injection D2; auto).
  rewrite A in L5.
  assert (Q : messageQueue tl0 = if lock then messageQueue tl else []).
  { destruct (renderLatch_fields (renderDrain lock tl) ts n)
      as (_ & _ & _ & _ & Q0 & _).
    fold tl0 in Q0. rewrite Q0. now destruct lock. }
  assert (F : forall w b t,
             let t' := set__waitStart w (set__baseTime b t) in
             desiredState t' = desiredState t
             /\ configuration t' = configuration t
             /\ lastRenderTime t' = lastRenderTime t
             /\ lastRenderFrames t' = lastRenderFrames t
             /\ anchorTime t' = anchorTime t
             /\ messageQueue t' = messageQueue t)
    by (intros w b t; now destruct t).
  destruct (F (_waitStart tl') (_baseTime tl') tl0)
    as (F1 & F2 & F3 & F4 & F5 & F6).
  rewrite <- S in F1, F2, F3, F4, F5, F6.
  rewrite F1, F2, F3, F4, F5, F6, L1, L2, D1, D3.
  repeat split; assumption.
Qed.

(** X4.  A control call other than [AKTimelineSetRenderState] never writes
    the render thread's fields: the shadow state, the anchor, the last
    render time and frame count, the sample rate and the callback are as
    they were.  It sends at most one message (making room first), and that
    message carries the desired state as the call leaves it. *)
Theorem control_calls_leave_render_state :
  forall tick tl c tl',
    isRender c = false -> isSetRenderState c = false ->
    perform tick tl c = Done tl' ->
    shadowState tl' = shadowState tl
    /\ renderState tl' = renderState tl
    /\ configuration tl' = configuration tl
    /\ (messageQueue tl' = messageQueue tl
        \/ messageQueue tl'
           = messageQueue
               (AKTimelineSendMessage tl
                  (mkMessage (loopStart tl') (loopEnd tl') (baseTime tl')
                     (waitStart tl')))).
Proof.
  intros tick tl c tl' NR NS H.
  destruct (perform_controlStep _ _ _ _ NR NS H) as (S & R & C & Q).
  repeat (split; [assumption |]).
  destruct Q as [Q | Q]; [now left | right].
  rewrite Q. now destruct tl.
Qed.

(** X5.  A render call that returns never writes the desired state, the
    sample rate or the callback.  It records its time stamp and frame
    count, keeps an anchor that is valid in both domains and otherwise
    takes its time stamp as the anchor, and leaves the queue empty, or
    untouched when the lock was held. *)
Theorem render_leaves_desired_state :
  forall tick fuel lock tl ts n tl' segs,
    AKTimeLineRender tick fuel lock tl ts n = Done (tl', segs) ->
    desiredState tl' = desiredState tl
    /\ configuration tl' = configuration tl
    /\ lastRenderTime tl' = ts /\ lastRenderFrames tl' = n
    /\ anchorTime tl'
       = (if SampleAndHostTimeValid (anchorTime tl) then anchorTime tl else ts)
    /\ (SampleAndHostTimeValid ts = true ->
        SampleAndHostTimeValid (anchorTime tl') = true)
    /\ messageQueue tl' = (if lock then messageQueue tl else []).
Proof.
  intros tick fuel lock tl ts n tl' segs H.
  destruct (render_fields _ _ _ _ _ _ _ _ H) as (D & C & Lt & Lf & A & Q).
  repeat (split; [assumption |]). split; [| exact Q].
  intros V. rewrite A.
  destruct (SampleAndHostTimeValid (anchorTime tl)) eqn:Va; assumption.
Qed.

Lemma performAll_ind_inv (P : AKTimeline -> Prop) (ok : call -> bool) tick :
  (forall tl c tl',
      ok c = true -> P tl -> perform tick tl c = Done tl' -> P tl') ->
  forall cs tl tl',
    forallb ok cs = true -> P tl -> performAll tick tl cs = Done tl' -> P tl'.
Proof.
  intros Step. induction cs as [| c cs IH]; intros tl tl' Ok HP H; simpl in *.
  - now inv_done H.
  - apply andb_true_iff in Ok as [Okc Ok]. inv_bind H.
    eapply IH; [exact Ok | | exact H]. eapply Step; eassumption.
Qed.

Lemma setRenderState_shape tick tl k ls le t tl' :
  AKTimelineSetRenderState tick tl k ls le t = Done tl' ->
  exists b,
    tl' = set__waitStart AudioTimeZero (set_waitStart AudioTimeZero
            (set__loop ls le (set_loop ls le
               (set__baseTime b (set_baseTime b tl))))).
Proof.
  unfold AKTimelineSetRenderState. intros H.
  destruct (negb _); [discriminate |].
  inv_bind H. inv_bind H. inv_bind H. inv_done H. now eexists.
Qed.

Lemma perform_cases tick tl c tl' :
  perform tick tl c = Done tl' ->
  (isRender c = false /\ isSetRenderState c = false /\ controlStep tl tl')
  \/ (exists k ls le t,
        c = SetRenderState k ls le t
        /\ AKTimelineSetRenderState tick tl k ls le t = Done tl')
  \/ (exists fuel lock ts n segs,
        c = Render fuel lock ts n
        /\ AKTimeLineRender tick fuel lock tl ts n = Done (tl', segs)).
Proof.
  intros H.
  destruct (isRender c) eqn:R; [| destruct (isSetRenderState c) eqn:S].
  - right. right. destruct c; try discriminate. simpl in H.
    unfold omap in H. inv_bind H. inv_done H. destruct r as [tl' segs].
    do 5 eexists. split; [reflexivity | eassumption].
  - right. left. destruct c; try discriminate. simpl in H.
    do 4 eexists. split; [reflexivity | exact H].
  - left. split; [reflexivity |]. split; [reflexivity |].
    eapply perform_controlStep; eassumption.
Qed.

(** ** Invariants of a run *)

(** X6.  Over any sequence of calls the sample rate and the callback stay
    those given to [AKTimeLineInit], and an anchor that is valid in both
    domains is never replaced. *)
Theorem calls_keep_configuration_and_anchor :
  forall tick calls tl tl',
    performAll tick tl calls = Done tl' ->
    sampleRate tl' = sampleRate tl
    /\ callBack tl' = callBack tl
    /\ (SampleAndHostTimeValid (anchorTime tl) = true ->
        anchorTime tl' = anchorTime tl).
Proof.
  intros tick calls tl tl' H.
  assert (G : configuration tl' = configuration tl
              /\ (SampleAndHostTimeValid (anchorTime tl) = true ->
                  anchorTime tl' = anchorTime tl)).
  { revert H.
    apply (performAll_ind_inv
             (fun t => configuration t = configuration tl
                       /\ (SampleAndHostTimeValid (anchorTime tl) = true ->
                           anchorTime t = anchorTime tl))
             (fun _ => true) tick); [| | auto].
    - intros t c t' _ [C A] P.
      destruct (perform_cases _ _ _ _ P)
        as [(_ & _ & S) | [(k & ls & le & ts & _ & S)
                          | (fuel & lock & ts & n & segs & _ & S)]].
      + destruct S as (_ & R & C' & _). split; [congruence |].
        intros V. rewrite <- (A V). now injection R.
      + apply setRenderState_shape in S as [b ->]. split.
        * rewrite <- C. now destruct t.
        * intros V. rewrite <- (A V). now destruct t.
      + apply render_fields in S as (_ & C' & _ & _ & A' & _).
        split; [congruence |]. intros V. rewrite A', (A V), V. reflexivity.
    - clear. induction calls; simpl; auto. }
  destruct G as [C A]. injection C as C1 C2. auto.
Qed.

(** *** The shadow base time is never left half resolved *)

Lemma lor_host_valid f :
  negb (Z.land (Z.lor f kAudioTimeStampHostTimeValid)
          kAudioTimeStampHostTimeValid =? 0) = true.
Proof.
  unfold kAudioTimeStampHostTimeValid.
  rewrite Z.land_lor_distr_l. change (Z.land 2 2) with 2.
  destruct (Z.lor (Z.land f 2) 2 =? 0) eqn:E; [| reflexivity].
  apply Z.eqb_eq in E. apply Z.lor_eq_0_iff in E as [_ E]. discriminate.
Qed.

Lemma extrapolateTime_effect tick t a r t' :
  extrapolateTime tick t a r = Done t' ->
  SampleAndHostTimeValid t' = true
  /\ SampleAndHostTimeValid a = true
  /\ (if SampleTimeValid t
      then mSampleTime t' = mSampleTime t
      else mHostTime t' = mHostTime t /\ HostTimeValid t = true).
Proof.
  intros H. pose proof (extrapolateTime_sample_valid _ _ _ _ _ H) as Vs.
  unfold extrapolateTime in H.
  destruct (SampleAndHostTimeValid a); [| now rewrite andb_false_r in H].
  rewrite andb_true_r in H.
  destruct (SampleTimeValid t) eqn:S; simpl in H.
  - inv_bind H. inv_bind H. inv_bind H. inv_done H.
    unfold SampleAndHostTimeValid. rewrite Vs. simpl.
    repeat split. unfold HostTimeValid. simpl. apply lor_host_valid.
  - destruct (HostTimeValid t) eqn:Hh; [| discriminate]. simpl in H.
    inv_done H. unfold SampleAndHostTimeValid. rewrite Vs. simpl.
    repeat split. unfold HostTimeValid in *. simpl.
    unfold kAudioTimeStampHostTimeValid, kAudioTimeStampSampleTimeValid in *.
    rewrite Z.land_lor_distr_l. change (Z.land 1 2) with 0.
    now rewrite Z.lor_0_r.
Qed.

Lemma renderResolve_valid tick tl ts tl1 :
  renderResolve tick tl ts = Done tl1 ->
  SampleAndHostTimeValid (_baseTime tl1) = true.
Proof.
  unfold renderResolve. intros H.
  destruct (negb (SampleAndHostTimeValid (_baseTime tl))) eqn:V.
  - inv_bind H. inv_done H.
    replace (_baseTime (set__baseTime r tl)) with r by now destruct tl.
    now destruct (extrapolateTime_effect _ _ _ _ _ E).
  - inv_done H. now apply negb_false_iff in V.
Qed.

Lemma renderPrologue_resolves tick lock tl ts n tl' c :
  renderPrologue tick lock tl ts n = Done (tl', c) ->
  resolvedOrZero (_baseTime tl') = true
  /\ (SampleTimeValid (_baseTime tl') = false -> c = None).
Proof.
  unfold renderPrologue. intros H.
  set (tl0 := renderLatch (renderDrain lock tl) ts n) in *.
  destruct (negb (SampleTimeValid (_baseTime tl0))
            && negb (HostTimeValid (_baseTime tl0))) eqn:I.
  - inv_done H. apply andb_true_iff in I as [S Hh].
    apply negb_true_iff in S, Hh. unfold resolvedOrZero. rewrite S, Hh. auto.
  - apply bind_Done_inv in H as (tl1 & E1 & H).
    apply bind_Done_inv in H as ([tl2 s] & E2 & H).
    apply bind_Done_inv in H as (cl & E3 & H). inv_done H.
    pose proof (renderResolve_valid _ _ _ _ E1) as V.
    destruct (renderWaitStart_offset _ _ _ _ E2) as [_ B]. rewrite <- B in V.
    unfold resolvedOrZero. unfold SampleAndHostTimeValid in V.
    apply andb_true_iff in V as [-> ->]. split; [reflexivity | discriminate].
Qed.

Lemma render_resolves tick fuel lock tl ts n tl' segs :
  AKTimeLineRender tick fuel lock tl ts n = Done (tl', segs) ->
  resolvedOrZero (_baseTime tl') = true
  /\ (SampleTimeValid (_baseTime tl') = false -> segs = []).
Proof.
  unfold AKTimeLineRender. intros H.
  apply bind_Done_inv in H as ([a o] & E & H).
  destruct (renderPrologue_resolves _ _ _ _ _ _ _ E) as [R N].
  destruct o as [[p f] |].
  - inv_bind H. inv_done H. split; [exact R |]. intros S.
    now specialize (N S).
  - inv_done H. auto.
Qed.

(** X7.  Between calls the shadow base time is valid in both domains or
    in neither, as long as [AKTimelineSetRenderState] is not used: control
    calls do not touch it, and a render call that returns has resolved it
    (or has found the timeline idle). *)
Theorem shadow_base_resolved_between_calls :
  forall tick calls tl tl',
    forallb (fun c => negb (isSetRenderState c)) calls = true ->
    resolvedOrZero (_baseTime tl) = true ->
    performAll tick tl calls = Done tl' ->
    resolvedOrZero (_baseTime tl') = true.
Proof.
  intros tick calls tl tl'.
  apply (performAll_ind_inv (fun t => resolvedOrZero (_baseTime t) = true)).
  intros t c t' Ok R P.
  destruct (perform_cases _ _ _ _ P)
    as [(_ & _ & S) | [(k & ls & le & ts & -> & S)
                      | (fuel & lock & ts & n & segs & _ & S)]].
  - destruct S as (S & _). injection S as -> _ _ _. exact R.
  - discriminate.
  - now apply render_resolves in S.
Qed.

(** *** Loop bounds stay in order *)

Lemma loopOrdered_trunc s e :
  loopOrdered s e ->
  loopOrdered (F64.of_Z (F64.trunc s)) (F64.of_Z (F64.trunc e)).
Proof.
  unfold loopOrdered, F64.of_Z. intros [H0 H1].
  assert (He : (0 <= e)%Q) by lra.
  rewrite (trunc_nonneg s H0), (trunc_nonneg e He).
  split.
  - change 0%Q with (inject_Z 0). rewrite <- Zle_Qle.
    change 0 with (Qfloor 0). now apply Qfloor_resp_le.
  - rewrite <- Zle_Qle. now apply Qfloor_resp_le.
Qed.

Lemma setTimeAtTime_loop tick tl k t tl' :
  AKTimelineSetTimeAtTime tick tl k t = Done tl' ->
  loopStart tl' = F64.of_Z (F64.trunc (loopStart tl))
  /\ loopEnd tl' = F64.of_Z (F64.trunc (loopEnd tl)).
Proof.
  unfold AKTimelineSetTimeAtTime. intros H.
  apply bind_Done_inv in H as (ls & E1 & H).
  apply bind_Done_inv in H as (le & E2 & H).
  apply to_range_Done in E1 as [-> _]. apply to_range_Done in E2 as [-> _].
  apply setState_step in H as [b ->]. now destruct tl.
Qed.

Lemma perform_desired_loop tick tl c tl' :
  isRender c = false -> setsLoopUnchecked c = false ->
  perform tick tl c = Done tl' ->
  loopOrdered (loopStart tl) (loopEnd tl) ->
  loopOrdered (loopStart tl') (loopEnd tl').
Proof.
  intros NR NS H L.
  assert (ST : forall t, AKTimelineStartAtTime tick tl t = Done tl' ->
                         loopOrdered (loopStart tl') (loopEnd tl')).
  { intros t S. destruct (AKTimelineIsStarted tl) eqn:Hs.
    - unfold AKTimelineStartAtTime in S. rewrite Hs in S. now inv_done S.
    - destruct (startAtTime_truncates _ _ _ _ Hs S) as (_ & _ & -> & -> & _).
      now apply loopOrdered_trunc. }
  assert (SA : forall k t, AKTimelineSetTimeAtTime tick tl k t = Done tl' ->
                           loopOrdered (loopStart tl') (loopEnd tl')).
  { intros k t S. destruct (setTimeAtTime_loop _ _ _ _ _ S) as [-> ->].
    now apply loopOrdered_trunc. }
  assert (TA : forall t v, AKTimelineTimeAtTime tick tl t = Done (v, tl') ->
                           loopOrdered (loopStart tl') (loopEnd tl')).
  { intros t v S. apply timeAtTime_shape in S. rewrite S. now destruct tl. }
  destruct c; try discriminate; simpl in H.
  - unfold AKTimelineStart in H.
    destruct (lastRenderFrames tl =? 0); [discriminate |].
    inv_bind H. eapply ST; eassumption.
  - eapply ST; eassumption.
  - unfold AKTimelineSetLoop in H.
    destruct (F64.leb F64.zero start && F64.leb F64.zero duration) eqn:A;
      [| discriminate].
    simpl in H. inv_done H. apply andb_true_iff in A as [A1 A2].
    apply leb_true in A1, A2. change F64.zero with 0%Q in *.
    replace (loopStart (AKTimelineSyncronize _)) with start by now destruct tl.
    replace (loopEnd (AKTimelineSyncronize _)) with (F64.add start duration)
      by now destruct tl.
    unfold loopOrdered. rewrite add_eq. split; lra.
  - unfold omap in H. inv_bind H. inv_done H. destruct r.
    eapply TA; eassumption.
  - unfold omap in H. inv_bind H. inv_done H. destruct r.
    eapply TA; eassumption.
  - apply stop_shape in H as (v & b & _ & ->). now destruct tl.
  - inv_done H. now destruct tl.
  - eapply SA; eassumption.
  - unfold AKTimelineSetTime in H. destruct (AKTimelineIsStarted tl).
    + eapply SA; eassumption.
    + inv_done H. now destruct tl.
Qed.

Lemma fold_applyMessage_loop q : forall tl,
  Forall (fun m => loopOrdered (msgLoopStart m) (msgLoopEnd m)) q ->
  loopOrdered (_loopStart tl) (_loopEnd tl) ->
  loopOrdered (_loopStart (fold_left applyMessage q tl))
              (_loopEnd (fold_left applyMessage q tl)).
Proof.
  induction q as [| m q IH]; intros tl F L; simpl; [exact L |].
  inversion F; subst. apply IH; [assumption |]. now destruct tl.
Qed.

(** X8.  [0 <= loopStart <= loopEnd] is an invariant of the desired loop,
    of the loop of every queued message and of the shadow loop, over any
    sequence of calls that sets loop bounds through [AKTimelineSetLoop]
    only (and not through [AKTimelineSetState] or
    [AKTimelineSetRenderState], which store their arguments unchecked). *)
Theorem calls_keep_loops_ordered :
  forall tick calls tl tl',
    forallb (fun c => negb (setsLoopUnchecked c)) calls = true ->
    loopsOrdered tl ->
    performAll tick tl calls = Done tl' ->
    loopsOrdered tl'.
Proof.
  intros tick calls tl tl'. apply performAll_ind_inv.
  intros t c t' Ok (Ld & Lq & Ls) P. apply negb_true_iff in Ok.
  destruct (perform_cases _ _ _ _ P)
    as [(NR & _ & S) | [(k & ls & le & ts & -> & S)
                      | (fuel & lock & ts & n & segs & _ & S)]].
  - pose proof (perform_desired_loop _ _ _ _ NR Ok P Ld) as Ld'.
    destruct S as (S & _ & _ & Q). unfold loopsOrdered.
    split; [exact Ld' |]. split.
    + destruct Q as [-> | ->]; [exact Lq |].
      apply Forall_app. split.
      * destruct (makeRoom_suffix (messageQueue t)) as [d E].
        rewrite E in Lq. now apply Forall_app in Lq.
      * now constructor.
    + injection S as _ _ -> ->. exact Ls.
  - discriminate.
  - pose proof (render_shape _ _ _ _ _ _ _ _ S) as Sh.
    apply render_fields in S as (D & _ & _ & _ & _ & Q).
    unfold loopsOrdered. injection D as _ _ _ -> ->.
    split; [exact Ld |]. split.
    + rewrite Q. destruct lock; [exact Lq | constructor].
    + rewrite Sh.
      destruct (renderLatch_fields (renderDrain lock t) ts n)
        as (_ & _ & A & B & _).
      set (t0 := renderLatch (renderDrain lock t) ts n) in *.
      replace (_loopStart (set__waitStart _ (set__baseTime _ t0)))
        with (_loopStart t0) by now destruct t0.
      replace (_loopEnd (set__waitStart _ (set__baseTime _ t0)))
        with (_loopEnd t0) by now destruct t0.
      rewrite A, B. unfold renderDrain. destruct lock; [exact Ls |].
      unfold drainMessages.
      pose proof (fold_applyMessage_loop _ _ Lq Ls) as F.
      now destruct (fold_left applyMessage (messageQueue t) t).
Qed.

(** ** Rounding *)

Lemma inject_Z_sub a b : (inject_Z (a - b) == inject_Z a - inject_Z b)%Q.
Proof.
  unfold Z.sub. rewrite inject_Z_plus, inject_Z_opp. reflexivity.
Qed.

Lemma Qfloor_unique (x : Q) z :
  (inject_Z z <= x)%Q -> (x < inject_Z (z + 1))%Q -> Qfloor x = z.
Proof.
  intros L U.
  assert (A : z <= Qfloor x).
  { rewrite <- (Qfloor_Z z). now apply Qfloor_resp_le. }
  assert (B : Qfloor x < z + 1).
  { rewrite Zlt_Qlt. eapply Qle_lt_trans; [apply Qfloor_le | exact U]. }
  lia.
Qed.

Lemma Qceiling_unique (x : Q) z :
  (inject_Z (z - 1) < x)%Q -> (x <= inject_Z z)%Q -> Qceiling x = z.
Proof.
  intros L U. unfold Qceiling.
  rewrite (Qfloor_unique (- x) (- z)); [lia | |].
  - rewrite inject_Z_opp. lra.
  - replace (- z + 1) with (- (z - 1)) by lia. rewrite inject_Z_opp. lra.
Qed.

(** [round] moves a number by at most one half. *)
Lemma round_error x :
  (x - (1 # 2) <= inject_Z (F64.round x) <= x + (1 # 2))%Q.
Proof.
  unfold F64.round. destruct (F64.leb F64.zero x).
  - pose proof (Qfloor_le (x + (1 # 2))) as A.
    pose proof (Qlt_floor (x + (1 # 2))) as B.
    rewrite inject_Z_plus in B. change (inject_Z 1) with 1%Q in B. lra.
  - pose proof (Qle_ceiling (x - (1 # 2))) as A.
    pose proof (Qceiling_lt (x - (1 # 2))) as B.
    rewrite inject_Z_sub in B. change (inject_Z 1) with 1%Q in B. lra.
Qed.

(** A number less than one half away from an integer rounds to it. *)
Lemma round_near x z :
  (inject_Z z - (1 # 2) < x)%Q -> (x < inject_Z z + (1 # 2))%Q ->
  F64.round x = z.
Proof.
  intros L U. unfold F64.round. destruct (F64.leb F64.zero x).
  - apply Qfloor_unique; [lra |].
    rewrite inject_Z_plus. change (inject_Z 1) with 1%Q. lra.
  - apply Qceiling_unique; [| lra].
    rewrite inject_Z_sub. change (inject_Z 1) with 1%Q. lra.
Qed.

Lemma round_add_error u v :
  Z.abs (F64.round u + F64.round v - F64.round (u + v)%Q) <= 1.
Proof.
  pose proof (round_error u) as A. pose proof (round_error v) as B.
  pose proof (round_error (u + v)%Q) as C.
  set (a := F64.round u) in *. set (b := F64.round v) in *.
  set (c := F64.round (u + v)%Q) in *.
  assert (U : (inject_Z (a + b - c) < 2)%Q).
  { rewrite inject_Z_sub, inject_Z_plus. lra. }
  assert (L : (- (2) < inject_Z (a + b - c))%Q).
  { rewrite inject_Z_sub, inject_Z_plus. lra. }
  change 2%Q with (inject_Z 2) in U, L. rewrite <- inject_Z_opp in L.
  rewrite <- Zlt_Qlt in U, L. lia.
Qed.

Section ConverterEdges.

Variable tick : Float64.

(** X10.  A time stamp that [extrapolateTime] returns is valid in both
    domains, and the domain that was given is passed through unchanged: the
    sample time when it was valid, the host time otherwise. *)
Theorem extrapolateTime_completes :
  forall t a r t',
    extrapolateTime tick t a r = Done t' ->
    SampleAndHostTimeValid t' = true
    /\ (if SampleTimeValid t
        then mSampleTime t' = mSampleTime t
        else mHostTime t' = mHostTime t).
Proof.
  intros t a r t' H.
  destruct (extrapolateTime_effect _ _ _ _ _ H) as (V & _ & K).
  split; [exact V |]. destruct (SampleTimeValid t); tauto.
Qed.

Lemma extrapolateTime_there_and_back :
  forall t a r st sa t1 stale,
    (0 < tick)%Q -> (0 < r)%Q -> (tick * r < 1)%Q ->
    SampleTimeValid t = true ->
    mSampleTime t = F64.of_Z st ->
    mSampleTime a = F64.of_Z sa ->
    extrapolateTime tick t a r = Done t1 ->
    - 2 ^ 63 <= mHostTime t1 - mHostTime a < 2 ^ 63 ->
    exists t2,
      extrapolateTime tick
        (mkAudioTimeStamp stale (mHostTime t1) kAudioTimeStampHostTimeValid)
        a r = Done t2
      /\ mSampleTime t2 = mSampleTime t
      /\ mHostTime t2 = mHostTime t1.
Proof.
  intros t a r st sa t1 stale Ht Hr Htr Vs Est Esa H1 Hd.
  destruct (extrapolateTime_effect _ _ _ _ _ H1) as (_ & Va & _).
  unfold extrapolateTime in *. rewrite Va, Vs in H1. simpl in H1.
  rewrite Va.
  change (SampleTimeValid (mkAudioTimeStamp stale (mHostTime t1)
                             kAudioTimeStampHostTimeValid)) with false.
  change (HostTimeValid (mkAudioTimeStamp stale (mHostTime t1)
                           kAudioTimeStampHostTimeValid)) with true.
  simpl. eexists. split; [reflexivity |]. simpl. split; [| reflexivity].
  apply bind_Done_inv in H1 as (sd & E1 & H1).
  apply bind_Done_inv in H1 as (q & E2 & H1).
  apply bind_Done_inv in H1 as (h & E3 & H1). inv_done H1. simpl in *.
  apply div_Done in E1 as [_ E1]. apply div_Done in E2 as [_ E2].
  apply to_range_Done in E3 as [E3 _].
  rewrite add_of_Z, trunc_of_Z in E3. subst h.
  rewrite safeSubtract_wrap, (wrapSInt64_small _ Hd).
  replace (mHostTime a + F64.round q - mHostTime a) with (F64.round q) by lia.
  rewrite Est, Esa in *. rewrite sub_of_Z in E1.
  assert (N : (inject_Z (st - sa) - (1 # 2)
               < F64.mul (F64.mul (F64.of_Z (F64.round q)) tick) r
               < inject_Z (st - sa) + (1 # 2))%Q).
  { unfold F64.mul. rewrite !Qred_correct.
    pose proof (round_error q) as [A B].
    assert (Q : (q * (tick * r) == inject_Z (st - sa))%Q).
    { rewrite E2, E1. unfold F64.of_Z. field. split; lra. }
    unfold F64.of_Z. set (k := inject_Z (F64.round q)) in *.
    set (c := (tick * r)%Q) in *.
    assert (C0 : (0 < c)%Q) by (unfold c; nra).
    assert (L : ((q - (1 # 2)) * c <= k * c)%Q) by nra.
    assert (U : (k * c <= (q + (1 # 2)) * c)%Q) by nra.
    assert (K : (k * tick * r == k * c)%Q) by (unfold c; ring).
    rewrite K. rewrite <- Q. split; nra. }
  rewrite (round_near _ (st - sa)) by tauto.
  rewrite add_of_Z. f_equal. lia.
Qed.

(** X11.  When the host clock is at least twice as fine as the sample
    clock ([ticksToSeconds * sampleRate <= 1 / 2]), converting a whole
    sample time to host time and that host time back to sample time,
    against the same anchor, gives the sample time back exactly.  This is
    for an anchor on a whole sample, sample times of magnitude up to
    [2 ^ 53] at most [2 ^ 31] samples from the anchor, and host times below
    [2 ^ 53], which the doubles of lines 288-293 hold without loss. *)
Theorem extrapolate_round_trip :
  forall t a r st sa t1 stale,
    (0 < tick)%Q -> (0 < r)%Q -> (tick * r <= 1 # 2)%Q ->
    SampleTimeValid t = true ->
    mSampleTime t = F64.of_Z st ->
    mSampleTime a = F64.of_Z sa ->
    Z.abs st <= 2 ^ 53 -> Z.abs sa <= 2 ^ 53 -> Z.abs (st - sa) <= 2 ^ 31 ->
    0 <= mHostTime a < 2 ^ 53 ->
    extrapolateTime tick t a r = Done t1 ->
    0 <= mHostTime t1 < 2 ^ 53 ->
    exists t2,
      extrapolateTime tick
        (mkAudioTimeStamp stale (mHostTime t1) kAudioTimeStampHostTimeValid)
        a r = Done t2
      /\ mSampleTime t2 = mSampleTime t
      /\ mHostTime t2 = mHostTime t1.
Proof.
  intros t a r st sa t1 stale Ht Hr Htr Vs Est Esa _ _ _ Ha H1 Hh.
  apply (extrapolateTime_there_and_back t a r st sa t1 stale);
    try assumption; [lra | lia].
Qed.

(** X12.  [TimeStampOffset] never takes a host time below zero: with a
    tick delta [o <= 0] the host time becomes [host + o] when that is not
    negative and stays as it was otherwise.  The sample time is advanced in
    both cases, so a clamped call leaves the two domains out of step. *)
Theorem offset_never_underflows :
  forall t n r o t',
    HostTimeValid t = true ->
    0 <= mHostTime t < 2 ^ 64 ->
    hostOffset tick n r = Done o ->
    o <= 0 ->
    TimeStampOffset tick t n r = Done t' ->
    mHostTime t' = (if mHostTime t <? - o then mHostTime t else mHostTime t + o)
    /\ 0 <= mHostTime t' <= mHostTime t
    /\ (SampleTimeValid t = true ->
        mSampleTime t' = F64.add (mSampleTime t) (F64.of_Z n))
    /\ mFlags t' = mFlags t.
Proof.
  intros t n r o t' Vh Hh Ho Neg H.
  pose proof (TimeStampOffset_flags _ _ _ _ _ H) as Fl.
  apply hostOffset_Done in Ho as Ho'. destruct Ho' as (_ & _ & _ & Ro).
  unfold TimeStampOffset in H.
  assert (W : wrapUInt64 (- o) = - o)
    by (unfold wrapUInt64; apply Z.mod_small; lia).
  destruct (SampleTimeValid t) eqn:Vs; simpl in H.
  - replace (HostTimeValid (mkAudioTimeStamp _ (mHostTime t) (mFlags t)))
      with true in H by (symmetry; exact Vh).
    rewrite Ho in H. simpl in H. unfold hostClamped in H. simpl in H.
    rewrite W in H.
    destruct (o <? 0) eqn:L; simpl in H.
    + destruct (mHostTime t <? - o) eqn:C; inv_done H; simpl.
      * repeat split; auto; lia.
      * apply Z.ltb_ge in C. unfold wrapUInt64.
        rewrite Z.mod_small by lia. repeat split; auto; lia.
    + apply Z.ltb_ge in L. assert (o = 0) by lia. subst o. inv_done H. simpl.
      rewrite Z.add_0_r. unfold wrapUInt64. rewrite Z.mod_small by lia.
      destruct (mHostTime t <? _); repeat split; auto; lia.
  - rewrite Vh, Ho in H. simpl in H. unfold hostClamped in H. rewrite W in H.
    destruct (o <? 0) eqn:L; simpl in H.
    + destruct (mHostTime t <? - o) eqn:C; inv_done H; simpl.
      * repeat split; auto; try lia; discriminate.
      * apply Z.ltb_ge in C. unfold wrapUInt64.
        rewrite Z.mod_small by lia. repeat split; auto; try lia; discriminate.
    + apply Z.ltb_ge in L. assert (o = 0) by lia. subst o. inv_done H. simpl.
      rewrite Z.add_0_r. unfold wrapUInt64. rewrite Z.mod_small by lia.
      destruct (mHostTime t <? _); repeat split; auto; try lia; discriminate.
Qed.

Lemma hostOffset_nonneg n r o :
  (0 < tick)%Q -> (0 < r)%Q -> 0 <= n ->
  hostOffset tick n r = Done o -> 0 <= o.
Proof.
  intros Ht Hr Hn H. apply hostOffset_Done in H as (_ & _ & -> & _).
  rewrite <- round_zero. apply round_mono.
  assert (N : (0 <= inject_Z n)%Q)
    by (change 0%Q with (inject_Z 0); rewrite <- Zle_Qle; lia).
  assert (I : (0 < / r)%Q) by now apply Qinv_lt_0_compat.
  assert (J : (0 < / tick)%Q) by now apply Qinv_lt_0_compat.
  unfold Qdiv. 
  apply Qmult_le_0_compat; [apply Qmult_le_0_compat |]; lra.
Qed.

Lemma TimeStampOffset_forward t n r o t' :
  SampleAndHostTimeValid t = true ->
  hostOffset tick n r = Done o -> 0 <= o ->
  TimeStampOffset tick t n r = Done t' ->
  t' = mkAudioTimeStamp (F64.add (mSampleTime t) (F64.of_Z n))
         (wrapUInt64 (mHostTime t + o)) (mFlags t).
Proof.
  intros V Ho P H.
  destruct (TimeStampOffset_unclamped tick t n r t' V H) as (o' & Ho' & ->).
  - unfold clampTriggered. rewrite Ho. unfold hostClamped.
    destruct (o <? 0) eqn:L; [apply Z.ltb_lt in L; lia | reflexivity].
  - congruence.
Qed.

Lemma TimeStampOffset_two_steps :
  forall t r a b o t1 t2 t3,
    (0 < tick)%Q -> (0 < r)%Q ->
    SampleAndHostTimeValid t = true ->
    0 <= a -> 0 <= b ->
    hostOffset tick (a + b) r = Done o ->
    0 <= mHostTime t -> mHostTime t + o + 1 < 2 ^ 64 ->
    TimeStampOffset tick t a r = Done t1 ->
    TimeStampOffset tick t1 b r = Done t2 ->
    TimeStampOffset tick t (a + b) r = Done t3 ->
    mSampleTime t2 = mSampleTime t3
    /\ mFlags t2 = mFlags t3
    /\ Z.abs (mHostTime t2 - mHostTime t3) <= 1.
Proof.
  intros t r a b o t1 t2 t3 Ht Hr V Ha Hb Ho Hh Hmax H1 H2 H3.
  assert (Hab : 0 <= a + b) by lia.
  destruct (hostOffset_shorter tick (a + b) r o a Ho) as [oa Hoa]; [lia |].
  destruct (hostOffset_shorter tick (a + b) r o b Ho) as [ob Hob]; [lia |].
  pose proof (hostOffset_nonneg _ _ _ Ht Hr Ha Hoa) as Pa.
  pose proof (hostOffset_nonneg _ _ _ Ht Hr Hb Hob) as Pb.
  pose proof (hostOffset_nonneg _ _ _ Ht Hr Hab Ho) as Po.
  pose proof (TimeStampOffset_forward _ _ _ _ _ V Hoa Pa H1) as E1.
  assert (V1 : SampleAndHostTimeValid t1 = true) by (rewrite E1; exact V).
  pose proof (TimeStampOffset_forward _ _ _ _ _ V1 Hob Pb H2) as E2.
  pose proof (TimeStampOffset_forward _ _ _ _ _ V Ho Po H3) as E3.
  subst t1 t2 t3. simpl.
  apply hostOffset_Done in Hoa as (_ & _ & Ea & _).
  apply hostOffset_Done in Hob as (_ & _ & Eb & _).
  apply hostOffset_Done in Ho as (_ & _ & Eo & _).
  assert (D : Z.abs (oa + ob - o) <= 1).
  { rewrite Ea, Eb, Eo.
    rewrite (round_comp (inject_Z (a + b) / r / tick)
               (inject_Z a / r / tick + inject_Z b / r / tick)).
    - apply round_add_error.
    - rewrite inject_Z_plus. field. split; lra. }
  split; [| split; [reflexivity |]].
  - unfold F64.add. apply Qred_complete. rewrite !Qred_correct.
    unfold F64.of_Z. rewrite inject_Z_plus. ring.
  - unfold wrapUInt64.
    rewrite (Z.mod_small (mHostTime t + oa)) by lia.
    rewrite (Z.mod_small (mHostTime t + oa + ob)) by lia.
    rewrite (Z.mod_small (mHostTime t + o)) by lia. lia.
Qed.

(** X13.  Advancing a time stamp by [a] frames and then by [b] frames, as
    the loop of the render call does segment by segment, gives the sample
    time and flags of the one advance by [a + b] frames, and a host time
    within one tick of it.  This is for sample times that the additions of
    line 246 do not round (the sample time and its sums with [a] and
    [a + b] are binary64 numbers, [a + b <= 2 ^ 53]) and a tick delta of at
    most [2 ^ 40]. *)
Theorem offset_in_two_steps :
  forall t r a b o t1 t2 t3,
    (0 < tick)%Q -> (0 < r)%Q ->
    SampleAndHostTimeValid t = true ->
    0 <= a -> 0 <= b -> a + b <= 2 ^ 53 ->
    binary64 (mSampleTime t) ->
    binary64 (mSampleTime t + inject_Z a) ->
    binary64 (mSampleTime t + inject_Z (a + b)) ->
    hostOffset tick (a + b) r = Done o -> o <= 2 ^ 40 ->
    0 <= mHostTime t -> mHostTime t + o + 1 < 2 ^ 64 ->
    TimeStampOffset tick t a r = Done t1 ->
    TimeStampOffset tick t1 b r = Done t2 ->
    TimeStampOffset tick t (a + b) r = Done t3 ->
    mSampleTime t2 = mSampleTime t3
    /\ mFlags t2 = mFlags t3
    /\ Z.abs (mHostTime t2 - mHostTime t3) <= 1.
Proof.
  intros t r a b o t1 t2 t3 Ht Hr V Ha Hb _ _ _ _ Ho _ Hh Hmax H1 H2 H3.
  exact (TimeStampOffset_two_steps t r a b o t1 t2 t3 Ht Hr V Ha Hb Ho Hh
           Hmax H1 H2 H3).
Qed.

End ConverterEdges.

(** ** Control API: edges *)

Lemma valid_of_flags t t' :
  mFlags t' = mFlags t ->
  SampleTimeValid t' = SampleTimeValid t /\ HostTimeValid t' = HostTimeValid t.
Proof. unfold SampleTimeValid, HostTimeValid. now intros ->. Qed.

(** What [AKTimelineSetState] stores as base time. *)
Lemma setState_base tick tl k ls le t tl' :
  AKTimelineSetState tick tl k ls le t = Done tl' ->
  exists t1,
    TimeStampOffset tick t (- k) (sampleRate tl) = Done t1
    /\ (if SampleAndHostTimeValid (anchorTime tl)
        then extrapolateTime tick t1 (anchorTime tl) (sampleRate tl)
        else Done t1) = Done (baseTime tl')
    /\ SampleTimeValid t || HostTimeValid t = true
    /\ tl' = AKTimelineSyncronize
               (set_loop (F64.of_Z ls) (F64.of_Z le)
                  (set_baseTime (baseTime tl') tl)).
Proof.
  unfold AKTimelineSetState. intros H.
  destruct (SampleTimeValid t || HostTimeValid t) eqn:V; [| discriminate].
  cbn [negb] in H. destruct (k =? - 2 ^ 63); [discriminate |].
  apply bind_Done_inv in H as (t1 & E1 & H).
  apply bind_Done_inv in H as (b & E2 & H). inv_done H.
  exists t1. split; [exact E1 |].
  replace (baseTime (AKTimelineSyncronize _)) with b by now destruct tl.
  auto.
Qed.

Lemma setState_started tick tl k ls le t tl' :
  AKTimelineSetState tick tl k ls le t = Done tl' ->
  AKTimelineIsStarted tl' = true.
Proof.
  intros H. apply setState_base in H as (t1 & E1 & E2 & V & _).
  unfold AKTimelineIsStarted.
  destruct (valid_of_flags _ _ (TimeStampOffset_flags _ _ _ _ _ E1)) as [S1 H1].
  destruct (SampleAndHostTimeValid (anchorTime tl)).
  - destruct (extrapolateTime_effect _ _ _ _ _ E2) as (B & _).
    unfold SampleAndHostTimeValid in B. now apply andb_true_iff in B as [-> _].
  - inv_done E2. now rewrite S1, H1.
Qed.

Lemma startAtTime_waitStart tick tl t tl' :
  AKTimelineIsStarted tl = false ->
  AKTimelineStartAtTime tick tl t = Done tl' ->
  AKTimelineIsStarted tl' = true
  /\ (if SampleAndHostTimeValid (anchorTime tl)
      then extrapolateTime tick t (anchorTime tl) (sampleRate tl)
      else Done t) = Done (waitStart tl').
Proof.
  intros Hs H. unfold AKTimelineStartAtTime in H. rewrite Hs in H.
  apply bind_Done_inv in H as (w & Ew & H).
  apply bind_Done_inv in H as (k & Ek & H).
  apply bind_Done_inv in H as (ls & E1 & H).
  apply bind_Done_inv in H as (le & E2 & H).
  pose proof (setState_started _ _ _ _ _ _ _ H) as St.
  apply setState_step in H as [b ->].
  split; [exact St |]. rewrite Ew. now destruct tl.
Qed.

(** X15.  On a timeline that is not started, a call of
    [AKTimelineStartAtTime] that returns leaves it started, with the wait
    start at the given time stamp (extrapolated against the anchor when
    there is one) and the idle position kept; any further start is then a
    no-op that sends no message. *)
Theorem startAtTime_starts :
  forall tick tl t tl',
    AKTimelineIsStarted tl = false ->
    AKTimelineStartAtTime tick tl t = Done tl' ->
    AKTimelineIsStarted tl' = true
    /\ (if SampleAndHostTimeValid (anchorTime tl)
        then extrapolateTime tick t (anchorTime tl) (sampleRate tl)
        else Done t) = Done (waitStart tl')
    /\ idleTime tl' = idleTime tl
    /\ (forall t2, AKTimelineStartAtTime tick tl' t2 = Done tl').
Proof.
  intros tick tl t tl' Hs H.
  destruct (startAtTime_waitStart _ _ _ _ Hs H) as [St W].
  split; [exact St |]. split; [exact W |]. split.
  - unfold AKTimelineStartAtTime in H. rewrite Hs in H.
    apply bind_Done_inv in H as (w & Ew & H).
    apply bind_Done_inv in H as (k & Ek & H).
    apply bind_Done_inv in H as (ls & E1 & H).
    apply bind_Done_inv in H as (le & E2 & H).
    apply setState_step in H as [b ->]. now destruct tl.
  - intros t2. unfold AKTimelineStartAtTime. now rewrite St.
Qed.

Lemma desiredState_inv a b :
  desiredState a = desiredState b ->
  baseTime a = baseTime b /\ waitStart a = waitStart b
  /\ idleTime a = idleTime b /\ loopStart a = loopStart b
  /\ loopEnd a = loopEnd b.
Proof. unfold desiredState. intros H. injection H. auto. Qed.

Lemma timeAtTime_idle tick tl t :
  AKTimelineIsStarted tl = false ->
  AKTimelineTimeAtTime tick tl t = Done (idleTime tl, tl).
Proof. intros H. unfold AKTimelineTimeAtTime. now rewrite H. Qed.

(** X16.  After [AKTimelineStop] the timeline is not started, its idle
    position is the position [AKTimelineTimeAtTime] reported at the moment
    of the stop, every later query returns that position, and the next
    uncontended render call finds the timeline idle: it invokes no
    callback, whatever its frame count, and empties the queue. *)
Theorem stop_then_idle :
  forall tick tl now tl',
    AKTimelineStop tick tl now = Done tl' ->
    AKTimelineIsStarted tl' = false
    /\ (exists tl0,
          AKTimelineTimeAtTime tick tl (AudioTimeNow now)
          = Done (idleTime tl', tl0))
    /\ (forall t, AKTimelineTimeAtTime tick tl' t = Done (idleTime tl', tl'))
    /\ (forall fuel ts n,
          exists tl'',
            AKTimeLineRender tick fuel false tl' ts n = Done (tl'', [])
            /\ AKTimelineIsStarted tl'' = false
            /\ messageQueue tl'' = []).
Proof.
  intros tick tl now tl' H.
  apply stop_shape in H as (v & b & T & ->).
  set (tl1 := set_waitStart AudioTimeZero
                (set_baseTime AudioTimeZero (set_idleTime v tl))).
  assert (B : baseTime tl1 = AudioTimeZero) by now destruct tl.
  assert (I : idleTime (AKTimelineSyncronize tl1) = v) by now destruct tl.
  assert (S : AKTimelineIsStarted (AKTimelineSyncronize tl1) = false)
    by now destruct tl.
  split; [exact S |]. split; [rewrite I; eexists; exact T |].
  split; [intros t; now apply timeAtTime_idle |].
  intros fuel ts n.
  destruct (drain_after_synchronize tl1)
    as (Sb & _ & _ & _ & Db & _ & _ & _ & Q).
  cbv zeta in Sb, Db, Q. rewrite B in Sb, Db.
  unfold AKTimeLineRender, renderPrologue.
  destruct (renderLatch_fields
              (renderDrain false (AKTimelineSyncronize tl1)) ts n)
    as (L1 & _ & _ & _ & Lq & _).
  destruct (renderLatch_desired
              (renderDrain false (AKTimelineSyncronize tl1)) ts n)
    as (Ld & _).
  set (tl2 := renderLatch _ ts n) in *.
  assert (B2 : baseTime tl2 = AudioTimeZero)
    by (apply desiredState_inv in Ld as (-> & _); exact Db).
  rewrite L1, Sb.
  change (SampleTimeValid AudioTimeZero) with false.
  change (HostTimeValid AudioTimeZero) with false.
  cbn [negb andb bind]. eexists. split; [reflexivity |].
  split.
  - unfold AKTimelineIsStarted. now rewrite B2.
  - now rewrite Lq.
Qed.

(** ** Sample accuracy *)



Section Phases.

Variable tick : Float64.








End Phases.



(** X19.  On a timeline that is not started, [AKTimelineSetTime] only
    stores the idle position (no message is sent, the timeline stays
    stopped), and every position query then returns it. *)
Theorem setTime_idle :
  forall tick tl k now tl',
    AKTimelineIsStarted tl = false ->
    AKTimelineSetTime tick tl k now = Done tl' ->
    tl' = set_idleTime (F64.of_Z k) tl
    /\ AKTimelineIsStarted tl' = false
    /\ (forall t, AKTimelineTimeAtTime tick tl' t = Done (F64.of_Z k, tl')).
Proof.
  intros tick tl k now tl' Hs H. unfold AKTimelineSetTime in H.
  rewrite Hs in H. inv_done H.
  assert (S : AKTimelineIsStarted (set_idleTime (F64.of_Z k) tl) = false)
    by (rewrite <- Hs; now destruct tl).
  split; [reflexivity |]. split; [exact S |].
  intros t. rewrite (timeAtTime_idle _ _ t S). now destruct tl.
Qed.



(** ** Waiting *)

Lemma bind_returns (A B : Type) (m : outcome A) (k : A -> outcome B) :
  returns m -> (forall a, returns (k a)) -> returns (bind m k).
Proof. unfold returns. destruct m; simpl; auto; discriminate. Qed.

Ltac returns_step :=
  first
    [ discriminate
    | assumption
    | apply bind_returns; [| intros]
    | match goal with
      | |- returns (if ?b then _ else _) => destruct b
      | |- returns (match ?x with _ => _ end) => destruct x
      | |- returns (Done _) => unfold returns
      | |- returns (Fault _) => unfold returns
      end ].

Lemma div_returns a b : returns (F64.div a b).
Proof. unfold F64.div. repeat returns_step. Qed.

Lemma to_range_returns lo hi a : returns (F64.to_range lo hi a).
Proof. unfold F64.to_range. repeat returns_step. Qed.

Lemma hostOffset_returns tick n r : returns (hostOffset tick n r).
Proof.
  unfold hostOffset.
  repeat first [apply div_returns | apply to_range_returns | returns_step].
Qed.

Lemma TimeStampOffset_returns tick t n r : returns (TimeStampOffset tick t n r).
Proof.
  unfold TimeStampOffset. cbv zeta.
  repeat first [apply hostOffset_returns | returns_step].
Qed.

Lemma extrapolateTime_returns tick t a r : returns (extrapolateTime tick t a r).
Proof.
  unfold extrapolateTime.
  repeat first [apply div_returns | apply to_range_returns | returns_step].
Qed.

Lemma setState_returns tick tl k ls le t :
  returns (AKTimelineSetState tick tl k ls le t).
Proof.
  unfold AKTimelineSetState.
  repeat first [apply TimeStampOffset_returns | apply extrapolateTime_returns
               | returns_step].
Qed.

Lemma startAtTime_returns tick tl t : returns (AKTimelineStartAtTime tick tl t).
Proof.
  unfold AKTimelineStartAtTime.
  repeat first [apply setState_returns | apply extrapolateTime_returns
               | apply to_range_returns | returns_step].
Qed.

(** X23.  After a render call of [n > 0] frames has returned,
    [AKTimelineStart] no longer waits; on a timeline that is not started and
    a device time stamp valid in both domains it starts the timeline at the
    first frame after that buffer: the wait start is valid in both domains,
    at sample time [mSampleTime ts + n]. *)
Theorem start_after_render :
  forall tick fuel lock tl ts n tl1 segs,
    AKTimeLineRender tick fuel lock tl ts n = Done (tl1, segs) ->
    n <> 0 ->
    AKTimelineStart tick tl1 <> OutOfFuel
    /\ (forall tl2,
          AKTimelineIsStarted tl = false ->
          SampleAndHostTimeValid ts = true ->
          AKTimelineStart tick tl1 = Done tl2 ->
          AKTimelineIsStarted tl2 = true
          /\ SampleAndHostTimeValid (waitStart tl2) = true
          /\ mSampleTime (waitStart tl2)
             = F64.add (mSampleTime ts) (F64.of_Z n)).
Proof.
  intros tick fuel lock tl ts n tl1 segs H Hn.
  destruct (render_fields _ _ _ _ _ _ _ _ H) as (D & _ & Lt & Lf & A & _).
  unfold AKTimelineStart. rewrite Lf, Lt.
  replace (n =? 0) with false by (symmetry; now apply Z.eqb_neq).
  split.
  - apply bind_returns;
      [apply TimeStampOffset_returns | intros; apply startAtTime_returns].
  - intros tl2 Hs V S.
    apply bind_Done_inv in S as (next & En & S).
    assert (Hs1 : AKTimelineIsStarted tl1 = false).
    { unfold AKTimelineIsStarted in *.
      apply desiredState_inv in D as (-> & _). exact Hs. }
    destruct (startAtTime_waitStart _ _ _ _ Hs1 S) as (St & W).
    split; [exact St |].
    assert (Va : SampleAndHostTimeValid (anchorTime tl1) = true).
    { rewrite A. destruct (SampleAndHostTimeValid (anchorTime tl)) eqn:Va;
        assumption. }
    rewrite Va in W.
    destruct (extrapolateTime_effect _ _ _ _ _ W) as (Vw & _ & K).
    split; [exact Vw |].
    destruct (valid_of_flags _ _ (TimeStampOffset_flags _ _ _ _ _ En))
      as [S1 _].
    assert (V' := V). unfold SampleAndHostTimeValid in V'.
    apply andb_true_iff in V' as [Vs Vh].
    rewrite S1, Vs in K. rewrite K.
    unfold TimeStampOffset in En. rewrite Vs in En.
    replace (HostTimeValid (mkAudioTimeStamp _ (mHostTime ts) (mFlags ts)))
      with true in En by (symmetry; exact Vh).
    inv_bind En. destruct (hostClamped _ _); now inv_done En.
Qed.

(** ** The shape of a looped buffer *)

Section SegmentShape.

Variables s e : Z.
Hypothesis Hbounds : 0 <= s < e.





End SegmentShape.





(** ** The further properties at work *)

Ltac run := vm_compute; reflexivity.

Lemma safeSubtract_difference_witness :
  safeSubtract 5 7 = - 2 /\ safeSubtract 7 5 = 2.
Proof.
  assert (R : - 2 ^ 63 <= 5 - 7 < 2 ^ 63) by lia.
  destruct (safeSubtract_difference 5 7 R) as [A B].
  split; [exact A |]. rewrite B by lia. rewrite A. reflexivity.
Defined.

Lemma control_calls_leave_render_state_witness :
  exists tl',
    perform Scenario.nanosecond (Scenario.run Scenario.first_call)
      (SetLoop (F64.of_Z 0) (F64.of_Z 100)) = Done tl'
    /\ shadowState tl' = shadowState (Scenario.run Scenario.first_call)
    /\ renderState tl' = renderState (Scenario.run Scenario.first_call)
    /\ length (messageQueue tl') = 1%nat.
Proof.
  eassert (P : perform Scenario.nanosecond (Scenario.run Scenario.first_call)
                 (SetLoop (F64.of_Z 0) (F64.of_Z 100)) = Done _)
    by (vm_compute; reflexivity).
  destruct (control_calls_leave_render_state Scenario.nanosecond
              (Scenario.run Scenario.first_call)
              (SetLoop (F64.of_Z 0) (F64.of_Z 100)) _ ltac:(run) ltac:(run) P)
    as (S & R & _).
  eexists. split; [exact P |]. split; [exact S |]. split; [exact R |].
  vm_compute. reflexivity.
Defined.

Lemma render_leaves_desired_state_witness :
  exists tl' segs,
    AKTimeLineRender Scenario.nanosecond 0 false
      (Scenario.run Scenario.started_on_host_time)
      (Scenario.deviceTime 0 1000) 512 = Done (tl', segs)
    /\ desiredState tl'
       = desiredState (Scenario.run Scenario.started_on_host_time)
    /\ anchorTime tl' = Scenario.deviceTime 0 1000
    /\ lastRenderFrames tl' = 512
    /\ messageQueue tl' = [].
Proof.
  eassert (R : AKTimeLineRender Scenario.nanosecond 0 false
                 (Scenario.run Scenario.started_on_host_time)
                 (Scenario.deviceTime 0 1000) 512 = Done (_, _))
    by (vm_compute; reflexivity).
  destruct (render_leaves_desired_state _ _ _ _ _ _ _ _ R)
    as (D & _ & _ & F & A & _ & Q).
  eexists. eexists. split; [exact R |]. split; [exact D |].
  split; [exact A |]. split; [exact F | exact Q].
Defined.

Lemma calls_keep_configuration_and_anchor_witness :
  exists tl',
    performAll Scenario.nanosecond (Scenario.run Scenario.first_call)
      Session.busy = Done tl'
    /\ sampleRate tl' = Scenario.rate
    /\ anchorTime tl' = Scenario.deviceTime 0 1000
    /\ lastRenderTime tl' = Scenario.second_stamp.
Proof.
  eassert (P : performAll Scenario.nanosecond
                 (Scenario.run Scenario.first_call) Session.busy = Done _)
    by (vm_compute; reflexivity).
  destruct (calls_keep_configuration_and_anchor _ _ _ _ P) as (S & _ & A).
  eexists. split; [exact P |]. split; [exact S |].
  split; [exact (A ltac:(run)) | vm_compute; reflexivity].
Defined.

Lemma shadow_base_resolved_between_calls_witness :
  exists tl',
    performAll Scenario.nanosecond Session.fresh Session.host_start = Done tl'
    /\ resolvedOrZero (_baseTime tl') = true
    /\ mFlags (baseTime tl') = 2
    /\ mFlags (_baseTime tl') = 3.
Proof.
  eassert (P : performAll Scenario.nanosecond Session.fresh
                 Session.host_start = Done _) by (vm_compute; reflexivity).
  pose proof (shadow_base_resolved_between_calls Scenario.nanosecond
                Session.host_start Session.fresh _ ltac:(run) ltac:(run) P)
    as R.
  eexists. split; [exact P |]. split; [exact R |].
  split; vm_compute; reflexivity.
Defined.

Lemma calls_keep_loops_ordered_witness :
  exists tl',
    performAll Scenario.nanosecond Session.fresh Session.fractional = Done tl'
    /\ loopsOrdered tl'
    /\ _loopStart tl' = F64.of_Z 20 /\ _loopEnd tl' = F64.of_Z 51.
Proof.
  eassert (P : performAll Scenario.nanosecond Session.fresh
                 Session.fractional = Done _) by (vm_compute; reflexivity).
  assert (L : loopsOrdered Session.fresh).
  { unfold loopsOrdered, loopOrdered. simpl.
    split; [split; apply Qle_refl |].
    split; [constructor | split; apply Qle_refl]. }
  pose proof (calls_keep_loops_ordered Scenario.nanosecond
                Session.fractional Session.fresh _ ltac:(run) L P) as O.
  eexists. split; [exact P |]. split; [exact O |].
  split; vm_compute; reflexivity.
Defined.

Lemma extrapolateTime_completes_witness :
  exists t',
    extrapolateTime Scenario.nanosecond (Scenario.atSample 12345)
      (Scenario.deviceTime 0 1000) Scenario.rate = Done t'
    /\ SampleAndHostTimeValid t' = true
    /\ mSampleTime t' = F64.of_Z 12345
    /\ mHostTime t' = 279932973.
Proof.
  eassert (E : extrapolateTime Scenario.nanosecond (Scenario.atSample 12345)
                 (Scenario.deviceTime 0 1000) Scenario.rate = Done _)
    by (vm_compute; reflexivity).
  destruct (extrapolateTime_completes _ _ _ _ _ E) as [V K].
  eexists. split; [exact E |]. split; [exact V |].
  split; [exact K | vm_compute; reflexivity].
Defined.

Lemma extrapolate_round_trip_witness :
  exists t1 t2,
    extrapolateTime Scenario.nanosecond (Scenario.atSample 12345)
      (Scenario.deviceTime 0 1000) Scenario.rate = Done t1
    /\ mHostTime t1 = 279932973
    /\ extrapolateTime Scenario.nanosecond (AudioTimeNow (mHostTime t1))
         (Scenario.deviceTime 0 1000) Scenario.rate = Done t2
    /\ mSampleTime t2 = F64.of_Z 12345.
Proof.
  eassert (E : extrapolateTime Scenario.nanosecond (Scenario.atSample 12345)
                 (Scenario.deviceTime 0 1000) Scenario.rate = Done _)
    by (vm_compute; reflexivity).
  assert (T : (0 < Scenario.nanosecond)%Q) by reflexivity.
  assert (R : (0 < Scenario.rate)%Q) by reflexivity.
  assert (F : (Scenario.nanosecond * Scenario.rate <= 1 # 2)%Q)
    by (vm_compute; discriminate).
  assert (V : SampleTimeValid (Scenario.atSample 12345) = true)
    by reflexivity.
  assert (A : 0 <= mHostTime (Scenario.deviceTime 0 1000) < 2 ^ 53)
    by (cbn; lia).
  match type of E with
  | _ = Done ?t1 =>
      assert (D : 0 <= mHostTime t1 < 2 ^ 53) by (cbn; lia);
      destruct (extrapolate_round_trip Scenario.nanosecond
                  (Scenario.atSample 12345) (Scenario.deviceTime 0 1000)
                  Scenario.rate 12345 0 t1 F64.zero T R F V
                  (eq_refl (F64.of_Z 12345)) (eq_refl (F64.of_Z 0))
                  ltac:(lia) ltac:(lia) ltac:(lia) A E D)
        as (t2 & E2 & S & _)
  end.
  eexists. exists t2. split; [exact E |].
  split; [reflexivity |]. split; [exact E2 | exact S].
Defined.

Lemma offset_never_underflows_witness :
  exists t',
    TimeStampOffset Scenario.nanosecond (Scenario.deviceTime 100 5) (- 512)
      Scenario.rate = Done t'
    /\ hostOffset Scenario.nanosecond (- 512) Scenario.rate
       = Done (- 11609977)
    /\ mHostTime t' = 5
    /\ mSampleTime t' = F64.of_Z (- 412).
Proof.
  eassert (E : TimeStampOffset Scenario.nanosecond (Scenario.deviceTime 100 5)
                 (- 512) Scenario.rate = Done _) by (vm_compute; reflexivity).
  assert (O : hostOffset Scenario.nanosecond (- 512) Scenario.rate
              = Done (- 11609977)) by (vm_compute; reflexivity).
  assert (R : 0 <= mHostTime (Scenario.deviceTime 100 5) < 2 ^ 64)
    by (cbn; lia).
  destruct (offset_never_underflows Scenario.nanosecond
              (Scenario.deviceTime 100 5) _ _ _ _
              ltac:(run) R O ltac:(lia) E) as (H & _ & S & _).
  eexists. split; [exact E |]. split; [exact O |].
  split; [exact H |]. rewrite (S ltac:(run)). vm_compute. reflexivity.
Defined.

Lemma offset_in_two_steps_witness :
  exists t2 t3,
    (t1 <- TimeStampOffset Scenario.nanosecond (Scenario.deviceTime 0 1000) 1
             Scenario.rate ;;
     TimeStampOffset Scenario.nanosecond t1 1 Scenario.rate) = Done t2
    /\ TimeStampOffset Scenario.nanosecond (Scenario.deviceTime 0 1000) 2
         Scenario.rate = Done t3
    /\ mSampleTime t2 = mSampleTime t3
    /\ Z.abs (mHostTime t2 - mHostTime t3) <= 1
    /\ mHostTime t2 = 46352 /\ mHostTime t3 = 46351.
Proof.
  eassert (E1 : TimeStampOffset Scenario.nanosecond
                  (Scenario.deviceTime 0 1000) 1 Scenario.rate = Done _)
    by run.
  match type of E1 with
  | _ = Done ?t1 =>
      eassert (E2 : TimeStampOffset Scenario.nanosecond t1 1 Scenario.rate
                    = Done _) by run
  end.
  eassert (E3 : TimeStampOffset Scenario.nanosecond
                  (Scenario.deviceTime 0 1000) (1 + 1) Scenario.rate = Done _)
    by run.
  assert (O : hostOffset Scenario.nanosecond (1 + 1) Scenario.rate
              = Done 45351) by run.
  assert (B0 : binary64 (mSampleTime (Scenario.deviceTime 0 1000))).
  { exists 0, 0. split; [lia |]. split; [lia | run]. }
  assert (B1 : binary64 (mSampleTime (Scenario.deviceTime 0 1000)
                         + inject_Z 1)).
  { exists 1, 0. split; [lia |]. split; [lia | run]. }
  assert (B2 : binary64 (mSampleTime (Scenario.deviceTime 0 1000)
                         + inject_Z (1 + 1))).
  { exists 2, 0. split; [lia |]. split; [lia | run]. }
  destruct (offset_in_two_steps Scenario.nanosecond
              (Scenario.deviceTime 0 1000) Scenario.rate 1 1 _ _ _ _
              ltac:(run) ltac:(run) ltac:(run) ltac:(lia) ltac:(lia)
              ltac:(lia) B0 B1 B2 O
              ltac:(lia) ltac:(cbn; lia) ltac:(cbn; lia) E1 E2 E3)
    as (S & _ & H).
  eexists. eexists. split; [rewrite E1; exact E2 |]. split; [exact E3 |].
  split; [exact S |]. split; [exact H |]. split; vm_compute; reflexivity.
Defined.

Lemma startAtTime_starts_witness :
  exists tl',
    AKTimelineStartAtTime Scenario.nanosecond Session.fresh
      (Scenario.atSample 0) = Done tl'
    /\ AKTimelineIsStarted tl' = true
    /\ waitStart tl' = Scenario.atSample 0
    /\ AKTimelineStartAtTime Scenario.nanosecond tl' (Scenario.atSample 7)
       = Done tl'.
Proof.
  eassert (E : AKTimelineStartAtTime Scenario.nanosecond Session.fresh
                 (Scenario.atSample 0) = Done _) by (vm_compute; reflexivity).
  destruct (startAtTime_starts Scenario.nanosecond Session.fresh
              (Scenario.atSample 0) _ ltac:(run) E) as (S & W & _ & N).
  eexists. split; [exact E |]. split; [exact S |].
  split; [vm_compute; reflexivity | apply N].
Defined.

Lemma stop_then_idle_witness :
  exists tl' tl'',
    AKTimelineStop Scenario.nanosecond (Scenario.run Scenario.first_call)
      22676757 = Done tl'
    /\ AKTimelineIsStarted (Scenario.run Scenario.first_call) = true
    /\ AKTimelineIsStarted tl' = false
    /\ idleTime tl' = F64.of_Z 1000
    /\ AKTimelineTimeAtTime Scenario.nanosecond tl' (Scenario.atSample 5000)
       = Done (F64.of_Z 1000, tl')
    /\ AKTimeLineRender Scenario.nanosecond 0 false tl'
         Scenario.second_stamp 512 = Done (tl'', []).
Proof.
  eassert (E : AKTimelineStop Scenario.nanosecond
                 (Scenario.run Scenario.first_call) 22676757 = Done _)
    by (vm_compute; reflexivity).
  destruct (stop_then_idle _ _ _ _ E) as (S & _ & T & R).
  destruct (R 0%nat Scenario.second_stamp 512) as (tl'' & R' & _).
  eexists. exists tl''. split; [exact E |].
  split; [vm_compute; reflexivity |]. split; [exact S |].
  split; [vm_compute; reflexivity |].
  split; [| exact R'].
  rewrite T. vm_compute. reflexivity.
Defined.


Lemma setTime_idle_witness :
  exists tl',
    AKTimelineSetTime Scenario.nanosecond Session.fresh 10 0 = Done tl'
    /\ messageQueue tl' = []
    /\ AKTimelineTimeAtTime Scenario.nanosecond tl' (AudioTimeNow 99)
       = Done (F64.of_Z 10, tl').
Proof.
  eassert (E : AKTimelineSetTime Scenario.nanosecond Session.fresh 10 0
               = Done _) by (vm_compute; reflexivity).
  destruct (setTime_idle Scenario.nanosecond Session.fresh 10 0 _ ltac:(run) E)
    as (S & _ & T).
  eexists. split; [exact E |]. split; [reflexivity | apply T].
Defined.



Lemma start_after_render_witness :
  exists tl1 segs tl2,
    AKTimeLineRender Scenario.nanosecond 0 false Session.fresh
      (Scenario.deviceTime 0 1000) 512 = Done (tl1, segs)
    /\ AKTimelineStart Scenario.nanosecond Session.fresh = OutOfFuel
    /\ AKTimelineStart Scenario.nanosecond tl1 = Done tl2
    /\ AKTimelineIsStarted tl2 = true
    /\ mSampleTime (waitStart tl2) = F64.of_Z 512.
Proof.
  eassert (R : AKTimeLineRender Scenario.nanosecond 0 false Session.fresh
                 (Scenario.deviceTime 0 1000) 512 = Done (_, _))
    by (vm_compute; reflexivity).
  match type of R with
  | _ = Done (?tl1, _) =>
      eassert (S : AKTimelineStart Scenario.nanosecond tl1 = Done _)
        by (vm_compute; reflexivity)
  end.
  destruct (start_after_render _ _ _ _ _ _ _ _ R ltac:(lia)) as [_ W].
  destruct (W _ ltac:(run) ltac:(run) S) as (St & _ & M).
  eexists. eexists. eexists. split; [exact R |].
  split; [reflexivity |]. split; [exact S |]. split; [exact St |].
  rewrite M. vm_compute. reflexivity.
Defined.


